(** * Signal-to-position lifecycle: classifier, execution service, position monitor

    A shallow embedding of [services/signal_classifier.py],
    [services/signal_execution_service.py] and
    [services/position_monitor_service.py], and the properties of the
    design document that are about them.

    Conventions of the embedding:
    - Python values are the inductive [value]; a [dict] with string keys is a
      [gmap string value]; keyword tables whose iteration order matters are
      association lists in source order.
    - Python [float] is the kernel's binary64 [float]; [float(s)], [str(x)]
      and [round] are modelled on exact integer arithmetic.
    - Text is ASCII: [string] is read as a sequence of code points below 128,
      and the character classes and case mappings are the ASCII ones. A
      message of the code with a character outside ASCII holds its UTF-8
      bytes.
    - Code that can raise returns [res]; the clock ([datetime.now()]) and the
      external collaborators are explicit inputs.
    - [execute_signal] is read with its lines 283-328 inside the [try] of line
      258, the only block structure that fits the [except] of line 329. As
      the file stands these lines are dedented and the module does not
      compile; the listener, which imports the executor at each message, is
      modelled with the outcome of that import
      ([TelegramListener.shipped_import]). *)

From Stdlib Require Import ZArith Floats String Ascii List Bool Lia Uint63 DecimalString.
From stdpp Require Import base option list gmap strings.

Set Warnings "-inexact-float,-register-all,-comment-terminator-in-string,-abstract-large-number".
Local Open Scope string_scope.

Module Py.

(** Exceptions the modelled code can raise, each carrying what [str(e)]
    prints. *)
Inductive exn :=
| ValueError (msg : string)
| TypeError (msg : string)
| KeyError (key : string)
| NameError (name : string)
| AttributeError (msg : string)
| OverflowError (msg : string)
| SyntaxError (msg : string).

Definition exn_str (e : exn) : string :=
  match e with
  | ValueError msg => msg
  | TypeError msg => msg
  | KeyError key => "'" +:+ key +:+ "'"
  | NameError name => "name '" +:+ name +:+ "' is not defined"
  | AttributeError msg => msg
  | OverflowError msg => msg
  | SyntaxError msg => msg
  end.

Inductive res (A : Type) : Type :=
| Ok (a : A)
| Raise (e : exn).
Arguments Ok {A} a.
Arguments Raise {A} e.

Definition bind {A B} (c : res A) (k : A -> res B) : res B :=
  match c with
  | Ok a => k a
  | Raise e => Raise e
  end.

(** ** Characters and strings (ASCII) *)

Definition code (c : ascii) : nat := nat_of_ascii c.
Definition in_range (lo hi : nat) (c : ascii) : bool :=
  Nat.leb lo (code c) && Nat.leb (code c) hi.
Definition is_upper (c : ascii) : bool := in_range 65 90 c.
Definition is_lower (c : ascii) : bool := in_range 97 122 c.
Definition is_digit (c : ascii) : bool := in_range 48 57 c.
Definition is_alpha (c : ascii) : bool := is_upper c || is_lower c.
(* [\s] on ASCII: space, \t \n \v \f \r, and the separators 0x1c..0x1f *)
Definition is_space (c : ascii) : bool :=
  Nat.eqb (code c) 32 || in_range 9 13 c || in_range 28 31 c.
Definition is_word (c : ascii) : bool :=
  is_alpha c || is_digit c || Nat.eqb (code c) 95.

Definition lower_char (c : ascii) : ascii :=
  if is_upper c then ascii_of_nat (code c + 32) else c.
Definition upper_char (c : ascii) : ascii :=
  if is_lower c then ascii_of_nat (code c - 32) else c.

Fixpoint map_string (f : ascii -> ascii) (s : string) : string :=
  match s with
  | EmptyString => EmptyString
  | String c s' => String (f c) (map_string f s')
  end.
Definition lower : string -> string := map_string lower_char.
Definition upper : string -> string := map_string upper_char.

Fixpoint join (sep : string) (l : list string) : string :=
  match l with
  | [] => ""
  | [s] => s
  | s :: l' => s +:+ sep +:+ join sep l'
  end.

Fixpoint prefix_of (p s : string) : bool :=
  match p, s with
  | EmptyString, _ => true
  | String a p', String b s' => if Ascii.eqb a b then prefix_of p' s' else false
  | String _ _, EmptyString => false
  end.

(* [needle in hay] *)
Fixpoint contains (needle hay : string) : bool :=
  prefix_of needle hay ||
  match hay with
  | EmptyString => false
  | String _ hay' => contains needle hay'
  end.

Definition str_of_Z (z : Z) : string := NilZero.string_of_int (Z.to_int z).

(** ** Exact rationals as pairs (numerator, positive denominator) *)

Definition rat := (Z * Z)%type.
Definition rat_cmp (a b : rat) : comparison := (a.1 * b.2 ?= b.1 * a.2)%Z.
Definition rat_ltb (a b : rat) : bool :=
  match rat_cmp a b with Lt => true | _ => false end.
Definition rat_eqb (a b : rat) : bool :=
  match rat_cmp a b with Eq => true | _ => false end.
Definition rat_leb (a b : rat) : bool := rat_ltb a b || rat_eqb a b.
Definition rat_sub (a b : rat) : rat := (a.1 * b.2 - b.1 * a.2, a.2 * b.2)%Z.
Definition rat_abs (a : rat) : rat := (Z.abs a.1, a.2).
Definition rat_floor (a : rat) : Z := (a.1 / a.2)%Z.
(* m * 2^e and c * 10^k *)
Definition rat_bin (m e : Z) : rat :=
  if (0 <=? e)%Z then (m * 2 ^ e, 1)%Z else (m, 2 ^ (- e))%Z.
Definition rat_dec (c k : Z) : rat :=
  if (0 <=? k)%Z then (c * 10 ^ k, 1)%Z else (c, 10 ^ (- k))%Z.
Definition rat_div (a b : rat) : rat := (a.1 * b.2, a.2 * b.1)%Z.

(** ** binary64 *)

Definition float_of_nonneg (q : Z) : float := PrimFloat.of_uint63 (Uint63.of_Z q).

(** The double nearest to [n / d] (ties to even), for [0 <= n] and [0 < d]:
    what [float(s)] and [int / int] return. *)
Definition round_rat (n d : Z) : float :=
  if (n =? 0)%Z then 0%float else
  let l := (Z.log2 n - Z.log2 d)%Z in
  let q0 := rat_floor (rat_div (n, d) (rat_bin 1 (l - 53))) in
  let e1 := if (q0 <? 2 ^ 53)%Z then (l - 53)%Z else (l - 52)%Z in
  let e := Z.max e1 (-1074) in
  let x := rat_div (n, d) (rat_bin 1 e) in
  let q := rat_floor x in
  let r := (x.1 mod x.2)%Z in
  let up :=
    match (2 * r ?= x.2)%Z with
    | Gt => true
    | Eq => Z.odd q
    | Lt => false
    end in
  Z.ldexp (float_of_nonneg (if up then q + 1 else q)%Z) e.

Definition float_of_Z (z : Z) : float :=
  if (z <? 0)%Z then (- round_rat (- z) 1)%float else round_rat z 1.

(** *** [repr(float)]: the shortest decimal that reads back as the same
    double, printed as CPython's [float_repr_style = 'short'] does. *)

(* is the decimal c * 10^k read back as the double m * 2^e ? *)
Definition reads_back (m e c k : Z) : bool :=
  let v := rat_bin m e in
  let y := rat_dec c k in
  let diff := rat_abs (rat_sub y v) in
  let gap_up := rat_bin 1 (e - 1) in
  let gap_dn :=
    if (m =? 2 ^ 52)%Z && (-1074 <? e)%Z then rat_bin 1 (e - 2) else rat_bin 1 (e - 1) in
  let gap := if rat_ltb y v then gap_dn else gap_up in
  rat_ltb diff gap || (rat_eqb diff gap && Z.even m).

Fixpoint find_decpt (fuel : nat) (dp : Z) (v : rat) : Z :=
  match fuel with
  | O => dp
  | S fuel' => if rat_ltb v (rat_dec 1 dp) then dp else find_decpt fuel' (dp + 1)%Z v
  end.

(* the least dp with m * 2^e < 10^dp *)
Definition decpt_of (m e : Z) : Z :=
  let l := (Z.log2 m + e)%Z in
  find_decpt 8 (l * 30103 / 100000 - 1)%Z (rat_bin m e).

Fixpoint shortest_go (fuel : nat) (p : Z) (m e dp : Z) : Z * Z :=
  let v := rat_bin m e in
  let k := (dp - p)%Z in
  let c1 := rat_floor (rat_div v (rat_dec 1 k)) in
  let c2 := (c1 + 1)%Z in
  match fuel with
  | O => (c1, k)
  | S fuel' =>
      match reads_back m e c1 k, reads_back m e c2 k with
      | true, true =>
          let d1 := rat_abs (rat_sub (rat_dec c1 k) v) in
          let d2 := rat_abs (rat_sub (rat_dec c2 k) v) in
          if rat_ltb d2 d1 || (rat_eqb d1 d2 && Z.odd c1) then (c2, k) else (c1, k)
      | true, false => (c1, k)
      | false, true => (c2, k)
      | false, false => shortest_go fuel' (p + 1)%Z m e dp
      end
  end.

Fixpoint strip_zeros (fuel : nat) (c k : Z) : Z * Z :=
  match fuel with
  | O => (c, k)
  | S fuel' =>
      if (c mod 10 =? 0)%Z && negb (c =? 0)%Z
      then strip_zeros fuel' (c / 10)%Z (k + 1)%Z
      else (c, k)
  end.

Fixpoint zeros (n : nat) : string :=
  match n with
  | O => ""
  | S n' => String "0" (zeros n')
  end.

Fixpoint str_take (n : nat) (s : string) : string :=
  match n, s with
  | S n', String c s' => String c (str_take n' s')
  | _, _ => ""
  end.
Fixpoint str_drop (n : nat) (s : string) : string :=
  match n, s with
  | S n', String _ s' => str_drop n' s'
  | _, _ => s
  end.

(* digits d1 d2 ... dn standing for 0.d1d2...dn * 10^decpt *)
Definition format_repr (digits : string) (decpt : Z) : string :=
  let n := Z.of_nat (String.length digits) in
  if (decpt <=? -4)%Z || (16 <? decpt)%Z then
    let ex := (decpt - 1)%Z in
    let mant :=
      if (n =? 1)%Z then digits
      else str_take 1 digits +:+ "." +:+ str_drop 1 digits in
    let exs := str_of_Z (Z.abs ex) in
    mant +:+ "e" +:+ (if (ex <? 0)%Z then "-" else "+")
         +:+ (if (Z.abs ex <? 10)%Z then "0" +:+ exs else exs)
  else if (decpt <=? 0)%Z then
    "0." +:+ zeros (Z.to_nat (- decpt)) +:+ digits
  else if (n <=? decpt)%Z then
    digits +:+ zeros (Z.to_nat (decpt - n)) +:+ ".0"
  else
    str_take (Z.to_nat decpt) digits +:+ "." +:+ str_drop (Z.to_nat decpt) digits.

Definition float_repr (f : float) : string :=
  match Prim2SF f with
  | S754_nan => "nan"
  | S754_infinity s => if s then "-inf" else "inf"
  | S754_zero s => if s then "-0.0" else "0.0"
  | S754_finite s m e =>
      let '(c, k) := shortest_go 17 1 (Zpos m) e (decpt_of (Zpos m) e) in
      let '(c, k) := strip_zeros 40 c k in
      let digits := str_of_Z c in
      (if s then "-" else "") +:+
      format_repr digits (k + Z.of_nat (String.length digits))
  end.

(** *** [round(x, nd)] and ['%.{nd}f' % x]: the exact value of [x] rounded
    half-even to [nd] decimals. *)

Definition round_half_even (a : rat) : Z :=
  let q := rat_floor a in
  let r := (a.1 mod a.2)%Z in
  match (2 * r ?= a.2)%Z with
  | Gt => (q + 1)%Z
  | Eq => if Z.odd q then (q + 1)%Z else q
  | Lt => q
  end.

Definition py_round (f : float) (nd : Z) : float :=
  match Prim2SF f with
  | S754_finite s m e =>
      let q := round_half_even (rat_div (rat_bin (Zpos m) e) (rat_dec 1 (- nd))) in
      let y := rat_dec q (- nd) in
      let r := round_rat y.1 y.2 in
      if s then (- r)%float else r
  | _ => f
  end.

Definition format_f (nd : nat) (f : float) : string :=
  match Prim2SF f with
  | S754_nan => "nan"
  | S754_infinity s => if s then "-inf" else "inf"
  | S754_zero s =>
      (if s then "-" else "") +:+ "0" +:+
      (if Nat.eqb nd 0 then "" else "." +:+ zeros nd)
  | S754_finite s m e =>
      let q := round_half_even (rat_div (rat_bin (Zpos m) e) (rat_dec 1 (- Z.of_nat nd))) in
      let ip := (q / 10 ^ Z.of_nat nd)%Z in
      let fp := str_of_Z (q mod 10 ^ Z.of_nat nd)%Z in
      (if s then "-" else "") +:+ str_of_Z ip +:+
      (if Nat.eqb nd 0 then ""
       else "." +:+ zeros (nd - String.length fp) +:+ fp)
  end.

(** *** [float(s)] on a string: optional blanks and sign, then [inf],
    [infinity], [nan], or a decimal literal with optional fraction and
    exponent (single underscores between digits allowed). *)

Definition digit_val (c : ascii) : Z := Z.of_nat (code c - 48).

Fixpoint scan_digits (acc : Z) (cnt : nat) (l : list ascii) : Z * nat * list ascii :=
  match l with
  | c :: l' =>
      if is_digit c then scan_digits (acc * 10 + digit_val c)%Z (S cnt) l'
      else if Ascii.eqb c "_" && negb (Nat.eqb cnt 0) then
        match l' with
        | d :: _ => if is_digit d then scan_digits acc cnt l' else (acc, cnt, l)
        | [] => (acc, cnt, l)
        end
      else (acc, cnt, l)
  | [] => (acc, cnt, [])
  end.

Fixpoint lstrip (l : list ascii) : list ascii :=
  match l with
  | c :: l' => if is_space c then lstrip l' else l
  | [] => []
  end.
Definition strip_chars (l : list ascii) : list ascii := rev (lstrip (rev (lstrip l))).
Definition strip (s : string) : string :=
  string_of_list_ascii (strip_chars (list_ascii_of_string s)).

Definition take_sign (l : list ascii) : bool * list ascii :=
  match l with
  | c :: l' =>
      if Ascii.eqb c "-" then (true, l')
      else if Ascii.eqb c "+" then (false, l')
      else (false, l)
  | [] => (false, [])
  end.

Definition parse_exponent (l : list ascii) : option (Z * list ascii) :=
  match l with
  | c :: l' =>
      if Ascii.eqb (lower_char c) "e" then
        let '(neg, l'') := take_sign l' in
        let '(x, n, rest) := scan_digits 0 0 l'' in
        if Nat.eqb n 0 then None
        else Some (if neg then (- x)%Z else x, rest)
      else Some (0%Z, l)
  | [] => Some (0%Z, [])
  end.

Definition parse_decimal (l : list ascii) : option float :=
  let '(i, ni, rest) := scan_digits 0 0 l in
  let '(m, nf, rest) :=
    match rest with
    | c :: rest' => if Ascii.eqb c "." then scan_digits i 0 rest' else (i, O, rest)
    | [] => (i, O, rest)
    end in
  if Nat.eqb (ni + nf) 0 then None else
  match parse_exponent rest with
  | Some (x, []) =>
      let y := rat_dec m (x - Z.of_nat nf) in
      Some (round_rat y.1 y.2)
  | _ => None
  end.

Definition float_of_string (s : string) : option float :=
  let '(neg, body) := take_sign (strip_chars (list_ascii_of_string s)) in
  let word := lower (string_of_list_ascii body) in
  let magnitude :=
    if String.eqb word "inf" || String.eqb word "infinity" then Some infinity
    else if String.eqb word "nan" then Some nan
    else parse_decimal body in
  match magnitude with
  | Some f => Some (if neg then (- f)%float else f)
  | None => None
  end.

(* [int(s)] on a string: a decimal integer literal *)
Definition int_of_string (s : string) : option Z :=
  let '(neg, body) := take_sign (strip_chars (list_ascii_of_string s)) in
  match scan_digits 0 0 body with
  | (x, S _, []) => Some (if neg then (- x)%Z else x)
  | _ => None
  end.

(** ** Values *)

Inductive value :=
| VNone
| VBool (b : bool)
| VInt (z : Z)
| VFloat (f : float)
| VStr (s : string)
| VList (l : list value)
| VDict (d : gmap string value)
| VTime (t : Z).            (* a [datetime], in microseconds *)

Abbreviation dict := (gmap string value).

(* [bool(v)] *)
Definition truthy (v : value) : bool :=
  match v with
  | VNone => false
  | VBool b => b
  | VInt z => negb (z =? 0)%Z
  | VFloat f => negb (f =? 0)%float
  | VStr s => negb (String.eqb s "")
  | VList l => match l with [] => false | _ => true end
  | VDict d => negb (bool_decide (d = ∅))
  | VTime _ => true
  end.

(* [type(v).__name__], as the messages of TypeError and AttributeError show it *)
Definition type_name (v : value) : string :=
  match v with
  | VNone => "NoneType"
  | VBool _ => "bool"
  | VInt _ => "int"
  | VFloat _ => "float"
  | VStr _ => "str"
  | VList _ => "list"
  | VDict _ => "dict"
  | VTime _ => "datetime.datetime"
  end.

(* [d.get(k)] and [d.get(k, default)] *)
Definition get (d : dict) (k : string) : value := default VNone (d !! k).
Definition get_or (d : dict) (k : string) (dflt : value) : value := default dflt (d !! k).

(* [float(v)] *)
Definition py_float (v : value) : res float :=
  match v with
  | VFloat f => Ok f
  | VInt z =>
      let f := float_of_Z z in
      if is_infinity f then Raise (OverflowError "int too large to convert to float")
      else Ok f
  | VBool b => Ok (if b then 1 else 0)%float
  | VStr s =>
      match float_of_string s with
      | Some f => Ok f
      | None => Raise (ValueError ("could not convert string to float: '" +:+ s +:+ "'"))
      end
  | _ => Raise (TypeError ("float() argument must be a string or a real number, not '"
                          +:+ type_name v +:+ "'"))
  end.

(* [int(v)] *)
Definition py_int (v : value) : res Z :=
  match v with
  | VInt z => Ok z
  | VBool b => Ok (if b then 1 else 0)%Z
  | VFloat f =>
      match Prim2SF f with
      | S754_finite s m e =>
          let q := rat_floor (rat_bin (Zpos m) e) in
          Ok (if s then (- q)%Z else q)
      | S754_zero _ => Ok 0%Z
      | S754_nan => Raise (ValueError "cannot convert float NaN to integer")
      | S754_infinity _ => Raise (OverflowError "cannot convert float infinity to integer")
      end
  | VStr s =>
      match int_of_string s with
      | Some z => Ok z
      | None => Raise (ValueError ("invalid literal for int() with base 10: '" +:+ s +:+ "'"))
      end
  | _ => Raise (TypeError ("int() argument must be a string, a bytes-like object or a "
                          +:+ "real number, not '" +:+ type_name v +:+ "'"))
  end.

(* [repr(v)]; a string is quoted without escapes, a dict lists its keys in
   the map's own order and a datetime prints its microseconds. *)
Fixpoint py_repr (v : value) : string :=
  match v with
  | VNone => "None"
  | VBool b => if b then "True" else "False"
  | VInt z => str_of_Z z
  | VFloat f => float_repr f
  | VStr s => "'" +:+ s +:+ "'"
  | VList l => "[" +:+ join ", " (map py_repr l) +:+ "]"
  | VDict d =>
      "{" +:+ join ", "
        (map_fold (fun k x acc => ("'" +:+ k +:+ "': " +:+ py_repr x) :: acc) [] d)
      +:+ "}"
  | VTime t => "datetime(" +:+ str_of_Z t +:+ ")"
  end.

(* [str(v)] *)
Definition py_str (v : value) : string :=
  match v with
  | VStr s => s
  | _ => py_repr v
  end.

(* [s.upper()] / [s.lower()] where [s] is whatever the dict held *)
Definition py_upper (v : value) : res string :=
  match v with
  | VStr s => Ok (upper s)
  | _ => Raise (AttributeError ("'" +:+ type_name v +:+ "' object has no attribute 'upper'"))
  end.
Definition py_lower (v : value) : res string :=
  match v with
  | VStr s => Ok (lower s)
  | _ => Raise (AttributeError ("'" +:+ type_name v +:+ "' object has no attribute 'lower'"))
  end.

Definition is_str (v : value) (s : string) : bool :=
  match v with
  | VStr s' => String.eqb s' s
  | _ => false
  end.

(* [max(l)] / [min(l)] on a non-empty list of floats, as the builtin scans *)
Definition py_max (x : float) (l : list float) : float :=
  fold_left (fun best item => if (best <? item)%float then item else best) l x.
Definition py_min (x : float) (l : list float) : float :=
  fold_left (fun best item => if (item <? best)%float then item else best) l x.

(** *** Ordering of a float against a stored value: exact on numbers, a
    [TypeError] otherwise *)

Inductive num :=
| NNan
| NInf (neg : bool)
| NFin (q : rat).

Definition num_of_float (f : float) : num :=
  match Prim2SF f with
  | S754_nan => NNan
  | S754_infinity s => NInf s
  | S754_zero _ => NFin (0, 1)%Z
  | S754_finite s m e =>
      let q := rat_bin (Zpos m) e in
      NFin (if s then (- q.1, q.2)%Z else q)
  end.

Definition num_of (v : value) : option num :=
  match v with
  | VFloat f => Some (num_of_float f)
  | VInt z => Some (NFin (z, 1%Z))
  | VBool b => Some (NFin (if b then 1 else 0, 1)%Z)
  | _ => None
  end.

Definition num_ltb (a b : num) : bool :=
  match a, b with
  | NNan, _ | _, NNan => false
  | NInf true, NInf true => false
  | NInf true, _ => true
  | _, NInf true => false
  | NInf false, _ => false
  | NFin _, NInf false => true
  | NFin x, NFin y => rat_ltb x y
  end.

(* [a > b] for a float [a] *)
Definition float_gt (a : float) (b : value) : res bool :=
  match b with
  | VFloat x => Ok (x <? a)%float
  | VInt _ | VBool _ =>
      match num_of b with
      | Some nb => Ok (num_ltb nb (num_of_float a))
      | None => Ok false
      end
  | _ => Raise (TypeError ("'>' not supported between instances of 'float' and '"
                          +:+ type_name b +:+ "'"))
  end.

(* [s.split(sep)] for a one-character separator *)
Fixpoint split_on (sep : ascii) (cur : string) (t : string) : list string :=
  match t with
  | EmptyString => [String.rev cur]
  | String c t' =>
      if Ascii.eqb c sep then String.rev cur :: split_on sep "" t'
      else split_on sep (String c cur) t'
  end.

(* a dict literal: later entries overwrite earlier ones *)
Definition mk_dict (l : list (string * value)) : dict :=
  fold_left (fun d kv => <[kv.1 := kv.2]> d) l ∅.

End Py.

(** * Regular expressions: the fragment of Python's [re] the classifier uses

    A backtracking matcher in continuation-passing style: alternatives are
    tried left to right, a greedy repetition tries one more iteration before
    stopping and a lazy one stops first, and the first way that lets the rest
    of the pattern match wins, as in [re]. *)

Module Re.
Import Py.

Inductive cls :=
| CChar (c : ascii)
| CRange (lo hi : ascii)
| CDigit                    (* \d *)
| CWord                     (* \w *)
| CSpace                    (* \s *)
| CCode (n : nat).          (* a code point given by number *)

Inductive regex :=
| Eps
| Any                                   (* .  (no DOTALL) *)
| In_ (cs : list cls)                   (* [...] *)
| NotIn (cs : list cls)                 (* [^...] *)
| Lit (s : string)
| Seq (r1 r2 : regex)
| Alt (r1 r2 : regex)
| Rep (lo : nat) (hi : option nat) (greedy : bool) (r : regex)
| Group (n : nat) (r : regex)           (* the n-th capturing group *)
| WordB                                 (* \b *)
| Eol                                   (* $ *)
| Ahead (r : regex).                    (* (?=...) *)

Definition cat (rs : list regex) : regex := fold_right Seq Eps rs.
Fixpoint alts (rs : list regex) : regex :=
  match rs with
  | [] => In_ []
  | [r] => r
  | r :: rs' => Alt r (alts rs')
  end.
Definition words (ws : list string) : regex := alts (map Lit ws).
Definition star (r : regex) : regex := Rep 0 None true r.
Definition plus (r : regex) : regex := Rep 1 None true r.
Definition opt (r : regex) : regex := Rep 0 (Some 1) true r.
Definition lazy_plus (r : regex) : regex := Rep 1 None false r.
Definition times (lo hi : nat) (r : regex) : regex := Rep lo (Some hi) true r.
Definition d : regex := In_ [CDigit].
Definition w : regex := In_ [CWord].
Definition s : regex := In_ [CSpace].

Definition cls_plain (cl : cls) (c : ascii) : bool :=
  match cl with
  | CChar x => Ascii.eqb c x
  | CRange lo hi => in_range (code lo) (code hi) c
  | CDigit => is_digit c
  | CWord => is_word c
  | CSpace => is_space c
  | CCode n => Nat.eqb (code c) n
  end.

(* with IGNORECASE a character matches when either of its cases does *)
Definition cls_test (ic : bool) (cl : cls) (c : ascii) : bool :=
  if ic then cls_plain cl (lower_char c) || cls_plain cl (upper_char c)
  else cls_plain cl c.

Record mstate := {
  pos : nat;                              (* characters consumed so far *)
  prev : option ascii;                    (* the character before [pos] *)
  rest : list ascii;                      (* the text from [pos] on *)
  caps : list (nat * (nat * nat))         (* group number, span *)
}.

Definition step (st : mstate) : option (ascii * mstate) :=
  match rest st with
  | c :: l => Some (c, {| pos := S (pos st); prev := Some c; rest := l; caps := caps st |})
  | [] => None
  end.

Definition one (test : ascii -> bool) (st : mstate) (k : mstate -> option mstate)
  : option mstate :=
  match step st with
  | Some (c, st') => if test c then k st' else None
  | None => None
  end.

Fixpoint lit_match (ic : bool) (l : list ascii) (st : mstate)
    (k : mstate -> option mstate) : option mstate :=
  match l with
  | [] => k st
  | x :: l' => one (cls_test ic (CChar x)) st (fun st' => lit_match ic l' st' k)
  end.

Definition below (hi : option nat) (i : nat) : bool :=
  match hi with
  | Some n => Nat.ltb i n
  | None => true
  end.

Definition is_word_opt (c : option ascii) : bool :=
  match c with
  | Some c => is_word c
  | None => false
  end.

Fixpoint rmatch (ic : bool) (r : regex) (st : mstate) (k : mstate -> option mstate)
  {struct r} : option mstate :=
  match r with
  | Eps => k st
  | Any => one (fun c => negb (Ascii.eqb c "010")) st k
  | In_ cs => one (fun c => existsb (fun cl => cls_test ic cl c) cs) st k
  | NotIn cs => one (fun c => negb (existsb (fun cl => cls_test ic cl c) cs)) st k
  | Lit t => lit_match ic (list_ascii_of_string t) st k
  | Seq r1 r2 => rmatch ic r1 st (fun st' => rmatch ic r2 st' k)
  | Alt r1 r2 =>
      match rmatch ic r1 st k with
      | Some m => Some m
      | None => rmatch ic r2 st k
      end
  | Rep lo hi greedy r1 =>
      (fix loop (fuel : nat) (i : nat) (st : mstate) {struct fuel} : option mstate :=
         let more (_ : unit) :=
           match fuel with
           | O => None
           | S fuel' =>
               if below hi i then
                 rmatch ic r1 st (fun st' =>
                   if Nat.ltb (pos st) (pos st') then loop fuel' (S i) st'
                   else if Nat.leb lo (S i) then k st' else None)
               else None
           end in
         let stop (_ : unit) := if Nat.leb lo i then k st else None in
         if greedy then
           match more tt with
           | Some m => Some m
           | None => stop tt
           end
         else
           match stop tt with
           | Some m => Some m
           | None => more tt
           end)
        (S (length (rest st))) O st
  | Group n r1 =>
      rmatch ic r1 st (fun st' =>
        k {| pos := pos st'; prev := prev st'; rest := rest st';
             caps := (n, (pos st, pos st')) :: caps st' |})
  | WordB =>
      if xorb (is_word_opt (prev st)) (is_word_opt (head (rest st))) then k st else None
  | Eol =>
      match rest st with
      | [] => k st
      | [c] => if Ascii.eqb c "010" then k st else None
      | _ => None
      end
  | Ahead r1 =>
      match rmatch ic r1 st Some with
      | Some _ => k st
      | None => None
      end
  end.

(** A match object: the span of the whole match and of its groups, over the
    searched text. *)
Record rmatch_obj := {
  m_text : string;
  m_start : nat;
  m_end : nat;
  m_caps : list (nat * (nat * nat))
}.

Definition span_text (t : string) (sp : nat * nat) : string :=
  String.substring sp.1 (sp.2 - sp.1) t.

(* [m.group(0)] *)
Definition whole (m : rmatch_obj) : string := span_text (m_text m) (m_start m, m_end m).

Fixpoint assoc_nat (n : nat) (l : list (nat * (nat * nat))) : option (nat * nat) :=
  match l with
  | [] => None
  | (i, sp) :: l' => if Nat.eqb i n then Some sp else assoc_nat n l'
  end.

(* [m.group(n)]: [None] when the group took no part in the match *)
Definition group (m : rmatch_obj) (n : nat) : option string :=
  option_map (span_text (m_text m)) (assoc_nat n (m_caps m)).

(* the leftmost match starting at or after the given state *)
Fixpoint search_at (ic : bool) (r : regex) (p : nat) (pv : option ascii)
    (l : list ascii) : option (nat * mstate) :=
  match rmatch ic r {| pos := p; prev := pv; rest := l; caps := [] |} Some with
  | Some st' => Some (p, st')
  | None =>
      match l with
      | [] => None
      | c :: l' => search_at ic r (S p) (Some c) l'
      end
  end.

Definition obj (t : string) (start : nat) (st : mstate) : rmatch_obj :=
  {| m_text := t; m_start := start; m_end := pos st; m_caps := caps st |}.

(* [re.search(r, t)], with [ic] for [re.I] *)
Definition search (ic : bool) (r : regex) (t : string) : option rmatch_obj :=
  match search_at ic r O None (list_ascii_of_string t) with
  | Some (start, st) => Some (obj t start st)
  | None => None
  end.

Fixpoint finditer_from (fuel : nat) (ic : bool) (r : regex) (t : string)
    (p : nat) (pv : option ascii) (l : list ascii) : list rmatch_obj :=
  match fuel with
  | O => []
  | S fuel' =>
      match search_at ic r p pv l with
      | None => []
      | Some (start, st) =>
          obj t start st ::
          (if Nat.ltb start (pos st)
           then finditer_from fuel' ic r t (pos st) (prev st) (rest st)
           else match rest st with
                | [] => []
                | c :: l' => finditer_from fuel' ic r t (S (pos st)) (Some c) l'
                end)
      end
  end.

(* the successive non-overlapping matches, left to right *)
Definition finditer (ic : bool) (r : regex) (t : string) : list rmatch_obj :=
  finditer_from (S (String.length t)) ic r t O None (list_ascii_of_string t).

(* [re.findall] for a pattern without groups, and for one with one group *)
Definition findall (ic : bool) (r : regex) (t : string) : list string :=
  map whole (finditer ic r t).
Definition findall1 (ic : bool) (r : regex) (t : string) : list string :=
  map (fun m => default "" (group m 1)) (finditer ic r t).

End Re.

(** * services/signal_classifier.py *)

Module SignalClassifier.
Import Py Re.
Local Open Scope Z_scope.

(** ** The lexicons of [__init__], in source order *)

Definition action_keywords : list (string * Z) :=
  [("buy", 12); ("sell", 12); ("long", 10); ("short", 10);
   ("exit", 8); ("square", 7); ("book", 6); ("close", 5)].

Definition instrument_keywords : list (string * Z) :=
  [("nifty", 8); ("banknifty", 8); ("finnifty", 8); ("midcpnifty", 8);
   ("sensex", 8); ("bankex", 8);
   ("crude", 7); ("crudeoil", 7); ("gold", 7); ("silver", 7);
   ("naturalgas", 7); ("copper", 6); ("zinc", 6);
   ("ce", 7); ("pe", 7); ("fut", 7); ("call", 6); ("put", 6)].

Definition param_keywords : list (string * Z) :=
  [("sl", 8); ("stoploss", 8); ("stop", 6);
   ("tgt", 8); ("target", 8); ("tp", 8);
   ("entry", 6); ("cmp", 5); ("ltp", 5);
   ("lot", 3); ("qty", 3); ("quantity", 3);
   ("above", 5); ("below", 5); ("near", 4); ("around", 4);
   ("price", 3); ("level", 0)].

Definition noise_keywords : list (string * Z) :=
  [("good", -4); ("morning", -4); ("evening", -3); ("hello", -4);
   ("thanks", -3); ("thank", -3); ("welcome", -3); ("please", -2);
   ("looking", -4); ("trend", -3); ("trending", -3);
   ("analysis", -5); ("view", -4); ("opinion", -4);
   ("think", -4); ("expect", -3); ("expecting", -3);
   ("might", -3); ("may", -3); ("could", -3); ("should", -3);
   ("would", -3); ("will", -2); ("going", -2);
   ("wait", -6); ("waiting", -6); ("watch", -5); ("watching", -5);
   ("observe", -4); ("monitor", -3);
   ("sideway", -6); ("sideways", -6); ("range", -4); ("ranging", -4);
   ("breakout", -5); ("breakdown", -5); ("zone", -4); ("level", -3);
   ("resistance", -4); ("support", -4); ("testing", -4);
   ("bullish", -4); ("bearish", -4); ("neutral", -4);
   ("what", -4); ("how", -4); ("when", -4); ("where", -3);
   ("question", -5); ("?", -3);
   ("both", -4); ("all", -3); ("everyone", -4); ("traders", -2);
   ("news", -4); ("update", -4); ("breaking", -4); ("announcement", -4);
   ("report", -3); ("data", -2);
   ("learn", -4); ("guide", -4); ("tutorial", -4); ("tips", -3);
   ("strategy", -3); ("method", -3);
   ("premarket", -4); ("pre-market", -4); ("postmarket", -4);
   ("market", -1)].

(* r'\b\d{2,6}(?:\.\d{1,2})?\b' *)
Definition price_pattern : regex :=
  cat [WordB; times 2 6 d; opt (cat [Lit "."; times 1 2 d]); WordB].

(* all compiled with re.I *)
Definition signal_patterns : list regex :=
  [ (* "(buy|sell|long|short)\s+\w+\s+\d+\s+(ce|pe)" *)
    cat [Group 1 (words ["buy"; "sell"; "long"; "short"]); plus s; plus w; plus s;
         plus d; plus s; Group 2 (words ["ce"; "pe"])];
    (* "(?:sl|stoploss|stop).*(?:tgt|target|tp)" *)
    cat [words ["sl"; "stoploss"; "stop"]; star Any; words ["tgt"; "target"; "tp"]];
    (* "(?:tgt|target|tp).*(?:sl|stoploss|stop)" *)
    cat [words ["tgt"; "target"; "tp"]; star Any; words ["sl"; "stoploss"; "stop"]];
    (* "(?:entry|above|below|cmp|ltp)[:-]*\s+\d+.*(?:sl|target)" *)
    cat [words ["entry"; "above"; "below"; "cmp"; "ltp"];
         star (In_ [CChar ":"; CChar "-"]); plus s; plus d; star Any;
         words ["sl"; "target"]];
    (* "\w+\s+\d{3,6}\s+(ce|pe)\s+(?:above|below|near|@|cmp).*sl.*target" *)
    cat [plus w; plus s; times 3 6 d; plus s; Group 1 (words ["ce"; "pe"]); plus s;
         words ["above"; "below"; "near"; "@"; "cmp"]; star Any; Lit "sl"; star Any;
         Lit "target"];
    (* "\w+\s+\d{3,6}\s+(ce|pe).*above" *)
    cat [plus w; plus s; times 3 6 d; plus s; Group 1 (words ["ce"; "pe"]); star Any;
         Lit "above"];
    (* "stock:.*(?:long|short).*price:.*(?:sl|tp)" *)
    cat [Lit "stock:"; star Any; words ["long"; "short"]; star Any; Lit "price:";
         star Any; words ["sl"; "tp"]] ].

(* all compiled with re.I *)
Definition anti_patterns : list regex :=
  [ (* "\?" *)
    Lit "?";
    (* "wait\s+for" *)
    cat [Lit "wait"; plus s; Lit "for"];
    (* "watch\s+(?:for|out)" *)
    cat [Lit "watch"; plus s; words ["for"; "out"]];
    (* "(?:both|all).*(?:nifty|sensex|banknifty)" *)
    cat [words ["both"; "all"]; star Any; words ["nifty"; "sensex"; "banknifty"]];
    (* "(?:breaking|latest)\s+(?:news|update)" *)
    cat [words ["breaking"; "latest"]; plus s; words ["news"; "update"]];
    (* "(?:learn|guide|tutorial|tips|strategy)" *)
    words ["learn"; "guide"; "tutorial"; "tips"; "strategy"] ].

Definition found (ic : bool) (r : regex) (t : string) : bool :=
  match search ic r t with
  | Some _ => true
  | None => false
  end.

(* re.search(r'\b' + keyword + r'\b', text_lower) *)
Definition keyword_found (keyword text_lower : string) : bool :=
  found false (cat [WordB; Lit keyword; WordB]) text_lower.

(** ** classify: the score *)

Definition anti_score (text : string) : Z :=
  fold_left (fun score p => if found true p text then score - 10 else score)
    anti_patterns 0.

(* the loop over [action_keywords]: the score it adds and [action_found] *)
Definition action_step (text_lower : string) (acc : Z * option string)
    (kw : string * Z) : Z * option string :=
  let '(score, action_found) := acc in
  let '(keyword, weight) := kw in
  if keyword_found keyword text_lower then
    (score + weight,
     match action_found with
     | Some a => Some a
     | None =>
         if existsb (String.eqb keyword) ["buy"; "sell"; "long"; "short"] then
           if existsb (String.eqb keyword) ["long"; "short"] then
             Some (if String.eqb keyword "long" then "BUY" else "SELL")
           else Some (upper keyword)
         else None
     end)
  else acc.

Definition action_scan (text_lower : string) : Z * option string :=
  fold_left (action_step text_lower) action_keywords (0, None).

Definition keyword_score (table : list (string * Z)) (text_lower : string) : Z :=
  fold_left (fun score kw => if keyword_found kw.1 text_lower then score + kw.2 else score)
    table 0.

(* the loop over [param_keywords]: the score it adds, [has_sl], [has_tgt] *)
Definition param_step (text_lower : string) (acc : Z * bool * bool)
    (kw : string * Z) : Z * bool * bool :=
  let '(score, has_sl, has_tgt) := acc in
  let '(keyword, weight) := kw in
  if keyword_found keyword text_lower then
    (score + weight,
     if existsb (String.eqb keyword) ["sl"; "stoploss"; "stop"] then true else has_sl,
     if existsb (String.eqb keyword) ["tgt"; "target"; "tp"] then true else has_tgt)
  else acc.

Definition param_scan (text_lower : string) : Z * bool * bool :=
  fold_left (param_step text_lower) param_keywords (0, false, false).

(* the bonus for having both a stop-loss and a target keyword *)
Definition both_bonus (text_lower : string) : Z :=
  let '(_, has_sl, has_tgt) := param_scan text_lower in
  if has_sl && has_tgt then 12 else 0.

Definition noise_score (text text_lower : string) : Z :=
  fold_left (fun score kw =>
      if String.eqb kw.1 "?" then
        if contains kw.1 text then score + kw.2 else score
      else if keyword_found kw.1 text_lower then score + kw.2 else score)
    noise_keywords 0.

Definition prices_score (text : string) : Z :=
  let n := length (findall false price_pattern text) in
  if Nat.leb 3 n then 8 else if Nat.leb 2 n then 4 else 0.

Definition pattern_score (text : string) : Z :=
  if existsb (fun p => found true p text) signal_patterns then 10 else 0.

Definition score (text : string) : Z :=
  let text_lower := lower text in
  anti_score text
  + (action_scan text_lower).1
  + keyword_score instrument_keywords text_lower
  + (param_scan text_lower).1.1
  + both_bonus text_lower
  + noise_score text text_lower
  + prices_score text
  + pattern_score text.

(* the most a table can add to the score *)
Definition pos_sum (table : list (string * Z)) : Z :=
  fold_right (fun kw acc => Z.max 0 kw.2 + acc) 0 table.

(* two-argument [max] and [min] on floats, as the builtins compare *)
Definition max2 (a b : float) : float := if (a <? b)%float then b else a.
Definition min2 (a b : float) : float := if (b <? a)%float then b else a.

(* confidence = min(1.0, max(0.0, score / 35)) *)
Definition confidence_of (score : Z) : float :=
  min2 1 (max2 0 (float_of_Z score / 35)%float).

(* is_signal = score >= 20 and confidence >= 0.5, before the quality check *)
Definition initial_decision (score : Z) : bool :=
  (20 <=? score) && (0.5 <=? confidence_of score)%float.

(** ** _extract_signal_data *)

Definition common_indices : list string :=
  ["NIFTY"; "BANKNIFTY"; "FINNIFTY"; "MIDCPNIFTY"; "SENSEX"; "BANKEX"; "CRUDEOIL";
   "GOLD"; "SILVER"; "NATURALGAS"].

(* "\b[A-Z]{3,15}\b" *)
Definition word_pattern : regex := cat [WordB; times 3 15 (In_ [CRange "A" "Z"]); WordB].

(* "\b(nifty|banknifty|finnifty|midcpnifty|sensex|bankex|crude\s*oil|crude|gold|silver|natural\s*gas|tcs|infy|reliance|hdfc\s*bank|icici\s*bank|sbine?)\b" (re.I) *)
Definition symbol_pattern : regex :=
  cat [WordB;
       Group 1 (alts [Lit "nifty"; Lit "banknifty"; Lit "finnifty"; Lit "midcpnifty";
                      Lit "sensex"; Lit "bankex"; cat [Lit "crude"; star s; Lit "oil"];
                      Lit "crude"; Lit "gold"; Lit "silver";
                      cat [Lit "natural"; star s; Lit "gas"]; Lit "tcs"; Lit "infy";
                      Lit "reliance"; cat [Lit "hdfc"; star s; Lit "bank"];
                      cat [Lit "icici"; star s; Lit "bank"];
                      cat [Lit "sbin"; opt (Lit "e")]]);
       WordB].

(* "\(([A-Z]+)\)" *)
Definition paren_pattern : regex :=
  cat [Lit "("; Group 1 (plus (In_ [CRange "A" "Z"])); Lit ")"].

(* "\b([A-Z]{3,15})\s+(\d{3,6})\s+(?:CE|PE)" (re.I) *)
Definition generic_pattern : regex :=
  cat [WordB; Group 1 (times 3 15 (In_ [CRange "A" "Z"])); plus s;
       Group 2 (times 3 6 d); plus s; words ["CE"; "PE"]].

(* "\b(\d{3,6})\b" *)
Definition strike_pattern : regex := cat [WordB; Group 1 (times 3 6 d); WordB].

(* "\b(CE|PE|Call|Put)\b" (re.I) *)
Definition option_pattern : regex :=
  cat [WordB; Group 1 (words ["CE"; "PE"; "Call"; "Put"]); WordB].

(* "(JAN|FEB|MAR|APR|MAY|JUN|JUL|AUG|SEP|OCT|NOV|DEC)[a-z]*, as group [n]" *)
Definition month_pattern (n : nat) : regex :=
  cat [Group n (words ["JAN"; "FEB"; "MAR"; "APR"; "MAY"; "JUN"; "JUL"; "AUG"; "SEP";
                       "OCT"; "NOV"; "DEC"]);
       star (In_ [CRange "a" "z"])].

(* "(\d{1,2})(?:st|nd|rd|th)?\s* + month_pattern" (re.I) *)
Definition specific_expiry_pattern : regex :=
  cat [Group 1 (times 1 2 d); opt (words ["st"; "nd"; "rd"; "th"]); star s;
       month_pattern 2].

(* "\b + month_pattern + \b" (re.I) *)
Definition month_expiry_pattern : regex := cat [WordB; month_pattern 1; WordB].

(* "\d+(?:\.\d+)?" *)
Definition number : regex := cat [plus d; opt (cat [Lit "."; plus d])].

(* "(above|below|around|near|@|at|cmp|price|entry)(?:[:-]*)\s*[^0-9\n]*\s*(\d+(?:\.\d+)?)" (re.I) *)
Definition entry_pattern : regex :=
  cat [Group 1 (words ["above"; "below"; "around"; "near"; "@"; "at"; "cmp"; "price";
                       "entry"]);
       star (In_ [CChar ":"; CChar "-"]); star s;
       star (NotIn [CRange "0" "9"; CChar "010"]); star s; Group 2 number].

(* "\b\d+(?:\.\d+)?\b" *)
Definition bounded_number : regex := cat [WordB; number; WordB].

(* the rupee sign of the source patterns, U+20B9 *)
Definition rupee : cls := CCode 8377.

(* "(?:stop\s*loss|sl|stop)\s*(?:[:-]*)\s*[₹]?\s*(\d+(?:\.\d+)?)" (re.I) *)
Definition sl_pattern : regex :=
  cat [alts [cat [Lit "stop"; star s; Lit "loss"]; Lit "sl"; Lit "stop"]; star s;
       star (In_ [CChar ":"; CChar "-"]); star s; opt (In_ [rupee]); star s;
       Group 1 number].

(* "(?:target|tgt|tp)s?\s*[:\s-]*([\d\s,./+]+?)(?=sl|stop|above|below|\n|$)" (re.I) *)
Definition target_section_pattern : regex :=
  cat [words ["target"; "tgt"; "tp"]; opt (Lit "s"); star s;
       star (In_ [CChar ":"; CSpace; CChar "-"]);
       Group 1 (lazy_plus (In_ [CDigit; CSpace; CChar ","; CChar "."; CChar "/";
                                CChar "+"]));
       Ahead (alts [Lit "sl"; Lit "stop"; Lit "above"; Lit "below";
                    In_ [CChar "010"]; Eol])].

(* "(?:target|tgt|tp|t)\s*(?:\d+)?\s*[:\s-]*[₹]?\s*(\d+(?:\.\d+)?)" (re.I) *)
Definition single_target_pattern : regex :=
  cat [words ["target"; "tgt"; "tp"; "t"]; star s; opt (plus d); star s;
       star (In_ [CChar ":"; CSpace; CChar "-"]); opt (In_ [rupee]); star s;
       Group 1 number].

(* the first word of the text that is a loaded symbol or a common index *)
Definition first_known_word (valid_symbols : gset string) (text : string)
  : option string :=
  if bool_decide (valid_symbols = ∅) then None
  else
    List.find (fun w => bool_decide (w ∈ valid_symbols)
                        || existsb (String.eqb w) common_indices)
      (findall false word_pattern (upper text)).

Definition remove_spaces (t : string) : string :=
  string_of_list_ascii
    (List.filter (fun c => negb (Ascii.eqb c " ")) (list_ascii_of_string t)).

Definition set_opt (k : string) (v : option string) (data : dict) : dict :=
  match v with
  | Some x => <[k := VStr x]> data
  | None => data
  end.

(* 1. symbol: loaded symbols, then the regex of known names, then a ticker in
   parentheses, then WORD STRIKE CE|PE *)
Definition extract_symbol (valid_symbols : gset string) (text : string) (data : dict)
  : dict :=
  let data := set_opt "symbol" (first_known_word valid_symbols text) data in
  let data :=
    match search true symbol_pattern text with
    | None =>
        match search false paren_pattern text with
        | Some m => <["symbol" := VStr (upper (default "" (group m 1)))]> data
        | None => data
        end
    | Some m =>
        let raw_symbol := upper (default "" (group m 1)) in
        if contains "NATURAL" raw_symbol then <["symbol" := VStr "NATURALGAS"]> data
        else if contains "CRUDE" raw_symbol then <["symbol" := VStr "CRUDEOIL"]> data
        else <["symbol" := VStr (remove_spaces raw_symbol)]> data
    end in
  match data !! "symbol" with
  | Some _ => data
  | None =>
      match search true generic_pattern text with
      | Some m => <["symbol" := VStr (upper (default "" (group m 1)))]> data
      | None => data
      end
  end.

(* 2. strike and option type *)
Definition extract_option (text : string) (data : dict) : dict :=
  let data :=
    match search false strike_pattern text with
    | Some m => <["strike" := VStr (default "" (group m 1))]> data
    | None => data
    end in
  match search true option_pattern text with
  | Some m =>
      let otype := upper (default "" (group m 1)) in
      <["option_type" :=
          VStr (if existsb (String.eqb otype) ["CE"; "CALL"] then "CE" else "PE")]> data
  | None => data
  end.

(* 3. expiry *)
Definition extract_expiry (text : string) (data : dict) : dict :=
  match search true specific_expiry_pattern text with
  | Some m =>
      let day := default "" (group m 1) in
      let month := upper (str_take 3 (default "" (group m 2))) in
      <["expiry" := VStr (day +:+ month)]> data
  | None =>
      match search true month_expiry_pattern text with
      | Some m => <["expiry" := VStr (upper (str_take 3 (default "" (group m 1))))]> data
      | None => data
      end
  end.

Definition float_eq_str (a b : string) : bool :=
  match float_of_string a, float_of_string b with
  | Some x, Some y => (x =? y)%float
  | _, _ => false
  end.

(* 3. entry price and condition, then the first number that is not the strike *)
Definition extract_price (text : string) (data : dict) : dict :=
  let data :=
    match search true entry_pattern text with
    | Some m =>
        let condition_word := lower (default "" (group m 1)) in
        let data := <["price" := VStr (default "" (group m 2))]> data in
        if existsb (String.eqb condition_word)
             ["above"; "below"; "around"; "near"; "at"; "@"]
        then <["condition" := VStr condition_word]> data
        else data
    | None => data
    end in
  match data !! "price" with
  | Some _ => data
  | None =>
      let is_strike num :=
        match get data "strike" with
        | VStr k => negb (String.eqb k "") && (String.eqb num k || float_eq_str num k)
        | _ => false
        end in
      set_opt "price"
        (List.find (fun num => negb (is_strike num)) (findall false bounded_number text))
        data
  end.

(* 4. stop loss *)
Definition extract_sl (text : string) (data : dict) : dict :=
  match search true sl_pattern text with
  | Some m =>
      let v := VStr (default "" (group m 1)) in
      <["stop_loss" := v]> (<["sl" := v]> data)
  | None => data
  end.

(* the filter of both target loops: a candidate is kept when it differs from
   the price and the stop loss and is above 5; any exception skips it *)
Definition keep_target (data : dict) (t : string) : bool :=
  match py_float (VStr t), py_float (get_or data "price" (VInt 0)),
        py_float (get_or data "sl" (VInt 0)) with
  | Ok val, Ok price_val, Ok sl_val =>
      negb (val =? price_val)%float && negb (val =? sl_val)%float && (5 <? val)%float
  | _, _, _ => false
  end.

(* list(dict.fromkeys(l)): first occurrences, in order *)
Fixpoint dedup (seen : list string) (l : list string) : list string :=
  match l with
  | [] => []
  | x :: l' =>
      if existsb (String.eqb x) seen then dedup seen l' else x :: dedup (x :: seen) l'
  end.

Fixpoint all_floats (l : list string) : option (list float) :=
  match l with
  | [] => Some []
  | x :: l' =>
      match float_of_string x, all_floats l' with
      | Some f, Some fs => Some (f :: fs)
      | _, _ => None
      end
  end.

(* 5. targets and the final target *)
Definition extract_targets (text : string) (data : dict) : dict :=
  let targets :=
    match search true target_section_pattern text with
    | Some m =>
        List.filter (keep_target data) (findall false number (default "" (group m 1)))
    | None => []
    end in
  let targets :=
    match targets with
    | [] => List.filter (keep_target data) (findall1 true single_target_pattern text)
    | _ => targets
    end in
  let targets := dedup [] targets in
  match targets with
  | [] => data
  | _ =>
      let data := <["targets" := VList (map VStr targets)]> data in
      match all_floats targets with
      | Some (x :: nums) =>
          if is_str (get data "action") "SELL"
          then <["tgt" := VStr (float_repr (py_min x nums))]> data
          else <["tgt" := VStr (float_repr (py_max x nums))]> data
      | _ => <["tgt" := VStr (List.last targets "")]> data
      end
  end.

Definition _extract_signal_data (valid_symbols : gset string) (text : string)
    (action : option string) : dict :=
  (* if action: data['action'] = action *)
  let data :=
    match action with
    | Some a => if String.eqb a "" then ∅ else <["action" := VStr a]> ∅
    | None => ∅
    end in
  let data := extract_symbol valid_symbols text data in
  let data := extract_option text data in
  let data := extract_expiry text data in
  let data := extract_price text data in
  let data := extract_sl text data in
  extract_targets text data.

(** ** classify *)

(* extracted.get('action') or
   (extracted.get('symbol') and (extracted.get('price') or extracted.get('sl')
                                  or extracted.get('tgt'))) *)
Definition has_meaningful_data (extracted : dict) : bool :=
  truthy (get extracted "action")
  || (truthy (get extracted "symbol")
      && (truthy (get extracted "price") || truthy (get extracted "sl")
          || truthy (get extracted "tgt"))).

Definition classify (valid_symbols : gset string) (text : string)
  : bool * float * option dict :=
  let text_lower := lower text in
  let sc := score text in
  let confidence := confidence_of sc in
  if initial_decision sc then
    let extracted :=
      _extract_signal_data valid_symbols text (action_scan text_lower).2 in
    if has_meaningful_data extracted then (true, confidence, Some extracted)
    else (false, (confidence * 0.5)%float, None)
  else (false, confidence, None).

End SignalClassifier.

(** * services/position_monitor_service.py *)

Module PositionMonitor.
Import Py.
Local Open Scope Z_scope.

(** The monitor object: [active_positions] by order id and
    [position_history]. A position is a dict. The writes of the mutators to
    the sandbox ledger sit in their own [try/except] and touch nothing of the
    monitor; they are not part of this state. *)
Record monitor := {
  active_positions : gmap string dict;
  position_history : list dict
}.

Definition set_active (order_id : string) (position : dict) (st : monitor) : monitor :=
  {| active_positions := <[order_id := position]> (active_positions st);
     position_history := position_history st |}.

(** ** add_position *)

Definition add_position (now : Z) (order_id : string) (symbol exchange action : value)
    (quantity entry_price stop_loss : value) (targets : list float)
    (signal_data : dict) (username product : value) (st : monitor) : monitor :=
  (* final_target = max(targets) if targets else None *)
  let final_target :=
    match targets with
    | x :: l => VFloat (py_max x l)
    | [] => VNone
    end in
  let position := mk_dict
    [("order_id", VStr order_id);
     ("symbol", symbol);
     ("exchange", exchange);
     ("action", action);
     ("quantity", quantity);
     ("entry_price", entry_price);
     ("original_sl", stop_loss);
     ("current_sl", stop_loss);
     ("targets", VList (map VFloat targets));
     ("final_target", final_target);
     ("highest_price", entry_price);
     ("final_target", final_target);
     ("highest_price", entry_price);
     ("status", VStr "pending_open");
     ("created_at", VTime now);
     ("signal_data", VDict signal_data);
     ("username", username);
     ("trailing_enabled", VBool true);
     ("sl_order_id", VNone);
     ("product", product);
     ("original_quantity", quantity);
     ("remaining_quantity", quantity);
     ("t1_hit", VBool false);
     ("t2_hit", VBool false);
     ("t3_hit", VBool false);
     ("t1_exit_done", VBool false);
     ("t3_plus_10_start_time", VNone)] in
  set_active order_id position st.

(** ** The mutators *)

Definition update_sl (order_id : string) (new_sl sl_order_id : value) (st : monitor)
  : res (bool * monitor) :=
  match active_positions st !! order_id with
  | Some position =>
      match position !! "current_sl" with
      | Some old_sl =>
          let position := <["current_sl" := new_sl]> position in
          let position :=
            if truthy sl_order_id then <["sl_order_id" := sl_order_id]> position
            else position in
          Ok (true, set_active order_id position st)
      | None => Raise (KeyError "current_sl")
      end
  | None => Ok (false, st)
  end.

(* the common shape: one key of the position is assigned *)
Definition assign (order_id key : string) (v : value) (st : monitor)
  : res (bool * monitor) :=
  match active_positions st !! order_id with
  | Some position => Ok (true, set_active order_id (<[key := v]> position) st)
  | None => Ok (false, st)
  end.

Definition update_target (order_id : string) (new_target : value) :=
  assign order_id "final_target" new_target.
Definition update_targets (order_id : string) (targets : value) :=
  assign order_id "targets" targets.
Definition update_t3_timer (order_id : string) (start_time : value) :=
  assign order_id "t3_plus_10_start_time" start_time.
Definition update_status (order_id : string) (new_status : value) :=
  assign order_id "status" new_status.
Definition update_sl_order_id (order_id : string) (sl_order_id : value) :=
  assign order_id "sl_order_id" sl_order_id.
Definition update_quantity (order_id : string) (new_quantity : value) :=
  assign order_id "quantity" new_quantity.
Definition mark_t1_exit_done (order_id : string) :=
  assign order_id "t1_exit_done" (VBool true).
Definition update_remaining_quantity (order_id : string) (new_quantity : value) :=
  assign order_id "remaining_quantity" new_quantity.
Definition set_target_hit_flag (order_id flag_name : string) (v : value) :=
  assign order_id flag_name v.
Definition disable_trailing (order_id : string) :=
  assign order_id "trailing_enabled" (VBool false).
Definition enable_trailing (order_id : string) :=
  assign order_id "trailing_enabled" (VBool true).

Definition update_highest_price (order_id : string) (current_price : float)
    (st : monitor) : res (bool * monitor) :=
  match active_positions st !! order_id with
  | Some position =>
      match position !! "highest_price" with
      | Some highest =>
          match float_gt current_price highest with
          | Ok true =>
              Ok (true,
                  set_active order_id (<["highest_price" := VFloat current_price]> position) st)
          | Ok false => Ok (false, st)
          | Raise e => Raise e
          end
      | None => Raise (KeyError "highest_price")
      end
  | None => Ok (false, st)
  end.

Definition get_position (order_id : string) (st : monitor) : option dict :=
  active_positions st !! order_id.

(** ** remove_position *)

Definition remove_position (now : Z) (order_id : string) (reason : value)
    (st : monitor) : option dict * monitor :=
  match active_positions st !! order_id with
  | Some position =>
      let position := <["status" := reason]> position in
      let position := <["closed_at" := VTime now]> position in
      let history := (position_history st ++ [position])%list in
      (* keep only the last 100 *)
      let history :=
        if Nat.ltb 100 (length history) then List.tl history else history in
      (Some position,
       {| active_positions := delete order_id (active_positions st);
          position_history := history |})
  | None => (None, st)
  end.

(** ** restore_from_sandbox *)

(* a row of the sandbox positions table; [sp_signal_data] is the JSON column:
   [None] when empty, else what [json.loads] gives or raises *)
Record sandbox_position := {
  sp_id : Z;
  sp_user_id : string;
  sp_symbol : string;
  sp_exchange : string;
  sp_product : string;
  sp_quantity : Z;
  sp_average_price : value;
  sp_created_at : option Z;
  sp_updated_at : option Z;
  sp_signal_data : option (res value)
}.

(* a row of the sandbox orders table *)
Record sandbox_order := {
  so_orderid : string;
  so_user_id : string;
  so_symbol : string;
  so_exchange : string;
  so_product : string;
  so_action : string;
  so_order_status : string;
  so_price_type : string;
  so_order_timestamp : Z;
  so_trigger_price : value
}.

(* .order_by(order_timestamp.desc()).first() *)
Definition latest (l : list sandbox_order) : option sandbox_order :=
  fold_left (fun best o =>
      match best with
      | None => Some o
      | Some b => if so_order_timestamp b <? so_order_timestamp o then Some o else Some b
      end) l None.

(* the protective orders of a position: same user, symbol, exchange and
   product, the exit side, price type SL or SL-M *)
Definition protective (pos : sandbox_position) (exit_action : string)
    (o : sandbox_order) : bool :=
  String.eqb (so_user_id o) (sp_user_id pos)
  && String.eqb (so_symbol o) (sp_symbol pos)
  && String.eqb (so_exchange o) (sp_exchange pos)
  && String.eqb (so_product o) (sp_product pos)
  && String.eqb (so_action o) exit_action
  && (String.eqb (so_price_type o) "SL" || String.eqb (so_price_type o) "SL-M").

Definition active_sl_order (orders : list sandbox_order) (pos : sandbox_position)
    (exit_action : string) : option sandbox_order :=
  latest (List.filter (fun o => protective pos exit_action o
                                && String.eqb (so_order_status o) "open") orders).

Definition historical_sl (orders : list sandbox_order) (pos : sandbox_position)
    (exit_action : string) : option sandbox_order :=
  latest (List.filter (protective pos exit_action) orders).

(* [signal_data.get(k, default)] on whatever the JSON column held *)
Definition json_get (signal_data : value) (k : string) (dflt : value) : res value :=
  match signal_data with
  | VDict d => Ok (get_or d k dflt)
  | _ => Raise (AttributeError ("'" +:+ type_name signal_data
                               +:+ "' object has no attribute 'get'"))
  end.

(* the day of a datetime *)
Definition date_of (t : Z) : Z := t / 86400000000.

(* the side of the row, and of its protective orders *)
Definition row_action (pos : sandbox_position) : string :=
  if 0 <? sp_quantity pos then "BUY" else "SELL".
Definition row_exit_action (pos : sandbox_position) : string :=
  if String.eqb (row_action pos) "BUY" then "SELL" else "BUY".

(* 1. Try to get SL from Signal Data *)
Definition signal_sl (signal_data : value) : res float :=
  bind (json_get signal_data "sl" (VInt 0)) (fun v =>
  bind (py_float v) (fun sl =>
  if (sl =? 0)%float
  then bind (json_get signal_data "stop_loss" (VInt 0)) py_float
  else Ok sl)).

(* 2. Try to get SL from Active Pending Order (Hard SL), and from the most
   recent SL order of any status when no open one is found *)
Definition order_sl (orders : list sandbox_order) (pos : sandbox_position) (sl : float)
  : res (float * value) :=
  let active := active_sl_order orders pos (row_exit_action pos) in
  bind (match active with
        | None =>
            match historical_sl orders pos (row_exit_action pos) with
            | Some h =>
                if truthy (so_trigger_price h) then py_float (so_trigger_price h)
                else Ok sl
            | None => Ok sl
            end
        | Some _ => Ok sl
        end) (fun sl =>
  match active with
  | Some a =>
      if truthy (so_trigger_price a)
      then bind (py_float (so_trigger_price a)) (fun x => Ok (x, VStr (so_orderid a)))
      else Ok (sl, VNone)
  | None => Ok (sl, VNone)
  end).

(* 3. Fallback: 10% below/above the average price *)
Definition fallback_sl (pos : sandbox_position) (sl : float) : res float :=
  if (sl =? 0)%float && truthy (sp_average_price pos) then
    bind (py_float (sp_average_price pos)) (fun avg =>
      Ok (if 0 <? sp_quantity pos then (avg * 0.9)%float else (avg * 1.1)%float))
  else Ok sl.

(* the stop loss recovered for a row, and the id of its open SL order *)
Definition restore_sl (orders : list sandbox_order) (pos : sandbox_position)
    (signal_data : value) : res (float * value) :=
  bind (signal_sl signal_data) (fun sl =>
  bind (order_sl orders pos sl) (fun '(sl, sl_order_id) =>
  bind (fallback_sl pos sl) (fun sl => Ok (sl, sl_order_id)))).

Fixpoint floats_of (l : list value) : res (list float) :=
  match l with
  | [] => Ok []
  | v :: l' =>
      bind (py_float v) (fun f => bind (floats_of l') (fun fs => Ok (f :: fs)))
  end.

(* the targets recovered for a row: the value stored under 'targets' and the
   final target *)
Definition restore_targets (signal_data : value) : res (value * float) :=
  bind (json_get signal_data "targets" (VList [])) (fun targets =>
  bind (if truthy targets then Ok targets
        else
          bind (json_get signal_data "target" VNone) (fun a =>
          bind (json_get signal_data "tgt" VNone) (fun b =>
          let single_target := if truthy a then a else b in
          if truthy single_target
          then bind (py_float single_target) (fun f => Ok (VList [VFloat f]))
          else Ok targets))) (fun targets =>
  bind (match targets with
        | VStr t =>
            bind (floats_of (map VStr
                    (List.filter (fun x => truthy (VStr (strip x))) (split_on "," "" t))))
                 (fun fs => Ok (VList (map VFloat fs)))
        | VList l =>
            bind (floats_of (List.filter truthy l)) (fun fs => Ok (VList (map VFloat fs)))
        | _ => Ok targets
        end) (fun targets =>
  (* float(targets[-1]) if targets else 0.0 *)
  if truthy targets then
    match targets with
    | VList l => bind (py_float (List.last l VNone)) (fun f => Ok (targets, f))
    | VStr _ => Raise (ValueError "could not convert string to float")
    | VDict _ => Raise (KeyError "-1")
    | _ => Raise (TypeError ("'" +:+ type_name targets +:+ "' object is not subscriptable"))
    end
  else Ok (targets, 0%float)))).

(* one row: [Ok None] when the row is stale and expired instead, [Ok (Some _)]
   with the order id and the restored position, [Raise] when the row is
   skipped by the inner handler *)
Definition restore_row (now : Z) (orders : list sandbox_order) (pos : sandbox_position)
  : res (option (string * dict)) :=
  let stale :=
    match sp_created_at pos with
    | Some created => date_of created <? date_of now
    | None => false
    end in
  if stale then Ok None else
  bind (match sp_signal_data pos with
        | Some parsed => parsed
        | None => Ok (VDict ∅)
        end) (fun signal_data =>
  let fake_order_id := "SANDBOX_" +:+ str_of_Z (sp_id pos) in
  bind (restore_sl orders pos signal_data) (fun '(sl, sl_order_id) =>
  let action := row_action pos in
  bind (restore_targets signal_data) (fun '(targets, final_target) =>
  bind (py_float (sp_average_price pos)) (fun entry =>
  Ok (Some (fake_order_id, mk_dict
    [("order_id", VStr fake_order_id);
     ("symbol", VStr (sp_symbol pos));
     ("exchange", VStr (sp_exchange pos));
     ("action", VStr action);
     ("quantity", VInt (Z.abs (sp_quantity pos)));
     ("entry_price", VFloat entry);
     ("current_sl", VFloat sl);
     ("original_sl", VFloat sl);
     ("final_target", VFloat final_target);
     ("targets", targets);
     ("signal_data", signal_data);
     ("username", VStr (sp_user_id pos));
     ("product", VStr (sp_product pos));
     ("sl_order_id", sl_order_id);
     ("trailing_enabled", VBool true);
     ("highest_price", VFloat entry);
     ("t1_exit_done", VBool false)])))))).

(* the loop over the open rows; returns the monitor and the ledger rows, the
   stale ones closed *)
Definition restore_step (now : Z) (orders : list sandbox_order)
    (acc : monitor * list sandbox_position) (pos : sandbox_position)
  : monitor * list sandbox_position :=
  let '(st, ledger) := acc in
  if sp_quantity pos =? 0 then (st, ledger ++ [pos])%list else
  match restore_row now orders pos with
  | Ok None =>
      (st, (ledger ++ [{| sp_id := sp_id pos; sp_user_id := sp_user_id pos;
                         sp_symbol := sp_symbol pos; sp_exchange := sp_exchange pos;
                         sp_product := sp_product pos; sp_quantity := 0;
                         sp_average_price := sp_average_price pos;
                         sp_created_at := sp_created_at pos;
                         sp_updated_at := Some now;
                         sp_signal_data := sp_signal_data pos |}])%list)
  | Ok (Some (order_id, pos_data)) => (set_active order_id pos_data st, (ledger ++ [pos])%list)
  | Raise _ => (st, (ledger ++ [pos])%list)
  end.

Definition restore_from_sandbox (analyze_mode : bool) (now : Z)
    (ledger : list sandbox_position) (orders : list sandbox_order) (st : monitor)
  : monitor * list sandbox_position :=
  if analyze_mode then fold_left (restore_step now orders) ledger (st, [])
  else (st, ledger).

(* __init__ *)
Definition init (analyze_mode : bool) (now : Z) (ledger : list sandbox_position)
    (orders : list sandbox_order) : monitor * list sandbox_position :=
  restore_from_sandbox analyze_mode now ledger orders
    {| active_positions := ∅; position_history := [] |}.

(** ** The calls into the monitor, as data *)

(* the mutators keyed by an order id *)
Inductive mutator :=
| UpdateSl (new_sl sl_order_id : value)
| UpdateTarget (new_target : value)
| UpdateTargets (targets : value)
| UpdateT3Timer (start_time : value)
| UpdateStatus (new_status : value)
| UpdateSlOrderId (sl_order_id : value)
| UpdateHighestPrice (current_price : float)
| UpdateQuantity (new_quantity : value)
| MarkT1ExitDone
| UpdateRemainingQuantity (new_quantity : value)
| SetTargetHitFlag (flag_name : string) (v : value)
| DisableTrailing
| EnableTrailing.

Definition mutate (m : mutator) (order_id : string) (st : monitor)
  : res (bool * monitor) :=
  match m with
  | UpdateSl new_sl sl_order_id => update_sl order_id new_sl sl_order_id st
  | UpdateTarget new_target => update_target order_id new_target st
  | UpdateTargets targets => update_targets order_id targets st
  | UpdateT3Timer start_time => update_t3_timer order_id start_time st
  | UpdateStatus new_status => update_status order_id new_status st
  | UpdateSlOrderId sl_order_id => update_sl_order_id order_id sl_order_id st
  | UpdateHighestPrice current_price => update_highest_price order_id current_price st
  | UpdateQuantity new_quantity => update_quantity order_id new_quantity st
  | MarkT1ExitDone => mark_t1_exit_done order_id st
  | UpdateRemainingQuantity new_quantity => update_remaining_quantity order_id new_quantity st
  | SetTargetHitFlag flag_name v => set_target_hit_flag order_id flag_name v st
  | DisableTrailing => disable_trailing order_id st
  | EnableTrailing => enable_trailing order_id st
  end.


Inductive call :=
| AddPosition (now : Z) (order_id : string) (symbol exchange action : value)
    (quantity entry_price stop_loss : value) (targets : list float)
    (signal_data : dict) (username product : value)
| Mutate (m : mutator) (order_id : string)
| RemovePosition (now : Z) (order_id : string) (reason : value).

(* the monitor after a call; a call that raises has changed nothing *)
Definition run_call (st : monitor) (c : call) : monitor :=
  match c with
  | AddPosition now order_id symbol exchange action quantity entry_price stop_loss
      targets signal_data username product =>
      add_position now order_id symbol exchange action quantity entry_price stop_loss
        targets signal_data username product st
  | Mutate m order_id =>
      match mutate m order_id st with
      | Ok (_, st') => st'
      | Raise _ => st
      end
  | RemovePosition now order_id reason => (remove_position now order_id reason st).2
  end.

Definition run_calls (cs : list call) (st : monitor) : monitor :=
  fold_left run_call cs st.

(* every active position has the key 'current_sl' *)
Definition carries_sl (st : monitor) : Prop :=
  forall order_id p,
    active_positions st !! order_id = Some p -> is_Some (p !! "current_sl").

End PositionMonitor.

(** * services/signal_execution_service.py *)

Module SignalExecutionService.
Import Py.
Local Open Scope Z_scope.

(** The service object. Times are microseconds, as [datetime] counts them;
    [duplicate_window] is in seconds. *)
Record service := {
  enabled : bool;
  confidence_threshold : float;
  duplicate_window : Z;
  recent_signals : gmap string (list (string * Z));
  stats : gmap string Z
}.

Definition bump (k : string) (svc : service) : service :=
  {| enabled := enabled svc;
     confidence_threshold := confidence_threshold svc;
     duplicate_window := duplicate_window svc;
     recent_signals := recent_signals svc;
     stats := <[k := default 0 (stats svc !! k) + 1]> (stats svc) |}.

Definition set_recent (channel : string) (l : list (string * Z)) (svc : service)
  : service :=
  {| enabled := enabled svc;
     confidence_threshold := confidence_threshold svc;
     duplicate_window := duplicate_window svc;
     recent_signals := <[channel := l]> (recent_signals svc);
     stats := stats svc |}.

(* __init__, from the two environment settings *)
Definition init (auto_execute : bool) (threshold : float) : service :=
  {| enabled := auto_execute;
     confidence_threshold := threshold;
     duplicate_window := 5;
     recent_signals := ∅;
     stats := list_to_map
       [("total_signals", 0); ("executed", 0); ("skipped_low_confidence", 0);
        ("skipped_duplicate", 0); ("skipped_disabled", 0); ("failed", 0)] |}.

Definition _generate_signal_hash (signal_data : dict) : string :=
  upper (join "|"
    [py_str (get_or signal_data "action" (VStr ""));
     py_str (get_or signal_data "symbol" (VStr ""));
     py_str (get_or signal_data "strike" (VStr ""));
     py_str (get_or signal_data "option_type" (VStr ""))]).

(* (now - t).total_seconds() < self.duplicate_window: the difference is a
   whole number of microseconds, and its quotient by 10^6 rounds to a double
   below the window exactly when the microseconds are below it *)
Definition within_window (window now t : Z) : bool :=
  now - t <? window * 1000000.

Definition recent_of (channel : string) (svc : service) : list (string * Z) :=
  default [] (recent_signals svc !! channel).

Definition _is_duplicate (now : Z) (channel : string) (signal_data : dict)
    (svc : service) : bool * service :=
  let signal_hash := _generate_signal_hash signal_data in
  (* clean old signals *)
  let kept :=
    List.filter (fun ht => within_window (duplicate_window svc) now ht.2)
      (recent_of channel svc) in
  if existsb (fun ht => String.eqb ht.1 signal_hash) kept
  then (true, set_recent channel kept svc)
  else (false, set_recent channel (kept ++ [(signal_hash, now)])%list svc).

Definition _validate_signal (signal_data : dict) : bool * option string :=
  if negb (truthy (get signal_data "action")) then
    (false, Some "Missing 'action' (BUY/SELL)")
  else if negb (truthy (get signal_data "symbol")) then
    (false, Some "Missing 'symbol'")
  else if negb (truthy (get signal_data "tgt") || truthy (get signal_data "targets")) then
    (false, Some "Missing Mandatory Target")
  else if truthy (get signal_data "strike") || truthy (get signal_data "option_type") then
    if negb (truthy (get signal_data "strike")) then
      (false, Some "Options signal missing 'strike'")
    else if negb (truthy (get signal_data "option_type")) then
      (false, Some "Options signal missing 'option_type' (CE/PE)")
    else (true, None)
  else (true, None).

(** ** The collaborators of the service (quotes, symbol lookup, session,
    settings, order placement, sandbox order status) *)
Record env := {
  (* get_quotes(exchange, symbol) *)
  get_quotes : value -> value -> res value;
  (* _resolve_option_symbol(base_symbol, strike, option_type, exchange, expiry_tag),
     a lookup in the symbol database: the pair it returns, unpacked *)
  resolve_option_symbol : string -> value -> string -> string -> value -> res (value * value);
  (* get_auth_token_dbquery(username): [None], or whether the session is revoked *)
  auth_session : res (option bool);
  (* decrypt_token(auth_obj.auth) *)
  decrypt_token : res value;
  (* get_api_key_for_tradingview(username) *)
  api_key : res value;
  (* get_trading_lots() *)
  trading_lots : res Z;
  (* place_order(order_data, auth_token, broker): success and response *)
  place_order : dict -> res (bool * dict);
  (* SandboxOrders by order id: the order status, if the order is there *)
  sandbox_order_status : value -> res (option string)
}.

(** ** _convert_signal_to_order *)

Definition exchange_for_option (symbol : string) : string :=
  if existsb (String.eqb symbol) ["NIFTY"; "BANKNIFTY"; "FINNIFTY"; "MIDCPNIFTY"] then "NFO"
  else if existsb (String.eqb symbol) ["SENSEX"; "BANKEX"] then "BFO"
  else if existsb (String.eqb symbol)
            ["CRUDEOIL"; "GOLD"; "SILVER"; "NATURALGAS"; "COPPER"; "ZINC"] then "MCX"
  else "NFO".

Definition exchange_for_cash (symbol : string) : string :=
  if existsb (String.eqb symbol) ["NIFTY"; "BANKNIFTY"; "FINNIFTY"; "MIDCPNIFTY"] then "NFO"
  else if existsb (String.eqb symbol) ["SENSEX"; "BANKEX"] then "BFO"
  else if existsb (String.eqb symbol) ["CRUDEOIL"; "GOLD"; "SILVER"; "NATURALGAS"] then "MCX"
  else "NSE".

(* the last traded price of the quote, 0 when there is none or the lookup fails *)
Definition current_ltp_of (quote_res : res value) : float :=
  match quote_res with
  | Ok (VDict q) =>
      match q !! "lp" with
      | Some lp =>
          match py_float lp with
          | Ok f => f
          | Raise _ => 0%float
          end
      | None => 0%float
      end
  | _ => 0%float
  end.

Definition min_entry_tolerance : float := 0.1%float.
Definition max_entry_tolerance : float := 1.5%float.
(* the SELL branch reads [entry_tolerance], a name bound nowhere *)
Definition entry_tolerance : res float := Raise (NameError "entry_tolerance").
Definition min_entry_buffer : float := 0.1%float.
Definition max_entry_buffer : float := 1.0%float.

(* The price and order type decision for a signal with a price: the
   [pricetype], the [trigger_price] if any, and the order's [price]. *)
Definition entry_pricing (action condition : string) (price : value)
    (entry_price current_ltp : float) : res (string * option string * string) :=
  if (0 <? current_ltp)%float then
    if String.eqb action "BUY" then
      if (current_ltp <? entry_price)%float then
        Ok ("SL", Some (float_repr (entry_price + min_entry_tolerance)),
            float_repr (entry_price + max_entry_tolerance))
      else if (entry_price + min_entry_tolerance <=? current_ltp)%float
              && (current_ltp <=? entry_price + max_entry_tolerance)%float then
        Ok ("LIMIT", None, float_repr (current_ltp + 0.05))
      else if (current_ltp <? entry_price + min_entry_tolerance)%float then
        Raise (ValueError
          ("⏳ LTP " +:+ float_repr current_ltp +:+ " is below minimum entry "
           +:+ float_repr (entry_price + min_entry_tolerance) +:+ ". Waiting..."))
      else
        Raise (ValueError
          ("❌ LTP " +:+ float_repr current_ltp +:+ " is > "
           +:+ float_repr max_entry_tolerance +:+ " pts away from Entry "
           +:+ float_repr entry_price +:+ ". Waiting for pullback to "
           +:+ float_repr (entry_price + min_entry_tolerance) +:+ "-"
           +:+ float_repr (entry_price + max_entry_tolerance) +:+ " range."))
    else if String.eqb action "SELL" then
      if (entry_price <? current_ltp)%float then
        bind entry_tolerance (fun tol =>
          Ok ("SL", Some (float_repr entry_price), float_repr (entry_price - tol)))
      else
        bind entry_tolerance (fun tol =>
          if (entry_price - tol <=? current_ltp)%float then
            Ok ("LIMIT", None, float_repr (entry_price - tol))
          else
            Raise (ValueError
              ("❌ LTP " +:+ float_repr current_ltp +:+ " is > " +:+ float_repr tol
               +:+ " pts away from Entry " +:+ float_repr entry_price
               +:+ ". Waiting for pullback to " +:+ float_repr (entry_price - tol)
               +:+ "-" +:+ float_repr entry_price +:+ " range.")))
    else Ok ("LIMIT", None, py_str price)
  else
    if String.eqb condition "above" then
      Ok ("SL", Some (float_repr (entry_price + min_entry_buffer)),
          float_repr (entry_price + max_entry_buffer))
    else if String.eqb condition "below" then
      Ok ("SL", Some (float_repr (entry_price - min_entry_buffer)),
          float_repr (entry_price - max_entry_buffer))
    else Ok ("LIMIT", None, float_repr (entry_price + min_entry_buffer)).

(* "Action", "Symbol construction", "Quantity": the instrument part of the
   order *)
Definition order_instrument (e : env) (signal_data : dict) : res dict :=
  let order : dict := ∅ in
  bind (py_upper (get_or signal_data "action" (VStr "BUY"))) (fun action =>
  let order := <["action" := VStr action]> order in
  bind (py_upper (get_or signal_data "symbol" (VStr ""))) (fun symbol =>
  let strike := get signal_data "strike" in
  bind (py_upper (get_or signal_data "option_type" (VStr ""))) (fun option_type =>
  bind
    (if truthy strike && negb (String.eqb option_type "") then
       let order := <["symbol" := VStr symbol]> order in
       let exchange := exchange_for_option symbol in
       let order := <["exchange" := VStr exchange]> order in
       let expiry_tag := get signal_data "expiry" in
       bind (resolve_option_symbol e symbol strike option_type exchange expiry_tag)
         (fun '(resolved_symbol, resolved_lotsize) =>
       let order :=
         if truthy resolved_symbol then
           let order := <["symbol" := resolved_symbol]> order in
           if negb (truthy (get signal_data "quantity")) then
             <["quantity" :=
                 VStr (if truthy resolved_lotsize then py_str resolved_lotsize else "1")]>
               order
           else order
         else <["symbol" := VStr symbol]> order in
       Ok (match order !! "quantity" with
           | Some _ => order
           | None => <["quantity" := get_or signal_data "quantity" (VStr "1")]> order
           end))
     else
       Ok (<["exchange" := VStr (exchange_for_cash symbol)]>
             (<["symbol" := VStr symbol]> order)))
    (fun order =>
  Ok (match order !! "quantity" with
      | Some _ => order
      | None => <["quantity" := get_or signal_data "quantity" (VStr "1")]> order
      end))))).

(* "Price and Order Type Logic" *)
Definition order_price (e : env) (signal_data : dict) (order : dict) : res dict :=
  let price := get signal_data "price" in
  if truthy price then
    bind (py_float price) (fun entry_price =>
    let order := <["price" := VStr (py_str price)]> order in
    (* Smart Entry Logic: Fetch LTP to decide Order Type *)
    let current_ltp :=
      current_ltp_of (get_quotes e (get order "exchange") (get order "symbol")) in
    bind (py_lower (get_or signal_data "condition" (VStr ""))) (fun condition =>
    bind (py_upper (get order "action")) (fun action =>
    bind (entry_pricing action condition price entry_price current_ltp)
      (fun '(final_pricetype, final_trigger, final_price) =>
    let order := <["price" := VStr final_price]> order in
    (* Apply determined types *)
    let order := <["pricetype" := VStr final_pricetype]> order in
    Ok (match final_trigger with
        | Some trigger =>
            if String.eqb trigger "" then order
            else <["trigger_price" := VStr trigger]> order
        | None => order
        end)))))
  else
    Ok (<["pricetype" := VStr "MARKET"]> (<["price" := VStr "0"]> order)).

Definition _convert_signal_to_order (e : env) (signal_data : dict) : res dict :=
  bind (order_instrument e signal_data) (fun order =>
  bind (order_price e signal_data order) (fun order =>
  (* Product type *)
  let order := <["product" := VStr "MIS"]> order in
  (* Inject original signal data for Sandbox/Trailing logic *)
  let order := <["targets" := get_or signal_data "targets" (VList [])]> order in
  Ok (<["signal_data" := VDict signal_data]> order))).

(** ** execute_signal *)

(* Infer Action for Options if missing *)
Definition infer_action (signal_data : dict) : dict :=
  if negb (truthy (get signal_data "action"))
     && (is_str (get signal_data "option_type") "CE"
         || is_str (get signal_data "option_type") "PE")
  then <["action" := VStr "BUY"]> signal_data
  else signal_data.

(* Auto-SL Calculation: 10% of entry when the stop loss is missing; an
   exception inside leaves the signal as it was *)
Definition auto_sl (signal_data : dict) : dict :=
  if negb (truthy (get signal_data "sl")) && truthy (get signal_data "price") then
    match
      bind (py_float (get signal_data "price")) (fun entry =>
      bind (py_upper (get_or signal_data "action" (VStr "BUY"))) (fun action =>
      let sl_dist := (entry * 0.10)%float in
      let calc_sl :=
        if String.eqb action "BUY" then (entry - sl_dist)%float
        else (entry + sl_dist)%float in
      Ok (py_round calc_sl 1)))
    with
    | Ok calc_sl => <["sl" := VFloat calc_sl]> signal_data
    | Raise _ => signal_data
    end
  else signal_data.

(* the values a [for t in targets] loop visits *)
Definition iterate (v : value) : res (list value) :=
  match v with
  | VList l => Ok l
  | VStr t => Ok (map (fun c => VStr (String c "")) (list_ascii_of_string t))
  | VDict d => Ok (map (fun kv => VStr kv.1) (map_to_list d))
  | _ => Raise (TypeError ("'" +:+ type_name v +:+ "' object is not iterable"))
  end.

(* for t in targets: try: if t: target_floats.append(float(t)) except: pass *)
Fixpoint target_floats_of (l : list value) : list float :=
  match l with
  | [] => []
  | t :: l' =>
      if truthy t then
        match py_float t with
        | Ok f => f :: target_floats_of l'
        | Raise _ => target_floats_of l'
        end
      else target_floats_of l'
  end.

(* The registration of the new position after a successful placement (lines
   258-330). From line 291 on the file has these statements one level to the
   left of the [try] they belong to, which Python refuses; they are read by
   their evident block structure, as the body of the [try] down to its
   [except]. An exception leaves the monitor as it was. *)
Definition register_position (e : env) (now : Z) (signal_data order_data : dict)
    (order_id : value) (username : string) (mon : PositionMonitor.monitor)
  : PositionMonitor.monitor :=
  match
    let targets := get_or signal_data "targets" (VList []) in
    let targets :=
      if truthy targets then targets
      else
        let single_tgt := get signal_data "tgt" in
        if truthy single_tgt then VList [single_tgt] else targets in
    bind (iterate targets) (fun ts =>
    let target_floats := target_floats_of ts in
    (* Auto-generate T2 and T3 if only one target provided *)
    let target_floats :=
      match target_floats with
      | [base_tgt] => [base_tgt; (base_tgt + 2.0)%float; (base_tgt + 4.0)%float]
      | _ => target_floats
      end in
    bind (py_upper (get_or order_data "price_type" (VStr "LIMIT"))) (fun price_type =>
    bind (if String.eqb price_type "MARKET" then Ok true
          else
            bind (sandbox_order_status e order_id) (fun filled_order =>
            Ok match filled_order with
               | Some status => String.eqb status "complete"
               | None => false
               end)) (fun should_add_to_monitor =>
    if should_add_to_monitor then
      bind (py_int (get_or order_data "quantity" (VInt 1))) (fun quantity =>
      bind (py_float (get_or signal_data "price" (VInt 0))) (fun entry_price =>
      bind (if truthy (get signal_data "sl")
            then bind (py_float (get_or signal_data "sl" (VInt 0))) (fun f => Ok (VFloat f))
            else Ok (VInt 0)) (fun stop_loss =>
      Ok (PositionMonitor.add_position now (py_str order_id)
            (get_or order_data "symbol" (VStr ""))
            (get_or order_data "exchange" (VStr ""))
            (get_or signal_data "action" (VStr "BUY"))
            (VInt quantity) (VFloat entry_price) stop_loss target_floats signal_data
            (VStr username) (get_or order_data "product" (VStr "MIS")) mon))))
    else Ok mon)))
  with
  | Ok mon' => mon'
  | Raise _ => mon
  end.

(* the body of the outer [try] *)
Definition place (e : env) (now : Z) (signal_data : dict) (svc : service)
    (mon : PositionMonitor.monitor)
  : res ((bool * string) * service * PositionMonitor.monitor) :=
  bind (_convert_signal_to_order e signal_data) (fun order_data =>
  let username := "aravind" in
  bind (auth_session e) (fun auth_obj =>
  match auth_obj with
  | None | Some true => Ok ((false, "No active broker session"), svc, mon)
  | Some false =>
      bind (decrypt_token e) (fun auth_token =>
      bind (api_key e) (fun key =>
      let order_data :=
        if truthy key then <["apikey" := key]> order_data else order_data in
      let order_data := <["strategy" := VStr "TelegramSignal"]> order_data in
      (* Apply Trading Lots Multiplier *)
      bind (trading_lots e) (fun lots_multiplier =>
      bind (if 1 <? lots_multiplier then
              bind (py_int (get_or order_data "quantity" (VInt 1))) (fun original_qty =>
              Ok (<["quantity" := VStr (str_of_Z (original_qty * lots_multiplier))]>
                    order_data))
            else Ok order_data) (fun order_data =>
      bind (place_order e order_data) (fun '(success, response) =>
      if success then
        let svc := bump "executed" svc in
        let order_id := get_or response "orderid" (VStr "N/A") in
        let mon := register_position e now signal_data order_data order_id username mon in
        Ok ((true, "Order placed: " +:+ py_str order_id), svc, mon)
      else
        let svc := bump "failed" svc in
        let error_msg := get_or response "message" (VStr "Unknown error") in
        Ok ((false, "Order failed: " +:+ py_str error_msg), svc, mon))))))
  end)).

(* The result, the signal mapping as the call leaves it, the service and the
   monitor. *)
Definition execute_signal (e : env) (now : Z) (signal_data : dict)
    (channel raw_message : string) (confidence : float) (svc : service)
    (mon : PositionMonitor.monitor)
  : (bool * string) * dict * service * PositionMonitor.monitor :=
  let svc := bump "total_signals" svc in
  let signal_data := infer_action signal_data in
  let signal_data := auto_sl signal_data in
  (* Safety Check 1: Is auto-execution enabled? *)
  if negb (enabled svc) then
    ((false, "Auto-execution disabled"), signal_data, bump "skipped_disabled" svc, mon)
  (* Safety Check 2: Confidence threshold *)
  else if (confidence <? confidence_threshold svc)%float then
    ((false, "Low confidence (" +:+ format_f 2 confidence +:+ ")"), signal_data,
     bump "skipped_low_confidence" svc, mon)
  else
    (* Safety Check 3: Duplicate detection *)
    let '(dup, svc) := _is_duplicate now channel signal_data svc in
    if dup then
      ((false, "Duplicate signal"), signal_data, bump "skipped_duplicate" svc, mon)
    else
      (* Safety Check 4: Validate signal data *)
      match _validate_signal signal_data with
      | (false, error) =>
          ((false, "Invalid: " +:+ default "None" error), signal_data,
           bump "failed" svc, mon)
      | (true, _) =>
          match place e now signal_data svc mon with
          | Ok (r, svc', mon') => (r, signal_data, svc', mon')
          | Raise ex =>
              ((false, "Exception: " +:+ exn_str ex), signal_data, bump "failed" svc, mon)
          end
      end.

(* the signal as [execute_signal] has prepared it when it reaches its tests *)
Definition prepared (signal_data : dict) : dict := auto_sl (infer_action signal_data).

End SignalExecutionService.

(** * Concrete inputs used by the examples below *)

Module Examples.
Import Py.
Local Open Scope Z_scope.

Definition empty_monitor : PositionMonitor.monitor :=
  {| PositionMonitor.active_positions := ∅; PositionMonitor.position_history := [] |}.

(* a long position as the execution service registers it *)
Definition long_monitor : PositionMonitor.monitor :=
  PositionMonitor.add_position 1000000 "ENTRY_ORDER_123" (VStr "NIFTY23DEC21000CE")
    (VStr "NFO") (VStr "BUY") (VInt 50) (VFloat 100) (VFloat 90) [120%float]
    {[ "product" := VStr "MIS" ]} (VStr "aravind") (VStr "MIS") empty_monitor.

(* a short position with two targets *)
Definition short_monitor : PositionMonitor.monitor :=
  PositionMonitor.add_position 1000000 "ENTRY_ORDER_124" (VStr "CRUDEOIL")
    (VStr "MCX") (VStr "SELL") (VInt 1) (VFloat 100) (VFloat 110) [90%float; 80%float]
    ∅ (VStr "aravind") (VStr "MIS") empty_monitor.

(* an open long row of the ledger whose signal carries sl = 95 and two
   targets, and its protective order, open, with trigger 97 *)
Definition long_signal : dict :=
  {[ "sl" := VInt 95; "targets" := VList [VInt 110; VInt 105] ]}.

Definition long_row : PositionMonitor.sandbox_position :=
  {| PositionMonitor.sp_id := 1;
     PositionMonitor.sp_user_id := "aravind";
     PositionMonitor.sp_symbol := "NIFTY23DEC21000CE";
     PositionMonitor.sp_exchange := "NFO";
     PositionMonitor.sp_product := "MIS";
     PositionMonitor.sp_quantity := 50;
     PositionMonitor.sp_average_price := VFloat 100;
     PositionMonitor.sp_created_at := None;
     PositionMonitor.sp_updated_at := None;
     PositionMonitor.sp_signal_data := Some (Ok (VDict long_signal)) |}.

Definition open_sl_order : PositionMonitor.sandbox_order :=
  {| PositionMonitor.so_orderid := "SL_ORDER_999";
     PositionMonitor.so_user_id := "aravind";
     PositionMonitor.so_symbol := "NIFTY23DEC21000CE";
     PositionMonitor.so_exchange := "NFO";
     PositionMonitor.so_product := "MIS";
     PositionMonitor.so_action := "SELL";
     PositionMonitor.so_order_status := "open";
     PositionMonitor.so_price_type := "SL";
     PositionMonitor.so_order_timestamp := 5;
     PositionMonitor.so_trigger_price := VFloat 97 |}.

(** ** The execution service *)

(* collaborators: a quote with the given last price, a live session, no lot
   multiplier, placements that succeed with order id 42 and are reported
   complete *)
Definition quote_env (lp : float) : SignalExecutionService.env :=
  {| SignalExecutionService.get_quotes := fun _ _ => Ok (VDict {[ "lp" := VFloat lp ]});
     SignalExecutionService.resolve_option_symbol := fun _ _ _ _ _ => Ok (VNone, VNone);
     SignalExecutionService.auth_session := Ok (Some false);
     SignalExecutionService.decrypt_token := Ok (VStr "token");
     SignalExecutionService.api_key := Ok (VStr "key");
     SignalExecutionService.trading_lots := Ok 1;
     SignalExecutionService.place_order := fun _ => Ok (true, {[ "orderid" := VStr "42" ]});
     SignalExecutionService.sandbox_order_status := fun _ => Ok (Some "complete") |}.

(* the service as constructed, switched on or off, threshold 0.7 *)
Definition service_on : SignalExecutionService.service :=
  SignalExecutionService.init true 0.7.
Definition service_off : SignalExecutionService.service :=
  SignalExecutionService.init false 0.7.

(* cash signals with entry 100 and no stop loss *)
Definition buy_signal : dict :=
  {[ "action" := VStr "BUY"; "symbol" := VStr "RELIANCE"; "price" := VStr "100";
     "targets" := VList [VStr "110"]; "tgt" := VStr "110.0" ]}.
Definition sell_signal : dict :=
  {[ "action" := VStr "SELL"; "symbol" := VStr "RELIANCE"; "price" := VStr "100";
     "targets" := VList [VStr "90"]; "tgt" := VStr "90.0" ]}.

(* [buy_signal] with its stop loss *)
Definition full_signal : dict := <["sl" := VStr "95"]> buy_signal.

(* the instrument part of the order of [buy_signal] *)
Definition buy_order : dict :=
  {[ "action" := VStr "BUY"; "symbol" := VStr "RELIANCE"; "exchange" := VStr "NSE";
     "quantity" := VStr "1" ]}.

(* the two refusals of the BUY branch at entry 100, for quotes 100.05 and 102 *)
Definition waiting_100_05 : string :=
  "⏳ LTP 100.05 is below minimum entry 100.1. Waiting...".
Definition pullback_102 : string :=
  "❌ LTP 102.0 is > 1.5 pts away from Entry 100.0. "
  +:+ "Waiting for pullback to 100.1-101.5 range.".

(** ** The classifier *)

Definition reliance_text : string := "BUY RELIANCE @ 2400 SL 2380 TGT 2450".

(* what the classifier extracts from [reliance_text] *)
Definition reliance_extracted : dict :=
  {[ "action" := VStr "BUY"; "symbol" := VStr "RELIANCE"; "strike" := VStr "2400";
     "price" := VStr "2400"; "condition" := VStr "@"; "sl" := VStr "2380";
     "stop_loss" := VStr "2380"; "targets" := VList [VStr "2450"];
     "tgt" := VStr "2450.0" ]}.

(* the seven fields of the design document's example, tgt being "2450" *)
Definition reliance_seven_fields : dict :=
  {[ "action" := VStr "BUY"; "symbol" := VStr "RELIANCE"; "price" := VStr "2400";
     "condition" := VStr "@"; "sl" := VStr "2380"; "targets" := VList [VStr "2450"];
     "tgt" := VStr "2450" ]}.

(* the position restored for [long_row] *)
Definition long_restored : dict :=
  Eval vm_compute in
    match PositionMonitor.restore_row 0 [open_sl_order] long_row with
    | Ok (Some (_, p)) => p
    | _ => ∅
    end.

End Examples.

(** * Proof automation *)

(* an equation between closed terms, by evaluation *)
Ltac by_eval :=
  lazymatch goal with
  | |- @eq ?T ?a ?b => vm_cast_no_check (@eq_refl T b)
  end.

(* two floats that compare different are different *)
Ltac float_discr H :=
  match type of H with
  | ?a = ?b =>
      let E := fresh in
      assert (E : (a =? a)%float = (a =? b)%float) by (rewrite <- H; reflexivity);
      vm_compute in E; discriminate E
  end.
Ltac float_neq :=
  let H := fresh in
  intros H;
  first [ float_discr H
        | apply (f_equal (fun v => match v with Py.VFloat f => f | _ => 0%float end)) in H;
          float_discr H ].

(** * The rest of the execution service: switches and counters *)

Module ExecutionStats.
Import Py SignalExecutionService.
Local Open Scope Z_scope.

(* enable() and disable() *)
Definition set_enabled (b : bool) (svc : service) : service :=
  {| enabled := b;
     confidence_threshold := confidence_threshold svc;
     duplicate_window := duplicate_window svc;
     recent_signals := recent_signals svc;
     stats := stats svc |}.
Definition enable : service -> service := set_enabled true.
Definition disable : service -> service := set_enabled false.

(* get_stats: {**self.stats, 'enabled': ..., 'confidence_threshold': ...} *)
Definition get_stats (svc : service) : dict :=
  <["confidence_threshold" := VFloat (confidence_threshold svc)]>
    (<["enabled" := VBool (enabled svc)]> (VInt <$> stats svc)).

(* one counter of [get_stats] *)
Definition counter (k : string) (svc : service) : Z :=
  match get_stats svc !! k with
  | Some (VInt n) => n
  | _ => 0
  end.


(* a call of [execute_signal] as it is made, and the service and the monitor
   after a run of calls *)
Record submission := {
  sb_env : env;
  sb_now : Z;
  sb_signal : dict;
  sb_channel : string;
  sb_raw_message : string;
  sb_confidence : float
}.

Definition submit (st : service * PositionMonitor.monitor) (s : submission)
  : service * PositionMonitor.monitor :=
  let r := execute_signal (sb_env s) (sb_now s) (sb_signal s) (sb_channel s)
             (sb_raw_message s) (sb_confidence s) st.1 st.2 in
  (r.1.2, r.2).

Definition submit_all (l : list submission) (st : service * PositionMonitor.monitor)
  : service * PositionMonitor.monitor :=
  fold_left submit l st.

(* the ways a call of [execute_signal] ends: the four refusals before the
   placement, an exception, no broker session, the order placed, the order
   refused *)
Inductive ending :=
| Disabled | LowConfidence | Duplicate | Invalid | Excepted | NoSession | Placed | Refused.

(* the counter an ending adds to *)
Definition ending_counter (x : ending) : option string :=
  match x with
  | Disabled => Some "skipped_disabled"
  | LowConfidence => Some "skipped_low_confidence"
  | Duplicate => Some "skipped_duplicate"
  | Invalid | Excepted | Refused => Some "failed"
  | Placed => Some "executed"
  | NoSession => None
  end.

End ExecutionStats.

(** * The rest of the position monitor: what its calls write *)

Module MonitorKeys.
Import Py PositionMonitor.
Local Open Scope Z_scope.

(* the keys of a position a mutator assigns *)
Definition written (m : mutator) : list string :=
  match m with
  | UpdateSl _ _ => ["current_sl"; "sl_order_id"]
  | UpdateTarget _ => ["final_target"]
  | UpdateTargets _ => ["targets"]
  | UpdateT3Timer _ => ["t3_plus_10_start_time"]
  | UpdateStatus _ => ["status"]
  | UpdateSlOrderId _ => ["sl_order_id"]
  | UpdateHighestPrice _ => ["highest_price"]
  | UpdateQuantity _ => ["quantity"]
  | MarkT1ExitDone => ["t1_exit_done"]
  | UpdateRemainingQuantity _ => ["remaining_quantity"]
  | SetTargetHitFlag flag_name _ => [flag_name]
  | DisableTrailing | EnableTrailing => ["trailing_enabled"]
  end.

(* the keys both [add_position] and the restore give a position *)
Definition common_keys : list string :=
  ["order_id"; "symbol"; "exchange"; "action"; "quantity"; "entry_price"; "current_sl";
   "original_sl"; "final_target"; "targets"; "signal_data"; "username"; "product";
   "sl_order_id"; "trailing_enabled"; "highest_price"; "t1_exit_done"].

(* the keys [add_position] alone gives *)
Definition added_keys : list string :=
  ["status"; "created_at"; "original_quantity"; "remaining_quantity"; "t1_hit"; "t2_hit";
   "t3_hit"; "t3_plus_10_start_time"].

(* every active position has the keys [K] *)
Definition carries (K : list string) (st : monitor) : Prop :=
  forall order_id p,
    active_positions st !! order_id = Some p -> Forall (fun k => is_Some (p !! k)) K.

(* a position as [remove_position] files it *)
Definition closed (p : dict) : Prop :=
  is_Some (p !! "status") /\ exists t, p !! "closed_at" = Some (VTime t).

(* a row created before today *)
Definition stale (now : Z) (pos : sandbox_position) : bool :=
  match sp_created_at pos with
  | Some created => date_of created <? date_of now
  | None => false
  end.

(* the row as the restore closes it *)
Definition expire (now : Z) (pos : sandbox_position) : sandbox_position :=
  {| sp_id := sp_id pos; sp_user_id := sp_user_id pos;
     sp_symbol := sp_symbol pos; sp_exchange := sp_exchange pos;
     sp_product := sp_product pos; sp_quantity := 0;
     sp_average_price := sp_average_price pos;
     sp_created_at := sp_created_at pos;
     sp_updated_at := Some now;
     sp_signal_data := sp_signal_data pos |}.

End MonitorKeys.

(** * The option symbol lookup of the execution service *)

Module OptionSymbols.
Import Py Re.
Local Open Scope Z_scope.

(** ** [datetime.strptime] for the two formats of the lookup

    A date is a day count, 0 for 0001-01-01 (one less than [toordinal]); a
    [datetime] is its microseconds from then, as in the other modules. The
    month names are those of the C locale. *)

Definition is_leap (year : Z) : bool :=
  (year mod 4 =? 0) && (negb (year mod 100 =? 0) || (year mod 400 =? 0)).

Definition days_in_month (year month : Z) : Z :=
  if (month =? 2) && is_leap year then 29
  else nth (Z.to_nat month) [0; 31; 28; 31; 30; 31; 30; 31; 31; 30; 31; 30; 31] 0.

Definition days_before_year (year : Z) : Z :=
  let y := year - 1 in
  y * 365 + y / 4 - y / 100 + y / 400.

Definition days_before_month (year month : Z) : Z :=
  nth (Z.to_nat month) [0; 0; 31; 59; 90; 120; 151; 181; 212; 243; 273; 304; 334] 0
  + (if (2 <? month) && is_leap year then 1 else 0).

(* date(year, month, day), [None] for the ValueError of a date that does not
   exist *)
Definition day_of_date (year month day : Z) : option Z :=
  if (1 <=? year) && (year <=? 9999) && (1 <=? month) && (month <=? 12)
     && (1 <=? day) && (day <=? days_in_month year month)
  then Some (days_before_year year + days_before_month year month + day - 1)
  else None.

Definition month_names : list string :=
  ["jan"; "feb"; "mar"; "apr"; "may"; "jun"; "jul"; "aug"; "sep"; "oct"; "nov"; "dec"].

Fixpoint index_of (x : string) (l : list string) (i : Z) : option Z :=
  match l with
  | [] => None
  | y :: l' => if String.eqb x y then Some i else index_of x l' (i + 1)
  end.

(* "(?P<d>3[0-1]|[1-2]\d|0[1-9]|[1-9]| [1-9])" *)
Definition day_directive : regex :=
  Group 1 (alts [cat [Lit "3"; In_ [CRange "0" "1"]];
                 cat [In_ [CRange "1" "2"]; d];
                 cat [Lit "0"; In_ [CRange "1" "9"]];
                 In_ [CRange "1" "9"];
                 cat [Lit " "; In_ [CRange "1" "9"]]]).

(* "(?P<b>jan|feb|mar|apr|may|jun|jul|aug|sep|oct|nov|dec)" *)
Definition month_directive : regex := Group 2 (words month_names).

(* "%d-%b-%Y" and "%d-%b-%y", as [_strptime] compiles them (re.IGNORECASE) *)
Definition long_year_format : regex :=
  cat [day_directive; Lit "-"; month_directive; Lit "-"; Group 3 (cat [d; d; d; d])].
Definition short_year_format : regex :=
  cat [day_directive; Lit "-"; month_directive; Lit "-"; Group 3 (cat [d; d])].

(* [re.match] of a format on the whole string: the three fields, when the
   format matches and no data remains *)
Definition match_format (format : regex) (t : string) : option (string * string * string) :=
  match rmatch true format
          {| pos := 0; prev := None; rest := list_ascii_of_string t; caps := [] |} Some with
  | Some st =>
      if Nat.eqb (pos st) (String.length t) then
        let m := obj t 0 st in
        match group m 1, group m 2, group m 3 with
        | Some day, Some month, Some year => Some (day, month, year)
        | _, _, _ => None
        end
      else None
  | None => None
  end.

(* the day of [datetime.strptime(t, format)]; [short] says that the year has
   two digits, 69 to 99 standing for 1969 to 1999 *)
Definition strptime (format : regex) (short : bool) (t : string) : option Z :=
  match match_format format t with
  | Some (day, month, year) =>
      match int_of_string day, index_of (lower month) month_names 1, int_of_string year with
      | Some dd, Some mm, Some yy =>
          let year :=
            if short then (if yy <=? 68 then yy + 2000 else yy + 1900) else yy in
          day_of_date year mm dd
      | _, _, _ => None
      end
  | None => None
  end.

(** ** _resolve_option_symbol *)

(* a row of the symbol table *)
Record token := {
  tk_symbol : string;
  tk_expiry : option string;
  tk_lotsize : value
}.

Definition microseconds_per_day : Z := 86400000000.

(* datetime.max: the last microsecond of 9999-12-31 *)
Definition datetime_max : Z := 3652059 * microseconds_per_day - 1.

(* parse_expiry(token), as a datetime *)
Definition parse_expiry (tk : token) : Z :=
  match tk_expiry tk with
  | None => datetime_max
  | Some t =>
      if String.eqb t "" then datetime_max
      else
        match strptime long_year_format false t with
        | Some day => day * microseconds_per_day
        | None =>
            match strptime short_year_format true t with
            | Some day => day * microseconds_per_day
            | None => datetime_max
            end
        end
  end.

(* matches.sort(key=parse_expiry): a stable sort *)
Fixpoint insert_by_expiry (x : token) (l : list token) : list token :=
  match l with
  | [] => [x]
  | y :: l' =>
      if parse_expiry x <=? parse_expiry y then x :: l else y :: insert_by_expiry x l'
  end.

Definition sort_by_expiry (l : list token) : list token :=
  fold_right insert_by_expiry [] l.

(* a list in the order of its expiries *)
Fixpoint sorted_by_expiry (l : list token) : Prop :=
  match l with
  | [] => True
  | x :: l' =>
      Forall (fun y => parse_expiry x <= parse_expiry y) l' /\ sorted_by_expiry l'
  end.

(* parse_expiry(m).date() >= now.date() *)
Definition unexpired (now : Z) (tk : token) : bool :=
  PositionMonitor.date_of now <=? PositionMonitor.date_of (parse_expiry tk).

(* tag.isalpha() *)
Definition isalpha (t : string) : bool :=
  negb (String.eqb t "") && forallb is_alpha (list_ascii_of_string t).

(* matches_expiry_tag(token, tag) *)
Definition matches_expiry_tag (tk : token) (tag : value) : res bool :=
  match tk_expiry tk with
  | None => Ok true
  | Some expiry =>
      if negb (truthy tag) || String.eqb expiry "" then Ok true
      else
        bind (py_upper tag) (fun tag =>
        let token_expiry := upper expiry in
        (* Case 1: Month Only *)
        if Nat.eqb (String.length tag) 3 && isalpha tag then
          Ok (contains ("-" +:+ tag +:+ "-") token_expiry)
        else
          (* Case 2: Date + Month *)
          match split_on "-" "" token_expiry with
          | p0 :: p1 :: _ => Ok (String.eqb tag (p0 +:+ p1))
          | _ => Ok false
          end)
  end.

(* [m for m in active_matches if matches_expiry_tag(m, expiry_tag)] *)
Fixpoint filter_by_tag (tag : value) (l : list token) : res (list token) :=
  match l with
  | [] => Ok []
  | tk :: l' =>
      bind (matches_expiry_tag tk tag) (fun keep =>
      bind (filter_by_tag tag l') (fun kept =>
      Ok (if keep then tk :: kept else kept)))
  end.

(* what the lookup returns: a bare [None], or a pair *)
Inductive resolved :=
| Bare
| Pair (symbol lotsize : value).

(* the query for the tokens of an exchange with the given strike, whose
   symbol ends with the option type and starts with the base symbol *)
Definition symbol_query := string -> float -> string -> string -> res (list token).

Definition _resolve_option_symbol (query : symbol_query) (now : Z)
    (base_symbol : string) (strike : value) (option_type exchange : string)
    (expiry_tag : value) : resolved :=
  match py_float strike with
  | Raise (ValueError _) => Bare
  | Raise _ => Pair VNone VNone
  | Ok strike_val =>
      match
        bind (query exchange strike_val option_type base_symbol) (fun matches =>
        match matches with
        | [] => Ok (Pair VNone VNone)
        | _ =>
            let matches := sort_by_expiry matches in
            (* Filter out expired contracts *)
            let active_matches := List.filter (unexpired now) matches in
            bind (if truthy expiry_tag then
                    bind (filter_by_tag expiry_tag active_matches) (fun expiry_filtered =>
                    Ok (match expiry_filtered with
                        | [] => active_matches
                        | _ => expiry_filtered
                        end))
                  else Ok active_matches) (fun active_matches =>
            Ok (match active_matches with
                | tk :: _ => Pair (VStr (tk_symbol tk)) (tk_lotsize tk)
                | [] => Pair VNone VNone
                end))
        end)
      with
      | Ok r => r
      | Raise _ => Pair VNone VNone
      end
  end.

(* resolved_symbol, resolved_lotsize = self._resolve_option_symbol(...) *)
Definition unpack (r : resolved) : res (value * value) :=
  match r with
  | Bare => Raise (TypeError "cannot unpack non-iterable NoneType object")
  | Pair symbol lotsize => Ok (symbol, lotsize)
  end.

(* the collaborators of the service with the lookup done on a symbol table *)
Definition with_symbols (query : symbol_query) (now : Z)
    (e : SignalExecutionService.env) : SignalExecutionService.env :=
  {| SignalExecutionService.get_quotes := SignalExecutionService.get_quotes e;
     SignalExecutionService.resolve_option_symbol :=
       fun base_symbol strike option_type exchange expiry_tag =>
         unpack (_resolve_option_symbol query now base_symbol strike option_type exchange
                   expiry_tag);
     SignalExecutionService.auth_session := SignalExecutionService.auth_session e;
     SignalExecutionService.decrypt_token := SignalExecutionService.decrypt_token e;
     SignalExecutionService.api_key := SignalExecutionService.api_key e;
     SignalExecutionService.trading_lots := SignalExecutionService.trading_lots e;
     SignalExecutionService.place_order := SignalExecutionService.place_order e;
     SignalExecutionService.sandbox_order_status :=
       SignalExecutionService.sandbox_order_status e |}.

End OptionSymbols.

(** * services/telegram_listener_service.py *)

Module TelegramListener.
Import Py Re.
Local Open Scope Z_scope.

(* "(?P<action>BUY|SELL)\s+(?P<symbol>[A-Z0-9]+)\s*(?P<strike>\d+)?\s*"
   "(?P<option_type>CE|PE)?\s*(?:@|AT|ABOVE|CMP)?\s*(?P<price>[\d\.]+)\s*"
   "SL\s*(?P<sl>[\d\.]+)\s*TGT\s*(?P<tgt>[\d\.]+)" (re.IGNORECASE) *)
Definition signal_pattern : regex :=
  cat [Group 1 (words ["BUY"; "SELL"]); plus s;
       Group 2 (plus (In_ [CRange "A" "Z"; CDigit])); star s;
       opt (Group 3 (plus d)); star s;
       opt (Group 4 (words ["CE"; "PE"])); star s;
       opt (words ["@"; "AT"; "ABOVE"; "CMP"]); star s;
       Group 5 (plus (In_ [CDigit; CChar "."])); star s;
       Lit "SL"; star s;
       Group 6 (plus (In_ [CDigit; CChar "."])); star s;
       Lit "TGT"; star s;
       Group 7 (plus (In_ [CDigit; CChar "."]))].

(* a group of [match.groupdict()]: [None] when it took no part *)
Definition group_value (m : rmatch_obj) (n : nat) : value :=
  match group m n with
  | Some t => VStr t
  | None => VNone
  end.

Definition groupdict (m : rmatch_obj) : dict :=
  mk_dict
    [("action", group_value m 1);
     ("symbol", group_value m 2);
     ("strike", group_value m 3);
     ("option_type", group_value m 4);
     ("price", group_value m 5);
     ("sl", group_value m 6);
     ("tgt", group_value m 7)].

(** [from services.signal_execution_service import signal_executor] (line 264)
    is run at every live parsed message, inside the try of line 263: it gives
    the executor of the module ([Ok tt]) or raises. *)
Definition import_outcome : Type := res unit.

(** The module as it stands in the tree. Lines 283-328 of
    signal_execution_service.py are at the indent of the [try] of line 258 and
    come before the [except] of that try (line 329): compiling the module
    raises SyntaxError, and so does every import of it. *)
Definition shipped_import : import_outcome :=
  Raise (SyntaxError
           "expected 'except' or 'finally' block (signal_execution_service.py, line 291)").

(** The listener after [initialize], with the two services it drives: the
    executor and the monitor are the modules' global instances. *)
Record listener := {
  message_buffer : gmap string (list dict);
  executor : SignalExecutionService.service;
  monitor : PositionMonitor.monitor
}.

(* the classifier first, the regex as fallback: the signal, the status and the
   confidence *)
Definition parse (valid_symbols : gset string) (text : string)
  : dict * string * float :=
  let '(is_signal, confidence, extracted) :=
    SignalClassifier.classify valid_symbols text in
  let '(signal_data, parsed_status) :=
    match extracted with
    | Some data =>
        if is_signal && truthy (VDict data) then (data, "parsed") else (∅, "raw")
    | None => (∅, "raw")
    end in
  if negb (truthy (VDict signal_data)) then
    match search true signal_pattern text with
    | Some m => (groupdict m, "parsed", 0.8%float)
    | None => (signal_data, parsed_status, confidence)
    end
  else (signal_data, parsed_status, confidence).

(* "Keep last 50 messages": the newest first *)
Definition buffered (data : dict) (buffer : list dict) : list dict :=
  let buffer := data :: buffer in
  if Nat.ltb 50 (length buffer) then List.removelast buffer else buffer.

(* process_message; [signal_executor] is what the import of the executor
   gives, [timestamp] the text [timestamp.isoformat()] gives, if there is a
   timestamp. An exception of the import is caught and logged (line 279), and
   the message goes on to the buffer. What [socketio.emit] does, after the
   message is buffered, changes nothing here. *)
Definition process_message (signal_executor : import_outcome) (valid_symbols : gset string)
    (e : SignalExecutionService.env) (now : Z) (text channel_name : string)
    (timestamp : option string) (replay : bool) (l : listener) : listener :=
  let '(signal_data, parsed_status, signal_confidence) := parse valid_symbols text in
  (* Auto-execute signal if parsed successfully - SKIP IF REPLAY *)
  let '(signal_data, svc, mon) :=
    if String.eqb parsed_status "parsed" && truthy (VDict signal_data) && negb replay
    then
      match signal_executor with
      | Ok _ =>
          let r := SignalExecutionService.execute_signal e now signal_data channel_name
                     text signal_confidence (executor l) (monitor l) in
          (* the mapping in [data] is the one the executor wrote to *)
          (r.1.1.2, r.1.2, r.2)
      | Raise _ => (signal_data, executor l, monitor l)
      end
    else (signal_data, executor l, monitor l) in
  let data := mk_dict
    [("channel", VStr channel_name);
     ("message", VStr text);
     ("parsed", VDict signal_data);
     ("status", VStr parsed_status);
     ("timestamp", match timestamp with Some t => VStr t | None => VNone end)] in
  {| message_buffer :=
       <[channel_name := buffered data (default [] (message_buffer l !! channel_name))]>
         (message_buffer l);
     executor := svc;
     monitor := mon |}.

(* a message as it arrives, and the listener after a run of them *)
Record message := {
  msg_now : Z;
  msg_text : string;
  msg_channel : string;
  msg_timestamp : option string;
  msg_replay : bool
}.

Definition deliver (signal_executor : import_outcome) (valid_symbols : gset string)
    (e : SignalExecutionService.env) (l : listener) (m : message) : listener :=
  process_message signal_executor valid_symbols e (msg_now m) (msg_text m) (msg_channel m)
    (msg_timestamp m) (msg_replay m) l.

(* get_history *)
Definition get_history (l : listener) : gmap string (list dict) := message_buffer l.

End TelegramListener.

(** * blueprints/orders.py: update_position_api *)

Module Orders.
Import Py PositionMonitor.
Local Open Scope Z_scope.

(** The JSON body of the request. Its 'symbol', 'exchange' and 'product' are
    texts, or absent (or null); 'sl', 'target' and 'targets' are any JSON
    value, [VNone] when absent. *)
Record update_request := {
  rq_symbol : option string;
  rq_exchange : option string;
  rq_product : option string;
  rq_sl : value;
  rq_target : value;
  rq_targets : value
}.

(* what the view returns: the HTTP status and the 'status' and 'message' of
   the JSON *)
Record response := {
  code : Z;
  status : string;
  message : string
}.

Definition error (c : Z) (msg : string) : response :=
  {| code := c; status := "error"; message := msg |}.

(* the loop over [active_monitored.items()], [keys] being the order ids in the
   order of the dict: the first position with the three names *)
Fixpoint find_position (keys : list string) (st : monitor)
    (symbol exchange product : string) : option string :=
  match keys with
  | [] => None
  | pid :: keys' =>
      match active_positions st !! pid with
      | Some pdata =>
          if is_str (get pdata "symbol") symbol
             && is_str (get pdata "exchange") exchange
             && is_str (get pdata "product") product
          then Some pid
          else find_position keys' st symbol exchange product
      | None => find_position keys' st symbol exchange product
      end
  end.

(* a part of the view either goes on, with what it appends to [updates], or
   returns *)
Inductive step :=
| Go (updates : list string) (st : monitor)
| Stop (r : response) (st : monitor).

(* the handlers of the first two parts: ValueError is answered 400, any other
   exception reaches the handler of the view *)
Definition handled (invalid : string) (ex : exn) (st : monitor) : step :=
  match ex with
  | ValueError _ => Stop (error 400 invalid) st
  | _ => Stop (error 500 (exn_str ex)) st
  end.

(* "Update SL" *)
Definition sl_step (target_order_id : string) (new_sl : value) (st : monitor) : step :=
  match new_sl with
  | VNone => Go [] st
  | _ =>
      match py_float new_sl with
      | Ok sl_val =>
          match update_sl target_order_id (VFloat sl_val) VNone st with
          | Ok (true, st') => Go ["SL updated to " +:+ float_repr sl_val] st'
          | Ok (false, st') => Go [] st'
          | Raise ex => handled "Invalid SL value" ex st
          end
      | Raise ex => handled "Invalid SL value" ex st
      end
  end.

(* "Update Target(s)": the single target *)
Definition target_step (target_order_id : string) (new_target : value) (st : monitor)
  : step :=
  match new_target with
  | VNone => Go [] st
  | _ =>
      match py_float new_target with
      | Ok tgt_val =>
          match update_target target_order_id (VFloat tgt_val) st with
          | Ok (true, st') => Go ["Target updated to " +:+ float_repr tgt_val] st'
          | Ok (false, st') => Go [] st'
          | Raise ex => handled "Invalid Target value" ex st
          end
      | Raise ex => handled "Invalid Target value" ex st
      end
  end.

(* t is not None and t != '' *)
Definition given (t : value) : bool :=
  match t with
  | VNone => false
  | VStr s => negb (String.eqb s "")
  | _ => true
  end.

(* "Update Targets List (T1, T2, T3)" *)
Definition targets_step (target_order_id : string) (new_targets : value) (st : monitor)
  : step :=
  match new_targets with
  | VList l =>
      match floats_of (List.filter given l) with
      | Ok valid_targets =>
          match update_targets target_order_id (VList (map VFloat valid_targets)) st with
          | Ok (true, st') =>
              let updates :=
                ["Targets updated to " +:+ py_repr (VList (map VFloat valid_targets))] in
              (* Also update final_target (max of targets) *)
              match valid_targets with
              | x :: rest =>
                  match update_target target_order_id (VFloat (py_max x rest)) st' with
                  | Ok (_, st'') => Go updates st''
                  | Raise _ => Stop (error 400 "Invalid Targets list") st'
                  end
              | [] => Go updates st'
              end
          | Ok (false, st') => Go [] st'
          | Raise _ => Stop (error 400 "Invalid Targets list") st
          end
      | Raise _ => Stop (error 400 "Invalid Targets list") st
      end
  | _ => Go [] st
  end.

Definition update_position_api (keys : list string) (rq : update_request)
    (st : monitor) : response * monitor :=
  match rq_symbol rq, rq_exchange rq, rq_product rq with
  | Some symbol, Some exchange, Some product =>
      if String.eqb symbol "" || String.eqb exchange "" || String.eqb product "" then
        (error 400 "Missing symbol, exchange or product", st)
      else
        (* Find the order_id for this position *)
        match find_position keys st symbol exchange product with
        | None => (error 404 "Position not found in monitor", st)
        | Some target_order_id =>
            if String.eqb target_order_id "" then
              (error 404 "Position not found in monitor", st)
            else
              match sl_step target_order_id (rq_sl rq) st with
              | Stop r st => (r, st)
              | Go updates1 st =>
                  match target_step target_order_id (rq_target rq) st with
                  | Stop r st => (r, st)
                  | Go updates2 st =>
                      match targets_step target_order_id (rq_targets rq) st with
                      | Stop r st => (r, st)
                      | Go updates3 st =>
                          match (updates1 ++ updates2 ++ updates3)%list with
                          | [] => (error 400 "No valid updates provided", st)
                          | updates =>
                              ({| code := 200; status := "success";
                                  message := join ", " updates |}, st)
                          end
                      end
                  end
              end
        end
  | _, _, _ => (error 400 "Missing symbol, exchange or product", st)
  end.

(* two states of the monitor that differ at most in the position [pid],
   which is in both or in neither *)
Definition same_frame (pid : string) (st st' : monitor) : Prop :=
  position_history st' = position_history st
  /\ (forall o, o <> pid -> active_positions st' !! o = active_positions st !! o)
  /\ (is_Some (active_positions st' !! pid) <-> is_Some (active_positions st !! pid)).

(* what a part of the view may do: change the position [pid], and stop with
   an error only *)
Definition step_ok (pid : string) (st : monitor) (s : step) : Prop :=
  match s with
  | Go _ st' => same_frame pid st st'
  | Stop r st' =>
      same_frame pid st st' /\ status r = "error" /\ (code r = 400 \/ code r = 500)
  end.

(* the three names of a position are those of the request *)
Definition named (pdata : dict) (symbol exchange product : string) : bool :=
  is_str (get pdata "symbol") symbol
  && is_str (get pdata "exchange") exchange
  && is_str (get pdata "product") product.

End Orders.

(** * Further concrete inputs *)

Module Scenarios.
Import Py.
Local Open Scope Z_scope.

(* the order of [Examples.buy_signal] at quote 99 *)
Definition stop_order_99 : dict :=
  Eval vm_compute in
    match SignalExecutionService._convert_signal_to_order (Examples.quote_env 99)
            Examples.buy_signal with
    | Ok order => order
    | Raise _ => ∅
    end.

(* three NIFTY 22000 CE contracts, the first expired on 5 January 2026 *)
Definition nifty_tokens : list OptionSymbols.token :=
  [ {| OptionSymbols.tk_symbol := "NIFTY26FEB2622000CE";
       OptionSymbols.tk_expiry := Some "26-FEB-2026";
       OptionSymbols.tk_lotsize := VInt 75 |};
    {| OptionSymbols.tk_symbol := "NIFTY26DEC2422000CE";
       OptionSymbols.tk_expiry := Some "26-DEC-24";
       OptionSymbols.tk_lotsize := VInt 75 |};
    {| OptionSymbols.tk_symbol := "NIFTY29JAN2622000CE";
       OptionSymbols.tk_expiry := Some "29-JAN-2026";
       OptionSymbols.tk_lotsize := VInt 75 |} ].

Definition nifty_query : OptionSymbols.symbol_query := fun _ _ _ _ => Ok nifty_tokens.

(* noon of 5 January 2026 *)
Definition jan_5_2026 : Z := 739620 * 86400000000 + 43200000000.

(* an option signal whose strike is no number *)
Definition odd_strike_signal : dict :=
  {[ "action" := VStr "BUY"; "symbol" := VStr "NIFTY"; "strike" := VStr "22k";
     "option_type" := VStr "CE"; "tgt" := VStr "200"; "sl" := VStr "120" ]}.

(* requests for the short position of [Examples.short_monitor]: a new stop
   loss with a target that is no number, and a list of targets *)
Definition sl_and_bad_target : Orders.update_request :=
  {| Orders.rq_symbol := Some "CRUDEOIL"; Orders.rq_exchange := Some "MCX";
     Orders.rq_product := Some "MIS"; Orders.rq_sl := VStr "105.5";
     Orders.rq_target := VStr "abc"; Orders.rq_targets := VNone |}.

Definition new_targets : Orders.update_request :=
  {| Orders.rq_symbol := Some "CRUDEOIL"; Orders.rq_exchange := Some "MCX";
     Orders.rq_product := Some "MIS"; Orders.rq_sl := VNone;
     Orders.rq_target := VNone;
     Orders.rq_targets := VList [VInt 95; VStr ""; VStr "85.5"; VNone; VInt 90] |}.

(* the listener after [initialize], with the executor switched on *)
Definition fresh_listener : TelegramListener.listener :=
  {| TelegramListener.message_buffer := ∅;
     TelegramListener.executor := Examples.service_on;
     TelegramListener.monitor := Examples.empty_monitor |}.

End Scenarios.

(** * Proof automation, continued *)

(* lookups in a map built by inserts *)
Ltac lookups :=
  repeat first
    [ rewrite lookup_insert_eq
    | rewrite lookup_insert_ne by (first [discriminate | congruence]) ];
  try rewrite lookup_empty.

(* comparisons of string literals *)
Ltac eval_eqb :=
  repeat match goal with
         | |- context [String.eqb ?a ?b] =>
             let v := eval vm_compute in (String.eqb a b) in
             change (String.eqb a b) with v
         end;
  cbv iota.

Local Open Scope list_scope.

(** * Facts shared by the three services *)

Module PyFacts.
Import Py.

Lemma bind_Ok {A B} (c : res A) (k : A -> res B) (b : B) :
  bind c k = Ok b -> exists a, c = Ok a /\ k a = Ok b.
Proof. destruct c as [a|e]; cbn [bind]; [eauto | discriminate]. Qed.

End PyFacts.

(** * Facts about the position monitor *)

Module MonitorFacts.
Import Py PyFacts PositionMonitor.

Lemma add_position_lookup now order_id symbol exchange action quantity entry_price
    stop_loss targets signal_data username product st :
  exists p,
    active_positions
      (add_position now order_id symbol exchange action quantity entry_price stop_loss
         targets signal_data username product st) !! order_id = Some p
    /\ p !! "status" = Some (VStr "pending_open")
    /\ p !! "final_target" =
         Some (match targets with x :: l => VFloat (py_max x l) | [] => VNone end)
    /\ p !! "current_sl" = Some stop_loss
    /\ p !! "highest_price" = Some entry_price
    /\ p !! "remaining_quantity" = Some quantity
    /\ p !! "sl_order_id" = Some VNone.
Proof.
  eexists. split.
  - unfold add_position, set_active. cbn [active_positions]. apply lookup_insert_eq.
  - repeat split; reflexivity.
Qed.

Lemma add_position_history now order_id symbol exchange action quantity entry_price
    stop_loss targets signal_data username product st :
  position_history
    (add_position now order_id symbol exchange action quantity entry_price stop_loss
       targets signal_data username product st) = position_history st.
Proof. reflexivity. Qed.

Lemma assign_absent order_id key v st :
  active_positions st !! order_id = None -> assign order_id key v st = Ok (false, st).
Proof. intros H. unfold assign. rewrite H. reflexivity. Qed.

Lemma assign_present order_id key v st p :
  active_positions st !! order_id = Some p ->
  assign order_id key v st = Ok (true, set_active order_id (<[key := v]> p) st).
Proof. intros H. unfold assign. rewrite H. reflexivity. Qed.

Lemma mutate_absent m order_id st :
  active_positions st !! order_id = None -> mutate m order_id st = Ok (false, st).
Proof.
  intros H. destruct m; cbn [mutate];
    try (apply assign_absent; exact H).
  - unfold update_sl. rewrite H. reflexivity.
  - unfold update_highest_price. rewrite H. reflexivity.
Qed.



Lemma remove_position_present now order_id reason st p :
  active_positions st !! order_id = Some p ->
  remove_position now order_id reason st =
    (Some (<["closed_at" := VTime now]> (<["status" := reason]> p)),
     {| active_positions := delete order_id (active_positions st);
        position_history :=
          let history :=
            position_history st ++ [<["closed_at" := VTime now]> (<["status" := reason]> p)] in
          if Nat.ltb 100 (length history) then List.tl history else history |}).
Proof. intros H. unfold remove_position. rewrite H. reflexivity. Qed.

Lemma remove_position_absent now order_id reason st :
  active_positions st !! order_id = None ->
  remove_position now order_id reason st = (None, st).
Proof. intros H. unfold remove_position. rewrite H. reflexivity. Qed.

Lemma length_tl {A} (l : list A) : length (List.tl l) = pred (length l).
Proof. destruct l; reflexivity. Qed.

Lemma remove_position_bound now order_id reason st :
  (length (position_history st) <= 100)%nat ->
  (length (position_history (remove_position now order_id reason st).2) <= 100)%nat.
Proof.
  intros Hlen. unfold remove_position.
  destruct (active_positions st !! order_id) as [p|]; cbn [snd position_history]; [|exact Hlen].
  destruct (Nat.ltb_spec 100 (length (position_history st ++
     [<["closed_at" := VTime now]> (<["status" := reason]> p)]))) as [Hgt|Hle].
  - rewrite length_tl, length_app. cbn [length]. lia.
  - exact Hle.
Qed.

Lemma mutate_history m order_id st b st' :
  mutate m order_id st = Ok (b, st') -> position_history st' = position_history st.
Proof.
  assert (Ha : forall key v, assign order_id key v st = Ok (b, st') ->
                 position_history st' = position_history st).
  { intros key v. unfold assign.
    destruct (active_positions st !! order_id); intros [= <- <-]; reflexivity. }
  destruct m; cbn [mutate]; try (apply Ha).
  - unfold update_sl. destruct (active_positions st !! order_id) as [p|];
      [destruct (p !! "current_sl")|]; intros [= <- <-] || discriminate; reflexivity.
  - unfold update_highest_price. destruct (active_positions st !! order_id) as [p|];
      [destruct (p !! "highest_price") as [h|]; [destruct (float_gt current_price h) as [[]|]|]|];
      intros [= <- <-] || discriminate; reflexivity.
Qed.

Lemma run_call_bound st c :
  (length (position_history st) <= 100)%nat ->
  (length (position_history (run_call st c)) <= 100)%nat.
Proof.
  intros Hlen. destruct c; cbn [run_call].
  - rewrite add_position_history. exact Hlen.
  - destruct (mutate m order_id st) as [[b st']|e] eqn:E; [|exact Hlen].
    rewrite (mutate_history _ _ _ _ _ E). exact Hlen.
  - apply remove_position_bound. exact Hlen.
Qed.

Lemma run_calls_bound cs st :
  (length (position_history st) <= 100)%nat ->
  (length (position_history (run_calls cs st)) <= 100)%nat.
Proof.
  unfold run_calls. revert st. induction cs as [|c cs IH]; intros st Hlen; cbn [fold_left].
  - exact Hlen.
  - apply IH, run_call_bound, Hlen.
Qed.

Lemma restore_step_history now orders acc pos :
  position_history (restore_step now orders acc pos).1 = position_history acc.1.
Proof.
  destruct acc as [st ledger]. unfold restore_step.
  destruct (sp_quantity pos =? 0)%Z; [reflexivity|].
  destruct (restore_row now orders pos) as [[[oid p]|]|]; reflexivity.
Qed.

Lemma restore_history analyze_mode now ledger orders st :
  position_history (restore_from_sandbox analyze_mode now ledger orders st).1
  = position_history st.
Proof.
  unfold restore_from_sandbox. destruct analyze_mode; [|reflexivity].
  change (position_history st) with (position_history (st, @nil sandbox_position).1).
  generalize (st, @nil sandbox_position). induction ledger as [|pos l IH]; intros acc.
  - reflexivity.
  - cbn [fold_left]. rewrite IH. apply restore_step_history.
Qed.


Lemma last_map_VFloat (ts : list float) :
  ts <> [] -> List.last (map VFloat ts) VNone = VFloat (List.last ts 0%float).
Proof.
  induction ts as [|x [|y ts] IH]; intros H; [congruence | reflexivity |].
  change (List.last (map VFloat (y :: ts)) VNone = VFloat (List.last (y :: ts) 0%float)).
  apply IH. discriminate.
Qed.

Lemma restore_targets_last signal_data ts f :
  restore_targets signal_data = Ok (VList (map VFloat ts), f) ->
  ts <> [] -> f = List.last ts 0%float.
Proof.
  unfold restore_targets. intros H Hne.
  apply bind_Ok in H as (t0 & _ & H).
  apply bind_Ok in H as (t1 & _ & H).
  apply bind_Ok in H as (t2 & _ & H). cbn beta in H.
  destruct (truthy t2) eqn:Ht.
  - destruct t2; try discriminate H.
    apply bind_Ok in H as (f' & Hf & H). cbn beta in H.
    injection H as Hl Hf'. subst l f'.
    rewrite last_map_VFloat in Hf by exact Hne. cbn [py_float] in Hf. congruence.
  - injection H as Hl _. subst t2. destruct ts; [congruence | discriminate Ht].
Qed.

Lemma restore_row_fields now orders pos order_id p :
  restore_row now orders pos = Ok (Some (order_id, p)) ->
  exists signal_data sl sl_order_id targets final_target,
    restore_sl orders pos signal_data = Ok (sl, sl_order_id)
    /\ restore_targets signal_data = Ok (targets, final_target)
    /\ p !! "current_sl" = Some (VFloat sl)
    /\ p !! "targets" = Some targets
    /\ p !! "final_target" = Some (VFloat final_target)
    /\ p !! "action" = Some (VStr (row_action pos)).
Proof.
  unfold restore_row. intros H.
  destruct (match sp_created_at pos with Some _ => _ | None => _ end); [discriminate|].
  apply bind_Ok in H as (signal_data & _ & H).
  apply bind_Ok in H as ([sl sl_order_id] & Hsl & H).
  apply bind_Ok in H as ([targets final_target] & Htg & H).
  apply bind_Ok in H as (entry & _ & H).
  injection H as _ <-.
  exists signal_data, sl, sl_order_id, targets, final_target.
  repeat split; try assumption; reflexivity.
Qed.

Lemma carries_sl_set_active order_id p st :
  carries_sl st -> is_Some (p !! "current_sl") -> carries_sl (set_active order_id p st).
Proof.
  intros Hst Hp oid q. unfold set_active. cbn [active_positions].
  destruct (decide (order_id = oid)) as [->|Hne].
  - rewrite lookup_insert_eq. intros [= <-]. exact Hp.
  - rewrite lookup_insert_ne by exact Hne. apply Hst.
Qed.

Lemma is_Some_insert_other (p : dict) key v k :
  is_Some (p !! k) -> is_Some (<[key := v]> p !! k).
Proof.
  intros H. destruct (decide (key = k)) as [->|Hne].
  - rewrite lookup_insert_eq. eauto.
  - rewrite lookup_insert_ne by exact Hne. exact H.
Qed.

Lemma run_call_carries st c : carries_sl st -> carries_sl (run_call st c).
Proof.
  intros Hst. destruct c; cbn [run_call].
  - apply carries_sl_set_active; [exact Hst|]. eexists. reflexivity.
  - destruct (mutate m order_id st) as [[b st']|e] eqn:E; [|exact Hst].
    destruct (active_positions st !! order_id) as [p|] eqn:Hp.
    + destruct m;
        try (cbn [mutate] in E;
             unfold update_target, update_targets, update_t3_timer, update_status,
               update_sl_order_id, update_quantity, mark_t1_exit_done,
               update_remaining_quantity, set_target_hit_flag, disable_trailing,
               enable_trailing in E;
             rewrite (assign_present _ _ _ _ _ Hp) in E;
             injection E as _ <-; apply carries_sl_set_active;
             [exact Hst | apply is_Some_insert_other, (Hst _ _ Hp)]).
      * cbn [mutate] in E. unfold update_sl in E. rewrite Hp in E.
        destruct (p !! "current_sl"); [|discriminate E].
        injection E as _ <-. apply carries_sl_set_active; [exact Hst|].
        destruct (truthy sl_order_id); [apply is_Some_insert_other|];
          rewrite lookup_insert_eq; eauto.
      * cbn [mutate] in E. unfold update_highest_price in E. rewrite Hp in E.
        destruct (p !! "highest_price") as [h|]; [|discriminate E].
        destruct (float_gt current_price h) as [[]|]; try discriminate E;
          injection E as _ <-; [|exact Hst].
        apply carries_sl_set_active; [exact Hst|].
        apply is_Some_insert_other, (Hst _ _ Hp).
    + rewrite (mutate_absent _ _ _ Hp) in E. injection E as _ <-. exact Hst.
  - intros oid q. unfold remove_position.
    destruct (active_positions st !! order_id); cbn [snd active_positions]; [|apply Hst].
    destruct (decide (order_id = oid)) as [->|Hne].
    + rewrite lookup_delete_eq. discriminate.
    + rewrite lookup_delete_ne by exact Hne. apply Hst.
Qed.

Lemma restore_step_carries now orders acc pos :
  carries_sl acc.1 -> carries_sl (restore_step now orders acc pos).1.
Proof.
  destruct acc as [st ledger]. cbn [fst]. intros Hst. unfold restore_step.
  destruct (sp_quantity pos =? 0)%Z; [exact Hst|].
  destruct (restore_row now orders pos) as [[[oid p]|]|] eqn:E; cbn [fst]; try exact Hst.
  apply carries_sl_set_active; [exact Hst|].
  apply restore_row_fields in E as (sd & sl & id & tg & ft & _ & _ & H & _).
  rewrite H. eauto.
Qed.

(* from its construction on, every position the monitor holds has the key
   'current_sl' *)
Lemma monitor_carries_sl analyze_mode now ledger orders cs :
  carries_sl (run_calls cs (init analyze_mode now ledger orders).1).
Proof.
  assert (H0 : carries_sl (init analyze_mode now ledger orders).1).
  { unfold init, restore_from_sandbox. destruct analyze_mode.
    - assert (H : forall l acc, carries_sl acc.1 ->
                    carries_sl (fold_left (restore_step now orders) l acc).1).
      { induction l as [|pos l IH]; intros acc Hacc; cbn [fold_left]; [exact Hacc|].
        apply IH, restore_step_carries, Hacc. }
      apply H. intros oid p. cbn [fst active_positions]. rewrite lookup_empty. discriminate.
    - intros oid p. cbn [fst active_positions]. rewrite lookup_empty. discriminate. }
  unfold run_calls. revert H0. generalize (init analyze_mode now ledger orders).1.
  induction cs as [|c cs IH]; intros st Hst; cbn [fold_left]; [exact Hst|].
  apply IH, run_call_carries, Hst.
Qed.

(** C8. [add_position] creates the position with status 'pending_open'.
    [remove_position] on an active id returns the position stamped with
    status = reason and closed_at = now (a datetime, not None), deletes the
    id from the active map and appends the position to the history, dropping
    the oldest entry when that makes 101; removing the same id again returns
    None and changes nothing. From the freshly constructed monitor on,
    whatever calls are made, the history never holds more than 100
    entries. *)
Theorem position_lifecycle :
  (forall now order_id symbol exchange action quantity entry_price stop_loss targets
          signal_data username product st,
     exists p,
       active_positions
         (add_position now order_id symbol exchange action quantity entry_price stop_loss
            targets signal_data username product st) !! order_id = Some p
       /\ p !! "status" = Some (VStr "pending_open"))
  /\ (forall now order_id reason st p,
        active_positions st !! order_id = Some p ->
        let closed := <["closed_at" := VTime now]> (<["status" := reason]> p) in
        exists st',
          remove_position now order_id reason st = (Some closed, st')
          /\ active_positions st' = delete order_id (active_positions st)
          /\ active_positions st' !! order_id = None
          /\ closed !! "status" = Some reason
          /\ closed !! "closed_at" = Some (VTime now)
          /\ VTime now <> VNone
          /\ position_history st' =
               (if Nat.leb 100 (length (position_history st))
                then List.tl (position_history st ++ [closed])
                else position_history st ++ [closed])
          /\ (forall now' reason',
                remove_position now' order_id reason' st' = (None, st')))
  /\ (forall analyze_mode now ledger orders cs,
        (length (position_history
                   (run_calls cs (init analyze_mode now ledger orders).1)) <= 100)%nat).
Proof.
  split; [|split].
  - intros. destruct (add_position_lookup now order_id symbol exchange action quantity
      entry_price stop_loss targets signal_data username product st) as (p & H1 & H2 & _).
    exists p. split; assumption.
  - intros now order_id reason st p H closed.
    rewrite (remove_position_present _ _ _ _ _ H). fold closed.
    eexists. split; [reflexivity|].
    cbn [active_positions position_history].
    split; [reflexivity|].
    split; [apply lookup_delete_eq|].
    split; [unfold closed; rewrite lookup_insert_ne by discriminate; apply lookup_insert_eq|].
    split; [apply lookup_insert_eq|].
    split; [discriminate|].
    split.
    + rewrite length_app. cbn [length].
      destruct (Nat.leb_spec 100 (length (position_history st))) as [Hge|Hlt].
      * destruct (Nat.ltb_spec 100 (length (position_history st) + 1)); [reflexivity|lia].
      * destruct (Nat.ltb_spec 100 (length (position_history st) + 1)); [lia|reflexivity].
    + intros now' reason'. apply remove_position_absent.
      cbn [active_positions]. apply lookup_delete_eq.
  - intros. apply run_calls_bound. unfold init.
    rewrite restore_history. cbn [position_history length]. lia.
Qed.

(** C8, at the position of [Examples.long_monitor] closed with "sl_hit". *)
Lemma position_lifecycle_witness :
  exists closed st',
    remove_position 2000000%Z "ENTRY_ORDER_123" (VStr "sl_hit") Examples.long_monitor
      = (Some closed, st')
    /\ active_positions st' !! "ENTRY_ORDER_123" = None
    /\ closed !! "status" = Some (VStr "sl_hit")
    /\ closed !! "closed_at" = Some (VTime 2000000%Z).
Proof.
  destruct (add_position_lookup 1000000%Z "ENTRY_ORDER_123" (VStr "NIFTY23DEC21000CE")
    (VStr "NFO") (VStr "BUY") (VInt 50) (VFloat 100) (VFloat 90) [120%float]
    {[ "product" := VStr "MIS" ]} (VStr "aravind") (VStr "MIS") Examples.empty_monitor)
    as (p & Hp & _).
  destruct (proj1 (proj2 position_lifecycle) 2000000%Z "ENTRY_ORDER_123" (VStr "sl_hit")
              Examples.long_monitor p Hp)
    as (st' & H1 & _ & H2 & H3 & H4 & _).
  eexists _, st'. repeat split; eassumption.
Defined.





(** C3 fails for a SELL position: added with targets [90, 80] it stores
    final_target = 90, the maximum, and not min(targets) = 80. *)
Lemma short_final_target_is_max :
  exists p,
    active_positions Examples.short_monitor !! "ENTRY_ORDER_124" = Some p
    /\ p !! "action" = Some (VStr "SELL")
    /\ p !! "targets" = Some (VList [VFloat 90; VFloat 80])
    /\ p !! "final_target" = Some (VFloat 90)
    /\ py_min 90 [80%float] = 80%float
    /\ VFloat 90 <> VFloat (py_min 90 [80%float]).
Proof.
  eexists. split; [apply lookup_insert_eq|].
  do 4 (split; [reflexivity|]).
  float_neq.
Qed.

(** C3, as the code has it. A position created by [add_position] with a
    non-empty target list stores final_target = max(targets), whatever its
    action; a position restored at startup with a non-empty list of recovered
    targets stores the last of them. *)
Theorem final_target_stored :
  (forall now order_id symbol exchange action quantity entry_price stop_loss x l
          signal_data username product st,
     exists p,
       active_positions
         (add_position now order_id symbol exchange action quantity entry_price stop_loss
            (x :: l) signal_data username product st) !! order_id = Some p
       /\ p !! "action" = Some action
       /\ p !! "final_target" = Some (VFloat (py_max x l)))
  /\ (forall now orders pos order_id p ts,
        restore_row now orders pos = Ok (Some (order_id, p)) ->
        p !! "targets" = Some (VList (map VFloat ts)) ->
        ts <> [] ->
        p !! "final_target" = Some (VFloat (List.last ts 0%float))).
Proof.
  split.
  - intros. eexists. split; [apply lookup_insert_eq|]. split; reflexivity.
  - intros now orders pos order_id p ts H Hts Hne.
    apply restore_row_fields in H
      as (sd & sl & oid & targets & ft & _ & Htg & _ & Ht & Hft & _).
    rewrite Hft. f_equal. f_equal.
    rewrite Hts in Ht. injection Ht as <-.
    eapply restore_targets_last; eassumption.
Qed.

(** C3, at the restored row [Examples.long_row]: a long position whose
    recovered targets are [110, 105] gets final_target = 105. *)
Lemma final_target_stored_witness :
  restore_row 0 [Examples.open_sl_order] Examples.long_row
    = Ok (Some ("SANDBOX_1", Examples.long_restored))
  /\ Examples.long_restored !! "action" = Some (VStr "BUY")
  /\ Examples.long_restored !! "final_target" = Some (VFloat 105).
Proof.
  split; [by_eval|]. split; [by_eval|].
  apply (proj2 final_target_stored 0%Z [Examples.open_sl_order] Examples.long_row
           "SANDBOX_1" Examples.long_restored [110%float; 105%float]).
  - by_eval.
  - by_eval.
  - discriminate.
Defined.

Lemma fold_latest_acc l b :
  exists o, fold_left (fun best o =>
      match best with
      | None => Some o
      | Some b => if (so_order_timestamp b <? so_order_timestamp o)%Z then Some o else Some b
      end) l (Some b) = Some o
    /\ (o = b \/ In o l)
    /\ (so_order_timestamp b <= so_order_timestamp o)%Z
    /\ (forall o', In o' l -> (so_order_timestamp o' <= so_order_timestamp o)%Z).
Proof.
  revert b. induction l as [|x l IH]; intros b; cbn [fold_left].
  - exists b. repeat split; [left; reflexivity | lia | intros o' []].
  - destruct (Z.ltb_spec (so_order_timestamp b) (so_order_timestamp x)) as [Hlt|Hge].
    + destruct (IH x) as (o & Ho & Hin & Hle & Hall). exists o.
      split; [exact Ho|].
      split; [right; destruct Hin as [->|Hin]; [left; reflexivity | right; exact Hin]|].
      split; [lia|]. intros o' [<-|Hin']; [exact Hle | apply Hall, Hin'].
    + destruct (IH b) as (o & Ho & Hin & Hle & Hall). exists o.
      split; [exact Ho|].
      split; [destruct Hin as [->|Hin]; [left; reflexivity | right; right; exact Hin]|].
      split; [lia|]. intros o' [<-|Hin']; [lia | apply Hall, Hin'].
Qed.

(* [latest] picks an order of the list with the greatest timestamp *)
Lemma latest_spec l :
  match latest l with
  | Some o => In o l /\ forall o', In o' l -> (so_order_timestamp o' <= so_order_timestamp o)%Z
  | None => l = []
  end.
Proof.
  unfold latest. destruct l as [|x l]; [reflexivity|]. cbn [fold_left].
  destruct (fold_latest_acc l x) as (o & -> & Hin & Hle & Hall).
  split.
  - destruct Hin as [->|Hin]; [left; reflexivity | right; exact Hin].
  - intros o' [<-|Hin']; [exact Hle | apply Hall, Hin'].
Qed.

(** C4 fails when an order is open: the signal of the row carries sl = 95 and
    the open protective order has trigger 97: the recovered stop loss is 97,
    not the signal's 95. *)
Lemma restore_prefers_open_order :
  signal_sl (VDict Examples.long_signal) = Ok 95%float
  /\ restore_sl [Examples.open_sl_order] Examples.long_row (VDict Examples.long_signal)
     = Ok (97%float, VStr "SL_ORDER_999")
  /\ 97%float <> 95%float.
Proof.
  split; [by_eval|]. split; [by_eval|].
  float_neq.
Qed.

(** C4, as the code has it. With [s] the stop loss embedded in the signal
    ('sl', or 'stop_loss' when 'sl' is zero or absent), the stop loss
    recovered for an open ledger row is: the trigger price of the latest open
    protective order when there is one and its trigger is set; [s] when there
    is an open protective order without trigger; when there is no open
    protective order, the trigger price of the latest protective order of any
    status if set, and [s] otherwise. Whenever the value so found is zero and
    the row has an average price, it is replaced by the 10% fallback: 0.9
    times the average for a long row, 1.1 times for a short one. *)
Theorem restore_sl_priority orders pos signal_data s :
  signal_sl signal_data = Ok s ->
  let active := active_sl_order orders pos (row_exit_action pos) in
  let historical := historical_sl orders pos (row_exit_action pos) in
  (forall a x,
     active = Some a -> truthy (so_trigger_price a) = true ->
     py_float (so_trigger_price a) = Ok x ->
     restore_sl orders pos signal_data =
       bind (fallback_sl pos x) (fun sl => Ok (sl, VStr (so_orderid a))))
  /\ (forall a,
        active = Some a -> truthy (so_trigger_price a) = false ->
        restore_sl orders pos signal_data =
          bind (fallback_sl pos s) (fun sl => Ok (sl, VNone)))
  /\ (forall h x,
        active = None -> historical = Some h -> truthy (so_trigger_price h) = true ->
        py_float (so_trigger_price h) = Ok x ->
        restore_sl orders pos signal_data =
          bind (fallback_sl pos x) (fun sl => Ok (sl, VNone)))
  /\ (active = None ->
      (historical = None
       \/ exists h, historical = Some h /\ truthy (so_trigger_price h) = false) ->
      restore_sl orders pos signal_data =
        bind (fallback_sl pos s) (fun sl => Ok (sl, VNone)))
  /\ (forall sl, (sl =? 0)%float = false -> fallback_sl pos sl = Ok sl)
  /\ (forall sl, truthy (sp_average_price pos) = false -> fallback_sl pos sl = Ok sl)
  /\ (forall sl avg,
        (sl =? 0)%float = true -> truthy (sp_average_price pos) = true ->
        py_float (sp_average_price pos) = Ok avg ->
        fallback_sl pos sl =
          Ok (if (0 <? sp_quantity pos)%Z then (avg * 0.9)%float else (avg * 1.1)%float)).
Proof.
  intros Hs active historical.
  unfold restore_sl, order_sl. rewrite Hs. cbn [bind].
  fold active. fold historical.
  repeat split.
  - intros a x -> Ht Hx. cbn [bind]. rewrite Ht, Hx. reflexivity.
  - intros a -> Ht. cbn [bind]. rewrite Ht. reflexivity.
  - intros h x -> -> Ht Hx. rewrite Ht, Hx. reflexivity.
  - intros -> [-> | (h & -> & Ht)]; [reflexivity | rewrite Ht; reflexivity].
  - intros sl H. unfold fallback_sl. rewrite H. reflexivity.
  - intros sl H. unfold fallback_sl. rewrite H, andb_false_r. reflexivity.
  - intros sl avg H1 H2 H3. unfold fallback_sl. rewrite H1, H2, H3. reflexivity.
Qed.

(** C4, at [Examples.long_row] with its open protective order. *)
Lemma restore_sl_priority_witness :
  restore_sl [Examples.open_sl_order] Examples.long_row (VDict Examples.long_signal)
  = bind (fallback_sl Examples.long_row 97) (fun sl => Ok (sl, VStr "SL_ORDER_999")).
Proof.
  apply (proj1 (restore_sl_priority [Examples.open_sl_order] Examples.long_row
                  (VDict Examples.long_signal) 95%float eq_refl)
           Examples.open_sl_order 97%float); reflexivity.
Defined.

End MonitorFacts.

(** * Facts about the execution service *)

Module ExecutionFacts.
Import Py PyFacts SignalExecutionService ExecutionStats.

Lemma execute_signal_gated e now signal_data channel raw_message confidence svc mon :
  enabled svc = true ->
  (confidence <? confidence_threshold svc)%float = false ->
  execute_signal e now signal_data channel raw_message confidence svc mon =
    let d := _is_duplicate now channel (prepared signal_data) (bump "total_signals" svc) in
    if d.1 then
      ((false, "Duplicate signal"), prepared signal_data, bump "skipped_duplicate" d.2, mon)
    else
      match _validate_signal (prepared signal_data) with
      | (false, error) =>
          ((false, "Invalid: " +:+ default "None" error), prepared signal_data,
           bump "failed" d.2, mon)
      | (true, _) =>
          match place e now (prepared signal_data) d.2 mon with
          | Ok (r, svc', mon') => (r, prepared signal_data, svc', mon')
          | Raise ex =>
              ((false, "Exception: " +:+ exn_str ex), prepared signal_data,
               bump "failed" d.2, mon)
          end
      end.
Proof.
  intros Hen Hc. unfold execute_signal, prepared.
  cbn [enabled confidence_threshold bump]. rewrite Hen, Hc. cbn [negb].
  destruct (_is_duplicate now channel (auto_sl (infer_action signal_data))
              (bump "total_signals" svc)) as [dup svc1].
  reflexivity.
Qed.

(* what an exception of the conversion becomes *)
Lemma conversion_error_surfaces e now signal_data channel raw_message confidence svc mon ex :
  enabled svc = true ->
  (confidence <? confidence_threshold svc)%float = false ->
  (_is_duplicate now channel (prepared signal_data) (bump "total_signals" svc)).1 = false ->
  (_validate_signal (prepared signal_data)).1 = true ->
  _convert_signal_to_order e (prepared signal_data) = Raise ex ->
  execute_signal e now signal_data channel raw_message confidence svc mon =
    ((false, "Exception: " +:+ exn_str ex), prepared signal_data,
     bump "failed"
       (_is_duplicate now channel (prepared signal_data) (bump "total_signals" svc)).2,
     mon).
Proof.
  intros Hen Hc Hd Hv Hx. rewrite execute_signal_gated by assumption.
  cbv zeta. rewrite Hd.
  destruct (_validate_signal (prepared signal_data)) as [[] error]; [|discriminate Hv].
  unfold place. rewrite Hx. reflexivity.
Qed.

(* the instrument part of the order carries the signal's action, in capitals *)
Lemma order_instrument_action e signal_data order action :
  py_upper (get_or signal_data "action" (VStr "BUY")) = Ok action ->
  order_instrument e signal_data = Ok order ->
  get order "action" = VStr action.
Proof.
  intros Ha H. unfold order_instrument in H. rewrite Ha in H. cbn [bind] in H.
  apply bind_Ok in H as (symbol & _ & H). cbn beta zeta in H.
  apply bind_Ok in H as (option_type & _ & H). cbn beta in H.
  apply bind_Ok in H as (order1 & H1 & H). cbn beta in H.
  assert (Hq : forall o : dict, get o "action" = VStr action ->
            get (match o !! "quantity" with
                 | Some _ => o
                 | None => <["quantity" := get_or signal_data "quantity" (VStr "1")]> o
                 end) "action" = VStr action).
  { intros o Ho. destruct (o !! "quantity"); [exact Ho|].
    unfold get. rewrite lookup_insert_ne by discriminate. exact Ho. }
  injection H as <-. apply Hq. clear Hq.
  destruct (truthy (get signal_data "strike") && negb (String.eqb option_type "")).
  - apply bind_Ok in H1 as ([resolved_symbol resolved_lotsize] & _ & H1).
    cbn beta iota zeta in H1. injection H1 as <-.
    destruct (truthy resolved_symbol); [destruct (negb (truthy (get signal_data "quantity")))|];
      repeat match goal with
             | |- context [match ?o !! "quantity" with _ => _ end] => destruct (o !! "quantity")
             end;
      unfold get; repeat (rewrite lookup_insert_ne by discriminate);
      rewrite lookup_insert_eq; reflexivity.
  - injection H1 as <-. unfold get. repeat (rewrite lookup_insert_ne by discriminate).
    rewrite lookup_insert_eq. reflexivity.
Qed.

(* and no trigger price *)
Lemma order_instrument_no_trigger e signal_data order :
  order_instrument e signal_data = Ok order -> order !! "trigger_price" = None.
Proof.
  intros H. unfold order_instrument in H.
  apply bind_Ok in H as (action & _ & H). cbn beta zeta in H.
  apply bind_Ok in H as (symbol & _ & H). cbn beta zeta in H.
  apply bind_Ok in H as (option_type & _ & H). cbn beta in H.
  apply bind_Ok in H as (order1 & H1 & H). cbn beta in H.
  assert (Hq : forall o : dict, o !! "trigger_price" = None ->
            (match o !! "quantity" with
             | Some _ => o
             | None => <["quantity" := get_or signal_data "quantity" (VStr "1")]> o
             end) !! "trigger_price" = None).
  { intros o Ho. destruct (o !! "quantity"); [exact Ho|].
    rewrite lookup_insert_ne by discriminate. exact Ho. }
  injection H as <-. apply Hq. clear Hq.
  destruct (truthy (get signal_data "strike") && negb (String.eqb option_type "")).
  - apply bind_Ok in H1 as ([resolved_symbol resolved_lotsize] & _ & H1).
    cbn beta iota zeta in H1. injection H1 as <-.
    destruct (truthy resolved_symbol); [destruct (negb (truthy (get signal_data "quantity")))|];
      repeat match goal with
             | |- context [match ?o !! "quantity" with _ => _ end] => destruct (o !! "quantity")
             end;
      repeat (rewrite lookup_insert_ne by discriminate); apply lookup_empty.
  - injection H1 as <-. repeat (rewrite lookup_insert_ne by discriminate).
    apply lookup_empty.
Qed.

Lemma order_price_buy e signal_data order condition entry_price :
  get order "action" = VStr "BUY" ->
  truthy (get signal_data "price") = true ->
  py_float (get signal_data "price") = Ok entry_price ->
  py_lower (get_or signal_data "condition" (VStr "")) = Ok condition ->
  order_price e signal_data order =
    bind (entry_pricing "BUY" condition (get signal_data "price") entry_price
            (current_ltp_of (get_quotes e (get order "exchange") (get order "symbol"))))
      (fun '(final_pricetype, final_trigger, final_price) =>
         let order := <["price" := VStr final_price]>
                        (<["price" := VStr (py_str (get signal_data "price"))]> order) in
         let order := <["pricetype" := VStr final_pricetype]> order in
         Ok (match final_trigger with
             | Some trigger =>
                 if String.eqb trigger "" then order
                 else <["trigger_price" := VStr trigger]> order
             | None => order
             end)).
Proof.
  intros Ha Ht Hp Hc. unfold order_price. rewrite Ht, Hp. cbn [bind].
  assert (Hget : forall k, get (<["price" := VStr (py_str (get signal_data "price"))]> order) k
                           = if decide (k = "price")
                             then VStr (py_str (get signal_data "price")) else get order k).
  { intros k. unfold get. rewrite lookup_insert. destruct (decide ("price" = k)) as [<-|Hne].
    - rewrite decide_True by reflexivity. reflexivity.
    - rewrite decide_False by congruence. reflexivity. }
  rewrite !Hget. rewrite !decide_False by discriminate.
  rewrite Hc. cbn [bind]. rewrite Ha. cbn [py_upper bind].
  change (upper "BUY") with "BUY". reflexivity.
Qed.

(** C1. For a BUY signal with entry price 100 and a live quote, the pricing
    decision is: at quote 99 a stop order (pricetype SL) with trigger_price
    100.1 and price 101.5; at quote 100.5 a LIMIT order at 100.55, without
    trigger; at quote 100.05 the 'Waiting...' refusal and at quote 102 the
    'pullback' refusal, both raised as ValueError. The conversion of the
    signal to an order gives an order with these fields, or raises these
    refusals; and an exception raised by the conversion is caught by
    [execute_signal], which counts a failure and returns (False, "Exception: "
    + the message). *)
Theorem buy_entry_pricing :
  (forall condition price,
     entry_pricing "BUY" condition price 100 99 = Ok ("SL", Some "100.1", "101.5")
     /\ entry_pricing "BUY" condition price 100 100.5 = Ok ("LIMIT", None, "100.55")
     /\ entry_pricing "BUY" condition price 100 100.05 =
          Raise (ValueError Examples.waiting_100_05)
     /\ entry_pricing "BUY" condition price 100 102 =
          Raise (ValueError Examples.pullback_102))
  /\ (forall e signal_data order condition,
        py_upper (get_or signal_data "action" (VStr "BUY")) = Ok "BUY" ->
        order_instrument e signal_data = Ok order ->
        truthy (get signal_data "price") = true ->
        py_float (get signal_data "price") = Ok 100%float ->
        py_lower (get_or signal_data "condition" (VStr "")) = Ok condition ->
        let current_ltp :=
          current_ltp_of (get_quotes e (get order "exchange") (get order "symbol")) in
        (current_ltp = 99%float ->
         exists o,
           _convert_signal_to_order e signal_data = Ok o
           /\ o !! "pricetype" = Some (VStr "SL")
           /\ o !! "trigger_price" = Some (VStr "100.1")
           /\ o !! "price" = Some (VStr "101.5"))
        /\ (current_ltp = 100.5%float ->
            exists o,
              _convert_signal_to_order e signal_data = Ok o
              /\ o !! "pricetype" = Some (VStr "LIMIT")
              /\ o !! "trigger_price" = None
              /\ o !! "price" = Some (VStr "100.55"))
        /\ (current_ltp = 100.05%float ->
            _convert_signal_to_order e signal_data =
              Raise (ValueError Examples.waiting_100_05))
        /\ (current_ltp = 102%float ->
            _convert_signal_to_order e signal_data =
              Raise (ValueError Examples.pullback_102)))
  /\ (forall e now signal_data channel raw_message confidence svc mon ex,
        enabled svc = true ->
        (confidence <? confidence_threshold svc)%float = false ->
        (_is_duplicate now channel (prepared signal_data) (bump "total_signals" svc)).1
          = false ->
        (_validate_signal (prepared signal_data)).1 = true ->
        _convert_signal_to_order e (prepared signal_data) = Raise ex ->
        execute_signal e now signal_data channel raw_message confidence svc mon =
          ((false, "Exception: " +:+ exn_str ex), prepared signal_data,
           bump "failed"
             (_is_duplicate now channel (prepared signal_data)
                (bump "total_signals" svc)).2,
           mon)).
Proof.
  assert (Hp : forall condition price,
     entry_pricing "BUY" condition price 100 99 = Ok ("SL", Some "100.1", "101.5")
     /\ entry_pricing "BUY" condition price 100 100.5 = Ok ("LIMIT", None, "100.55")
     /\ entry_pricing "BUY" condition price 100 100.05 =
          Raise (ValueError Examples.waiting_100_05)
     /\ entry_pricing "BUY" condition price 100 102 =
          Raise (ValueError Examples.pullback_102)).
  { intros condition price. repeat split; by_eval. }
  split; [exact Hp|]. split.
  - intros e signal_data order condition Ha Ho Ht Hf Hc current_ltp.
    pose proof (order_price_buy e signal_data order condition 100
                  (order_instrument_action _ _ _ _ Ha Ho) Ht Hf Hc) as H.
    fold current_ltp in H.
    pose proof (order_instrument_no_trigger _ _ _ Ho) as Hnt.
    destruct (Hp condition (get signal_data "price")) as (H1 & H2 & H3 & H4).
    unfold _convert_signal_to_order. rewrite Ho. cbn [bind].
    repeat split; intros Hl; rewrite H, Hl.
    + rewrite H1. cbn [bind]. change (String.eqb "100.1" "") with false. cbv iota.
      eexists. split; [reflexivity|].
      split; [|split].
      * do 3 (rewrite lookup_insert_ne by discriminate).
        rewrite lookup_insert_ne by discriminate. apply lookup_insert_eq.
      * do 3 (rewrite lookup_insert_ne by discriminate). apply lookup_insert_eq.
      * do 3 (rewrite lookup_insert_ne by discriminate).
        do 2 (rewrite lookup_insert_ne by discriminate). apply lookup_insert_eq.
    + rewrite H2. cbn [bind]. eexists. split; [reflexivity|].
      split; [|split].
      * do 3 (rewrite lookup_insert_ne by discriminate). apply lookup_insert_eq.
      * do 3 (rewrite lookup_insert_ne by discriminate).
        do 3 (rewrite lookup_insert_ne by discriminate). exact Hnt.
      * do 3 (rewrite lookup_insert_ne by discriminate).
        rewrite lookup_insert_ne by discriminate. apply lookup_insert_eq.
    + rewrite H3. reflexivity.
    + rewrite H4. reflexivity.
  - intros. apply conversion_error_surfaces; assumption.
Qed.

(** C1, at the signal [Examples.buy_signal] with quotes 100.05 and 102: each
    refusal comes back as a failure tuple. *)
Lemma buy_entry_pricing_witness :
  _convert_signal_to_order (Examples.quote_env 100.05) Examples.buy_signal
    = Raise (ValueError Examples.waiting_100_05)
  /\ (execute_signal (Examples.quote_env 100.05) 1000000 Examples.buy_signal
        "channel" "BUY RELIANCE @ 100 TGT 110" 0.9 Examples.service_on
        Examples.empty_monitor).1.1.1
     = (false, "Exception: " +:+ Examples.waiting_100_05)
  /\ (execute_signal (Examples.quote_env 102) 1000000 Examples.buy_signal
        "channel" "BUY RELIANCE @ 100 TGT 110" 0.9 Examples.service_on
        Examples.empty_monitor).1.1.1
     = (false, "Exception: " +:+ Examples.pullback_102).
Proof.
  split; [|split].
  - apply (proj1 (proj2 buy_entry_pricing) (Examples.quote_env 100.05)
             Examples.buy_signal Examples.buy_order "");
      by_eval.
  - rewrite (proj2 (proj2 buy_entry_pricing) (Examples.quote_env 100.05) 1000000%Z
               Examples.buy_signal "channel" "BUY RELIANCE @ 100 TGT 110"
               0.9%float Examples.service_on Examples.empty_monitor
               (ValueError Examples.waiting_100_05));
      [reflexivity | by_eval ..].
  - rewrite (proj2 (proj2 buy_entry_pricing) (Examples.quote_env 102) 1000000%Z
               Examples.buy_signal "channel" "BUY RELIANCE @ 100 TGT 110"
               0.9%float Examples.service_on Examples.empty_monitor
               (ValueError Examples.pullback_102));
      [reflexivity | by_eval ..].
Defined.


(** C2, the code at a SELL signal. For a SELL order with a live quote the
    pricing step reads the unbound name [entry_tolerance] in either branch and
    raises NameError, wherever the quote stands; only without a quote does a
    SELL signal get an order. Through [execute_signal] a SELL signal with
    entry 100 and quote 101 comes back as the failure "Exception: name
    'entry_tolerance' is not defined". *)
Theorem sell_entry_pricing_raises :
  (forall condition price entry_price current_ltp,
     entry_pricing "SELL" condition price entry_price current_ltp =
       if (0 <? current_ltp)%float then Raise (NameError "entry_tolerance")
       else if String.eqb condition "above" then
         Ok ("SL", Some (float_repr (entry_price + min_entry_buffer)),
             float_repr (entry_price + max_entry_buffer))
       else if String.eqb condition "below" then
         Ok ("SL", Some (float_repr (entry_price - min_entry_buffer)),
             float_repr (entry_price - max_entry_buffer))
       else Ok ("LIMIT", None, float_repr (entry_price + min_entry_buffer)))
  /\ _convert_signal_to_order (Examples.quote_env 101) Examples.sell_signal
     = Raise (NameError "entry_tolerance")
  /\ (execute_signal (Examples.quote_env 101) 1000000 Examples.sell_signal
        "channel" "SELL RELIANCE @ 100 TGT 90" 0.9 Examples.service_on
        Examples.empty_monitor).1.1.1
     = (false, "Exception: name 'entry_tolerance' is not defined").
Proof.
  split; [|split; by_eval].
  intros condition price entry_price current_ltp. unfold entry_pricing.
  destruct (0 <? current_ltp)%float; [|reflexivity].
  change (String.eqb "SELL" "BUY") with false.
  change (String.eqb "SELL" "SELL") with true. cbv iota.
  destruct (entry_price <? current_ltp)%float; reflexivity.
Qed.

Lemma bump_fields k svc :
  enabled (bump k svc) = enabled svc
  /\ confidence_threshold (bump k svc) = confidence_threshold svc
  /\ duplicate_window (bump k svc) = duplicate_window svc
  /\ recent_signals (bump k svc) = recent_signals svc.
Proof. repeat split. Qed.

(* the signal mapping [execute_signal] returns is the prepared one *)
Lemma execute_signal_signal e now signal_data channel raw_message confidence svc mon :
  (execute_signal e now signal_data channel raw_message confidence svc mon).1.1.2
  = prepared signal_data.
Proof.
  unfold execute_signal, prepared.
  destruct (negb (enabled (bump "total_signals" svc))); [reflexivity|].
  destruct (confidence <? confidence_threshold (bump "total_signals" svc))%float;
    [reflexivity|].
  destruct (_is_duplicate now channel (auto_sl (infer_action signal_data))
              (bump "total_signals" svc)) as [[] svc1]; [reflexivity|].
  destruct (_validate_signal (auto_sl (infer_action signal_data))) as [[] error];
    [|reflexivity].
  destruct (place e now (auto_sl (infer_action signal_data)) svc1 mon)
    as [[[r svc'] mon']|ex]; reflexivity.
Qed.

(** C5 fails for a signal without stop loss. Handed to a switched-off
    service, the call is declined and the mapping now carries 'sl' = 90.0,
    which it did not before. *)
Lemma execute_signal_writes_sl :
  Examples.buy_signal !! "sl" = None
  /\ (execute_signal (Examples.quote_env 100.5) 1000000 Examples.buy_signal
        "channel" "BUY RELIANCE @ 100 TGT 110" 0.9 Examples.service_off
        Examples.empty_monitor).1.1
     = ((false, "Auto-execution disabled"),
        <["sl" := VFloat 90]> Examples.buy_signal)
  /\ <["sl" := VFloat 90]> Examples.buy_signal <> Examples.buy_signal.
Proof.
  split; [by_eval|]. split; [by_eval|].
  intros H. apply (f_equal (fun d : dict => d !! "sl")) in H.
  rewrite lookup_insert_eq in H. vm_compute in H. discriminate H.
Qed.

(** C5, as the code has it. Whatever the outcome, the mapping
    [execute_signal] leaves is the one it was given with at most two keys
    written, both before any gate: 'action' := 'BUY' when the action is
    missing and option_type is CE or PE, and 'sl' := the stop loss at 10% of
    the entry when the stop loss is missing and a price is present. A signal
    that carries an action and a stop loss is left exactly as it was. (The
    collaborators are taken not to write to the mappings they are
    handed.) *)
Theorem execute_signal_frame e now signal_data channel raw_message confidence svc mon :
  let after :=
    (execute_signal e now signal_data channel raw_message confidence svc mon).1.1.2 in
  after = auto_sl (infer_action signal_data)
  /\ (forall k, k <> "action" -> k <> "sl" -> after !! k = signal_data !! k)
  /\ (truthy (get signal_data "action") = true ->
      truthy (get signal_data "sl") = true ->
      after = signal_data).
Proof.
  cbv zeta. rewrite execute_signal_signal. unfold prepared.
  assert (Hi : forall k, k <> "action" ->
                 infer_action signal_data !! k = signal_data !! k).
  { intros k Hk. unfold infer_action.
    destruct (negb _ && _); [apply lookup_insert_ne; congruence | reflexivity]. }
  assert (Ha : forall d k, k <> "sl" -> auto_sl d !! k = d !! k).
  { intros d k Hk. unfold auto_sl.
    destruct (negb _ && _); [|reflexivity].
    destruct (bind _ _); [apply lookup_insert_ne; congruence | reflexivity]. }
  split; [reflexivity|]. split.
  - intros k Hk1 Hk2. rewrite Ha by exact Hk2. apply Hi, Hk1.
  - intros H1 H2. unfold infer_action. rewrite H1. cbn [negb andb].
    unfold auto_sl. rewrite H2. reflexivity.
Qed.

(** C5, at [Examples.full_signal], which has its action and stop loss. *)
Lemma execute_signal_frame_witness :
  (execute_signal (Examples.quote_env 100.5) 1000000 Examples.full_signal
     "channel" "BUY RELIANCE @ 100 SL 95 TGT 110" 0.9 Examples.service_on
     Examples.empty_monitor).1.1.2
  = Examples.full_signal.
Proof.
  apply (proj2 (proj2 (execute_signal_frame (Examples.quote_env 100.5) 1000000%Z
           Examples.full_signal "channel" "BUY RELIANCE @ 100 SL 95 TGT 110" 0.9%float
           Examples.service_on Examples.empty_monitor))); by_eval.
Defined.


Lemma recent_of_set channel l svc : recent_of channel (set_recent channel l svc) = l.
Proof.
  unfold recent_of, set_recent. cbn [recent_signals].
  rewrite lookup_insert_eq. reflexivity.
Qed.

Lemma is_duplicate_config now channel signal_data svc :
  enabled (_is_duplicate now channel signal_data svc).2 = enabled svc
  /\ confidence_threshold (_is_duplicate now channel signal_data svc).2
     = confidence_threshold svc
  /\ duplicate_window (_is_duplicate now channel signal_data svc).2 = duplicate_window svc.
Proof. unfold _is_duplicate. destruct (existsb _ _); repeat split. Qed.

(* a signal that is not a duplicate is recorded, with the time of the check *)
Lemma is_duplicate_records now channel signal_data svc :
  (_is_duplicate now channel signal_data svc).1 = false ->
  In (_generate_signal_hash signal_data, now)
     (recent_of channel (_is_duplicate now channel signal_data svc).2).
Proof.
  unfold _is_duplicate. destruct (existsb _ _); [discriminate|]. intros _.
  cbn [snd]. rewrite recent_of_set. apply in_or_app. right. left. reflexivity.
Qed.

(* what is on record after a check was on record before, or is the signal
   just checked *)
Lemma is_duplicate_recent_from now channel signal_data svc ht :
  In ht (recent_of channel (_is_duplicate now channel signal_data svc).2) ->
  In ht (recent_of channel svc) \/ ht.2 = now.
Proof.
  unfold _is_duplicate. destruct (existsb _ _); cbn [snd]; rewrite recent_of_set.
  - intros H. apply filter_In in H as [H _]. left. exact H.
  - intros H. apply in_app_or in H as [H|[<-|[]]].
    + apply filter_In in H as [H _]. left. exact H.
    + right. reflexivity.
Qed.

Lemma is_duplicate_hit now channel signal_data svc t :
  In (_generate_signal_hash signal_data, t) (recent_of channel svc) ->
  within_window (duplicate_window svc) now t = true ->
  (_is_duplicate now channel signal_data svc).1 = true.
Proof.
  intros Hin Hw. unfold _is_duplicate.
  destruct (existsb _ _) eqn:E; [reflexivity|].
  exfalso. apply not_true_iff_false in E. apply E.
  apply existsb_exists. exists (_generate_signal_hash signal_data, t). split.
  - apply filter_In. split; [exact Hin | exact Hw].
  - apply String.eqb_refl.
Qed.

Lemma is_duplicate_miss now channel signal_data svc :
  (forall ht, In ht (recent_of channel svc) ->
     within_window (duplicate_window svc) now ht.2 = false) ->
  (_is_duplicate now channel signal_data svc).1 = false.
Proof.
  intros Hall. unfold _is_duplicate.
  destruct (existsb _ _) eqn:E; [|reflexivity].
  apply existsb_exists in E as (ht & Hin & _).
  apply filter_In in Hin as [Hin Hw]. rewrite (Hall ht Hin) in Hw. discriminate Hw.
Qed.

(* placing an order leaves the configuration and the record of recent
   signals alone, and never answers "Duplicate signal" *)
Lemma place_keeps e now signal_data svc mon r svc' mon' :
  place e now signal_data svc mon = Ok (r, svc', mon') ->
  enabled svc' = enabled svc
  /\ confidence_threshold svc' = confidence_threshold svc
  /\ duplicate_window svc' = duplicate_window svc
  /\ recent_signals svc' = recent_signals svc
  /\ r <> (false, "Duplicate signal").
Proof.
  unfold place. intros H.
  apply bind_Ok in H as (order_data & _ & H). cbn beta in H.
  apply bind_Ok in H as (auth_obj & _ & H). cbn beta in H.
  destruct auth_obj as [[]|].
  - injection H as <- <- <-. repeat split; discriminate.
  - apply bind_Ok in H as (auth_token & _ & H). cbn beta in H.
    apply bind_Ok in H as (key & _ & H). cbn beta zeta in H.
    apply bind_Ok in H as (lots & _ & H). cbn beta in H.
    apply bind_Ok in H as (order & _ & H). cbn beta in H.
    apply bind_Ok in H as ([success response] & _ & H). cbn beta iota in H.
    destruct success; injection H as <- <- <-; repeat split; discriminate.
  - injection H as <- <- <-. repeat split; discriminate.
Qed.

(* the service after a call that passed the first two gates *)
Lemma execute_signal_service e now signal_data channel raw_message confidence svc mon :
  enabled svc = true ->
  (confidence <? confidence_threshold svc)%float = false ->
  let svc' := (execute_signal e now signal_data channel raw_message confidence svc mon).1.2 in
  let d := _is_duplicate now channel (prepared signal_data) (bump "total_signals" svc) in
  enabled svc' = true
  /\ confidence_threshold svc' = confidence_threshold svc
  /\ duplicate_window svc' = duplicate_window svc
  /\ recent_of channel svc' = recent_of channel d.2
  /\ ((execute_signal e now signal_data channel raw_message confidence svc mon).1.1.1
        <> (false, "Duplicate signal") -> d.1 = false)
  /\ (d.1 = false ->
      (execute_signal e now signal_data channel raw_message confidence svc mon).1.1.1
        <> (false, "Duplicate signal")).
Proof.
  intros Hen Hc. cbv zeta. rewrite execute_signal_gated by assumption. cbv zeta.
  destruct (is_duplicate_config now channel (prepared signal_data)
              (bump "total_signals" svc)) as (H1 & H2 & H3).
  cbn [enabled confidence_threshold duplicate_window bump] in H1, H2, H3.
  destruct (_is_duplicate now channel (prepared signal_data) (bump "total_signals" svc))
    as [dup svc1]. cbn [fst snd] in *.
  destruct dup.
  - cbn [fst snd enabled confidence_threshold duplicate_window bump].
    repeat split; try congruence; try discriminate.
  - destruct (_validate_signal (prepared signal_data)) as [[] error].
    + destruct (place e now (prepared signal_data) svc1 mon) as [[[r svc'] mon']|ex] eqn:E.
      * apply place_keeps in E as (E1 & E2 & E3 & E4 & E5). cbn [fst snd].
        unfold recent_of. rewrite E4.
        repeat split; try congruence.
      * cbn [fst snd enabled confidence_threshold duplicate_window bump].
        repeat split; try congruence; try discriminate.
    + cbn [fst snd enabled confidence_threshold duplicate_window bump].
      repeat split; try congruence; try discriminate.
Qed.


(** C6 fails when the second call has a lower confidence. The same signal
    twice on one channel, one second apart, the first placed: the second,
    arriving with confidence 0.5, is turned away with "Low confidence
    (0.50)" and not with "Duplicate signal". *)
Lemma second_signal_low_confidence :
  let first :=
    execute_signal (Examples.quote_env 100.5) 1000000 Examples.full_signal "channel"
      "BUY RELIANCE @ 100 SL 95 TGT 110" 0.9 Examples.service_on Examples.empty_monitor in
  let second :=
    execute_signal (Examples.quote_env 100.5) 2000000 Examples.full_signal "channel"
      "BUY RELIANCE @ 100 SL 95 TGT 110" 0.5 first.1.2 first.2 in
  first.1.1.1 = (true, "Order placed: 42")
  /\ second.1.1.1 = (false, "Low confidence (0.50)")
  /\ second.1.1.1 <> (false, "Duplicate signal").
Proof.
  cbv zeta.
  assert (H : (execute_signal (Examples.quote_env 100.5) 2000000 Examples.full_signal
                 "channel" "BUY RELIANCE @ 100 SL 95 TGT 110" 0.5
                 (execute_signal (Examples.quote_env 100.5) 1000000 Examples.full_signal
                    "channel" "BUY RELIANCE @ 100 SL 95 TGT 110" 0.9
                    Examples.service_on Examples.empty_monitor).1.2
                 (execute_signal (Examples.quote_env 100.5) 1000000 Examples.full_signal
                    "channel" "BUY RELIANCE @ 100 SL 95 TGT 110" 0.9
                    Examples.service_on Examples.empty_monitor).2).1.1.1
              = (false, "Low confidence (0.50)")) by by_eval.
  split; [by_eval|]. split; [exact H|]. rewrite H. discriminate.
Qed.

(* the record of another channel is not touched *)
Lemma recent_of_set_ne c channel l svc :
  c <> channel -> recent_of c (set_recent channel l svc) = recent_of c svc.
Proof.
  intros H. unfold recent_of, set_recent. cbn [recent_signals].
  rewrite lookup_insert_ne by congruence. reflexivity.
Qed.

(* the check looks at the records with the signal's hash only *)
Lemma is_duplicate_miss_hash now channel signal_data svc :
  (forall ht, In ht (recent_of channel svc) ->
     ht.1 = _generate_signal_hash signal_data ->
     within_window (duplicate_window svc) now ht.2 = false) ->
  (_is_duplicate now channel signal_data svc).1 = false.
Proof.
  intros Hall. unfold _is_duplicate.
  destruct (existsb _ _) eqn:E; [|reflexivity].
  apply existsb_exists in E as (ht & Hin & Hh).
  apply filter_In in Hin as [Hin Hw]. apply String.eqb_eq in Hh.
  rewrite (Hall ht Hin Hh) in Hw. discriminate Hw.
Qed.

(* what a check does to the records of every channel: it adds at most the
   signal checked, and keeps what is within the window *)
Lemma is_duplicate_memory now channel signal_data svc :
  let d := _is_duplicate now channel signal_data svc in
  (forall c ht, In ht (recent_of c d.2) ->
     In ht (recent_of c svc)
     \/ (c = channel /\ ht = (_generate_signal_hash signal_data, now)))
  /\ (forall c ht, In ht (recent_of c svc) ->
        within_window (duplicate_window svc) now ht.2 = true ->
        In ht (recent_of c d.2)).
Proof.
  cbv zeta. unfold _is_duplicate. split; intros c ht.
  - destruct (decide (c = channel)) as [->|Hne].
    + destruct (existsb _ _); cbn [snd]; rewrite recent_of_set; intros H.
      * apply filter_In in H as [H _]. left. exact H.
      * apply in_app_or in H as [H|[<-|[]]].
        -- apply filter_In in H as [H _]. left. exact H.
        -- right. split; reflexivity.
    + destruct (existsb _ _); cbn [snd]; rewrite recent_of_set_ne by exact Hne;
        intros H; left; exact H.
  - intros Hin Hw. destruct (decide (c = channel)) as [->|Hne].
    + destruct (existsb _ _); cbn [snd]; rewrite recent_of_set.
      * apply filter_In. split; assumption.
      * apply in_or_app. left. apply filter_In. split; assumption.
    + destruct (existsb _ _); cbn [snd]; rewrite recent_of_set_ne by exact Hne;
        exact Hin.
Qed.

(* the same for a call of [execute_signal], whatever its outcome; the
   settings stay as they are *)
Lemma execute_signal_memory e now signal_data channel raw_message confidence svc mon :
  let svc' := (execute_signal e now signal_data channel raw_message confidence svc mon).1.2 in
  enabled svc' = enabled svc
  /\ confidence_threshold svc' = confidence_threshold svc
  /\ duplicate_window svc' = duplicate_window svc
  /\ (forall c ht, In ht (recent_of c svc') ->
        In ht (recent_of c svc)
        \/ (c = channel /\ ht = (_generate_signal_hash (prepared signal_data), now)))
  /\ (forall c ht, In ht (recent_of c svc) ->
        within_window (duplicate_window svc) now ht.2 = true ->
        In ht (recent_of c svc')).
Proof.
  cbv zeta. unfold execute_signal. fold (prepared signal_data).
  destruct (negb (enabled (bump "total_signals" svc))).
  { cbn [fst snd]. repeat split; try (intros; left; assumption); intros; assumption. }
  destruct (confidence <? confidence_threshold (bump "total_signals" svc))%float.
  { cbn [fst snd]. repeat split; try (intros; left; assumption); intros; assumption. }
  destruct (is_duplicate_config now channel (prepared signal_data)
              (bump "total_signals" svc)) as (H1 & H2 & H3).
  destruct (is_duplicate_memory now channel (prepared signal_data)
              (bump "total_signals" svc)) as (M1 & M2).
  cbn [enabled confidence_threshold duplicate_window bump] in H1, H2, H3, M2.
  change (forall c ht,
            In ht (recent_of c (_is_duplicate now channel (prepared signal_data)
                                  (bump "total_signals" svc)).2) ->
            In ht (recent_of c svc)
            \/ (c = channel /\ ht = (_generate_signal_hash (prepared signal_data), now)))
    in M1.
  change (forall c ht, In ht (recent_of c svc) ->
            within_window (duplicate_window svc) now ht.2 = true ->
            In ht (recent_of c (_is_duplicate now channel (prepared signal_data)
                                  (bump "total_signals" svc)).2)) in M2.
  destruct (_is_duplicate now channel (prepared signal_data) (bump "total_signals" svc))
    as [dup svc1]. cbn [fst snd] in *.
  assert (Hb : forall k,
            enabled (bump k svc1) = enabled svc
            /\ confidence_threshold (bump k svc1) = confidence_threshold svc
            /\ duplicate_window (bump k svc1) = duplicate_window svc
            /\ (forall c ht, In ht (recent_of c (bump k svc1)) ->
                  In ht (recent_of c svc)
                  \/ (c = channel
                      /\ ht = (_generate_signal_hash (prepared signal_data), now)))
            /\ (forall c ht, In ht (recent_of c svc) ->
                  within_window (duplicate_window svc) now ht.2 = true ->
                  In ht (recent_of c (bump k svc1)))).
  { intros k. cbn [enabled confidence_threshold duplicate_window bump].
    repeat split; try assumption. }
  destruct dup; [apply Hb|].
  destruct (_validate_signal (prepared signal_data)) as [[] error]; [|apply Hb].
  destruct (place e now (prepared signal_data) svc1 mon) as [[[r svc'] mon']|ex] eqn:E;
    [|apply Hb].
  apply place_keeps in E as (E1 & E2 & E3 & E4 & _). cbn [fst snd].
  unfold recent_of in *. rewrite E1, E2, E3, E4. repeat split; assumption.
Qed.

(* a run of calls keeps the settings *)
Lemma submit_all_config between st :
  enabled (submit_all between st).1 = enabled st.1
  /\ confidence_threshold (submit_all between st).1 = confidence_threshold st.1
  /\ duplicate_window (submit_all between st).1 = duplicate_window st.1.
Proof.
  revert st. induction between as [|s between IH]; intros st; [repeat split|].
  change (submit_all (s :: between) st) with (submit_all between (submit st s)).
  destruct (IH (submit st s)) as (I1 & I2 & I3).
  destruct (execute_signal_memory (sb_env s) (sb_now s) (sb_signal s) (sb_channel s)
              (sb_raw_message s) (sb_confidence s) st.1 st.2) as (H1 & H2 & H3 & _).
  cbv zeta in H1, H2, H3. unfold submit in *. cbn [fst] in *.
  rewrite I1, I2, I3. repeat split; assumption.
Qed.

(* a record stays through a run of calls none of which is checked when the
   record has left the window *)
Lemma submit_all_keeps between st c ht limit :
  In ht (recent_of c st.1) ->
  (limit - ht.2 < duplicate_window st.1 * 1000000)%Z ->
  Forall (fun s => (sb_now s <= limit)%Z) between ->
  In ht (recent_of c (submit_all between st).1).
Proof.
  revert st. induction between as [|s between IH]; intros st Hin Hw Hb; [exact Hin|].
  change (submit_all (s :: between) st) with (submit_all between (submit st s)).
  apply Forall_cons_iff in Hb as [Hs Hb].
  destruct (execute_signal_memory (sb_env s) (sb_now s) (sb_signal s) (sb_channel s)
              (sb_raw_message s) (sb_confidence s) st.1 st.2) as (_ & _ & H3 & _ & H5).
  cbv zeta in H3, H5.
  apply IH; [| |exact Hb]; unfold submit; cbn [fst].
  - apply H5; [exact Hin|]. unfold within_window. apply Z.ltb_lt. lia.
  - rewrite H3. exact Hw.
Qed.

(* a record found after a run of calls was there before, or is the signal of
   one of the calls, on its channel *)
Lemma submit_all_from between st c ht :
  In ht (recent_of c (submit_all between st).1) ->
  In ht (recent_of c st.1)
  \/ exists s, In s between /\ sb_channel s = c
               /\ ht.1 = _generate_signal_hash (prepared (sb_signal s)).
Proof.
  revert st. induction between as [|s between IH]; intros st Hin; [left; exact Hin|].
  change (submit_all (s :: between) st) with (submit_all between (submit st s)) in Hin.
  apply IH in Hin as [Hin|(s' & Hs' & Hc & Hh)].
  - destruct (execute_signal_memory (sb_env s) (sb_now s) (sb_signal s) (sb_channel s)
                (sb_raw_message s) (sb_confidence s) st.1 st.2) as (_ & _ & _ & H4 & _).
    cbv zeta in H4. unfold submit in Hin. cbn [fst] in Hin.
    apply H4 in Hin as [Hin|[-> ->]]; [left; exact Hin|].
    right. exists s. split; [left; reflexivity|]. split; reflexivity.
  - right. exists s'. split; [right; exact Hs'|]. split; assumption.
Qed.

(** C6, as the code has it. Two calls of [execute_signal] on one channel, with
    any run of calls of [execute_signal] in between, on a service that is
    enabled, both calls with a confidence that is not below the threshold.
    If the two signals have the same hash (as prepared), the first was not
    itself answered "Duplicate signal", the second is checked less than the
    duplicate window after the first and no call in between is later than
    the second, then the second returns (False, "Duplicate signal") and
    places no order: the monitor is as it was, 'executed' is not counted, and
    the result is the same whatever the collaborators would answer. If the
    second is checked when the window has elapsed since the first was
    checked, the records with its hash that the channel held before the
    first call are not later than the first call, and no call in between was
    on this channel with this hash, the second is not answered "Duplicate
    signal". *)
Theorem duplicate_window_suppression e1 e2 now1 now2 signal1 signal2 channel raw1 raw2
    confidence1 confidence2 svc mon between :
  enabled svc = true ->
  (confidence1 <? confidence_threshold svc)%float = false ->
  (confidence2 <? confidence_threshold svc)%float = false ->
  let first := execute_signal e1 now1 signal1 channel raw1 confidence1 svc mon in
  let st := submit_all between (first.1.2, first.2) in
  let second := execute_signal e2 now2 signal2 channel raw2 confidence2 st.1 st.2 in
  (_generate_signal_hash (prepared signal1) = _generate_signal_hash (prepared signal2) ->
   first.1.1.1 <> (false, "Duplicate signal") ->
   (now2 - now1 < duplicate_window svc * 1000000)%Z ->
   Forall (fun s => (sb_now s <= now2)%Z) between ->
   second.1.1.1 = (false, "Duplicate signal")
   /\ second.2 = st.2
   /\ stats second.1.2 !! "executed" = stats st.1 !! "executed"
   /\ forall e2', execute_signal e2' now2 signal2 channel raw2 confidence2 st.1 st.2
                  = second)
  /\ ((forall ht, In ht (recent_of channel svc) ->
         ht.1 = _generate_signal_hash (prepared signal2) -> (ht.2 <= now1)%Z) ->
      Forall (fun s => sb_channel s <> channel
                       \/ _generate_signal_hash (prepared (sb_signal s))
                          <> _generate_signal_hash (prepared signal2)) between ->
      (duplicate_window svc * 1000000 <= now2 - now1)%Z ->
      second.1.1.1 <> (false, "Duplicate signal")).
Proof.
  intros Hen Hc1 Hc2 first st second.
  destruct (execute_signal_service e1 now1 signal1 channel raw1 confidence1 svc mon Hen Hc1)
    as (F1 & F2 & F3 & F4 & F5 & _).
  fold first in F1, F2, F3, F4, F5.
  destruct (submit_all_config between (first.1.2, first.2)) as (G1 & G2 & G3).
  fold st in G1, G2, G3. cbn [fst] in G1, G2, G3.
  assert (Hen' : enabled st.1 = true) by (rewrite G1; exact F1).
  assert (Hc2' : (confidence2 <? confidence_threshold st.1)%float = false)
    by (rewrite G2, F2; exact Hc2).
  assert (Hw : duplicate_window st.1 = duplicate_window svc) by (rewrite G3; exact F3).
  destruct (execute_signal_service e2 now2 signal2 channel raw2 confidence2 st.1 st.2
              Hen' Hc2') as (_ & _ & _ & _ & _ & S6).
  fold second in S6.
  split.
  - intros Hh Hfirst Hnow Hbetween.
    assert (Hd : (_is_duplicate now2 channel (prepared signal2)
                    (bump "total_signals" st.1)).1 = true).
    { apply (is_duplicate_hit now2 channel (prepared signal2)
               (bump "total_signals" st.1) now1).
      - rewrite <- Hh.
        change (recent_of channel (bump "total_signals" st.1))
          with (recent_of channel st.1).
        apply (submit_all_keeps between (first.1.2, first.2) channel
                 (_generate_signal_hash (prepared signal1), now1) now2).
        + cbn [fst]. rewrite F4. apply is_duplicate_records. apply F5, Hfirst.
        + cbn [fst snd]. rewrite F3. exact Hnow.
        + exact Hbetween.
      - cbn [duplicate_window bump]. rewrite Hw. unfold within_window.
        apply Z.ltb_lt. exact Hnow. }
    assert (Hall : forall e2',
              execute_signal e2' now2 signal2 channel raw2 confidence2 st.1 st.2
              = ((false, "Duplicate signal"), prepared signal2,
                 bump "skipped_duplicate"
                   (_is_duplicate now2 channel (prepared signal2)
                      (bump "total_signals" st.1)).2, st.2)).
    { intros e2'. rewrite execute_signal_gated by assumption. cbv zeta.
      rewrite Hd. reflexivity. }
    unfold second. rewrite (Hall e2). cbn [fst snd].
    split; [reflexivity|]. split; [reflexivity|]. split; [|exact Hall].
    cbn [stats bump]. rewrite lookup_insert_ne by discriminate.
    unfold _is_duplicate. destruct (existsb _ _); cbn [snd stats set_recent bump];
      rewrite lookup_insert_ne by discriminate; reflexivity.
  - intros Hrec Hbetween Hnow. apply S6. apply is_duplicate_miss_hash.
    intros ht Hin Hh.
    change (recent_of channel (bump "total_signals" st.1))
      with (recent_of channel st.1) in Hin.
    cbn [duplicate_window bump]. rewrite Hw. unfold within_window. apply Z.ltb_ge.
    apply submit_all_from in Hin as [Hin|(s & Hs & Hc & Hh')].
    + cbn [fst] in Hin. rewrite F4 in Hin. apply is_duplicate_recent_from in Hin.
      destruct Hin as [Hin | ->]; [|lia].
      change (recent_of channel (bump "total_signals" svc))
        with (recent_of channel svc) in Hin.
      specialize (Hrec ht Hin Hh). lia.
    + exfalso. rewrite List.Forall_forall in Hbetween.
      destruct (Hbetween s Hs) as [H|H]; [exact (H Hc)|].
      apply H. rewrite <- Hh'. exact Hh.
Qed.

(** C6, at [Examples.full_signal] sent twice one second apart with confidence
    0.9, the window being 5 seconds, with a call for another signal on the
    same channel in between. *)
Lemma duplicate_window_suppression_witness :
  let first :=
    execute_signal (Examples.quote_env 100.5) 1000000 Examples.full_signal "channel"
      "BUY RELIANCE @ 100 SL 95 TGT 110" 0.9 Examples.service_on Examples.empty_monitor in
  let st :=
    submit_all
      [{| sb_env := Examples.quote_env 100.5; sb_now := 1500000;
          sb_signal := Examples.reliance_extracted; sb_channel := "channel";
          sb_raw_message := Examples.reliance_text; sb_confidence := 1 |}]
      (first.1.2, first.2) in
  (execute_signal (Examples.quote_env 100.5) 2000000 Examples.full_signal "channel"
     "BUY RELIANCE @ 100 SL 95 TGT 110" 0.9 st.1 st.2).1.1.1
  = (false, "Duplicate signal").
Proof.
  cbv zeta.
  apply (proj1 (duplicate_window_suppression (Examples.quote_env 100.5)
                  (Examples.quote_env 100.5) 1000000%Z 2000000%Z Examples.full_signal
                  Examples.full_signal "channel" "BUY RELIANCE @ 100 SL 95 TGT 110"
                  "BUY RELIANCE @ 100 SL 95 TGT 110" 0.9%float 0.9%float
                  Examples.service_on Examples.empty_monitor
                  [{| sb_env := Examples.quote_env 100.5; sb_now := 1500000;
                      sb_signal := Examples.reliance_extracted; sb_channel := "channel";
                      sb_raw_message := Examples.reliance_text; sb_confidence := 1 |}]
                  eq_refl eq_refl eq_refl)).
  - reflexivity.
  - assert (H : (execute_signal (Examples.quote_env 100.5) 1000000 Examples.full_signal
                   "channel" "BUY RELIANCE @ 100 SL 95 TGT 110" 0.9 Examples.service_on
                   Examples.empty_monitor).1.1.1 = (true, "Order placed: 42")) by by_eval.
    rewrite H. discriminate.
  - reflexivity.
  - repeat constructor. cbn [sb_now]. lia.
Defined.

End ExecutionFacts.

(** * Facts about the classifier *)

Module ClassifierFacts.
Import Py Re SignalClassifier.
Local Open Scope Z_scope.

Lemma anti_score_le text : anti_score text <= 0.
Proof.
  unfold anti_score.
  assert (H : forall l a,
    fold_left (fun score p => if found true p text then score - 10 else score) l a <= a).
  { induction l as [|p l IH]; intros a; cbn [fold_left]; [lia|].
    destruct (found true p text); [specialize (IH (a - 10)) | specialize (IH a)]; lia. }
  apply H.
Qed.

Lemma action_scan_le text_lower : (action_scan text_lower).1 <= pos_sum action_keywords.
Proof.
  unfold action_scan.
  assert (H : forall l acc,
    (fold_left (action_step text_lower) l acc).1 <= acc.1 + pos_sum l).
  { induction l as [|[keyword weight] l IH]; intros [sc af];
      cbn [fold_left pos_sum fold_right fst snd].
    - lia.
    - fold (pos_sum l). etransitivity; [apply IH|].
      unfold action_step. destruct (keyword_found keyword text_lower); cbn [fst]; lia. }
  specialize (H action_keywords (0, None)). cbn [fst] in H. lia.
Qed.

Lemma keyword_score_le table text_lower : keyword_score table text_lower <= pos_sum table.
Proof.
  unfold keyword_score.
  assert (H : forall l a,
    fold_left (fun score kw => if keyword_found kw.1 text_lower then score + kw.2 else score)
      l a <= a + pos_sum l).
  { induction l as [|kw l IH]; intros a; cbn [fold_left pos_sum fold_right]; [lia|].
    fold (pos_sum l). etransitivity; [apply IH|].
    destruct (keyword_found kw.1 text_lower); lia. }
  specialize (H table 0). lia.
Qed.

Lemma param_scan_le text_lower : (param_scan text_lower).1.1 <= pos_sum param_keywords.
Proof.
  unfold param_scan.
  assert (H : forall l acc,
    (fold_left (param_step text_lower) l acc).1.1 <= acc.1.1 + pos_sum l).
  { induction l as [|[keyword weight] l IH]; intros [[sc hs] ht];
      cbn [fold_left pos_sum fold_right fst snd].
    - lia.
    - fold (pos_sum l). etransitivity; [apply IH|].
      unfold param_step. destruct (keyword_found keyword text_lower); cbn [fst]; lia. }
  specialize (H param_keywords (0, false, false)). cbn [fst] in H. lia.
Qed.

Lemma noise_score_le text text_lower : noise_score text text_lower <= pos_sum noise_keywords.
Proof.
  unfold noise_score.
  assert (H : forall l a,
    fold_left (fun score kw =>
      if String.eqb kw.1 "?" then
        if contains kw.1 text then score + kw.2 else score
      else if keyword_found kw.1 text_lower then score + kw.2 else score)
      l a <= a + pos_sum l).
  { induction l as [|kw l IH]; intros a; cbn [fold_left pos_sum fold_right]; [lia|].
    fold (pos_sum l). etransitivity; [apply IH|].
    destruct (String.eqb kw.1 "?"), (contains kw.1 text), (keyword_found kw.1 text_lower); lia. }
  specialize (H noise_keywords 0). lia.
Qed.

(* no text scores above 320 *)
Lemma score_le text : score text <= 320.
Proof.
  unfold score. cbv zeta.
  pose proof (anti_score_le text).
  pose proof (action_scan_le (lower text)).
  pose proof (keyword_score_le instrument_keywords (lower text)).
  pose proof (param_scan_le (lower text)).
  pose proof (noise_score_le text (lower text)).
  assert (both_bonus (lower text) <= 12).
  { unfold both_bonus. destruct (param_scan (lower text)) as [[sc hs] ht].
    destruct (hs && ht); lia. }
  assert (prices_score text <= 8).
  { unfold prices_score. repeat destruct (Nat.leb _ _); lia. }
  assert (pattern_score text <= 10).
  { unfold pattern_score. destruct (existsb _ _); lia. }
  change (pos_sum action_keywords) with 70 in *.
  change (pos_sum instrument_keywords) with 128 in *.
  change (pos_sum param_keywords) with 92 in *.
  change (pos_sum noise_keywords) with 0 in *.
  lia.
Qed.

(* from 20 up to the greatest score, the confidence is at least 0.5 *)
Lemma confident_from_20 sc :
  20 <= sc <= 320 -> (0.5 <=? confidence_of sc)%float = true.
Proof.
  intros H.
  assert (E : forallb (fun n => (0.5 <=? confidence_of (20 + Z.of_nat n))%float)
                (seq 0 301) = true) by (vm_compute; reflexivity).
  rewrite forallb_forall in E.
  specialize (E (Z.to_nat (sc - 20))).
  replace (20 + Z.of_nat (Z.to_nat (sc - 20))) with sc in E by lia.
  apply E. apply in_seq. lia.
Qed.

(** C10. In the decision taken before the quality check, the confidence test
    adds nothing: for every text, [score >= 20 and confidence >= 0.5] holds
    exactly when the score is at least 20. The confidence at score 20, the
    double nearest 20/35, is above 0.5, and it is at least 0.5 at every score
    from 20 up to 320, which no text exceeds. *)
Theorem confidence_conjunct_redundant :
  (forall text, initial_decision (score text) = (20 <=? score text))
  /\ (0.5 <? confidence_of 20)%float = true
  /\ (forall text, score text <= 320).
Proof.
  split; [|split; [vm_compute; reflexivity | exact score_le]].
  intros text. unfold initial_decision.
  destruct (Z.leb_spec 20 (score text)) as [Hge|Hlt]; [|reflexivity].
  rewrite confident_from_20; [reflexivity|].
  split; [exact Hge | apply score_le].
Qed.

Lemma first_known_word_empty text : first_known_word ∅ text = None.
Proof. reflexivity. Qed.

(* when the regex of known names matches, the loaded symbols do not matter *)
Lemma extract_symbol_known valid_symbols text data :
  is_Some (search true symbol_pattern text) ->
  extract_symbol valid_symbols text data = extract_symbol ∅ text data.
Proof.
  intros [m Hm]. unfold extract_symbol. rewrite Hm, first_known_word_empty.
  cbn [set_opt].
  destruct (first_known_word valid_symbols text) as [w0|]; [|reflexivity].
  cbn [set_opt].
  destruct (contains "NATURAL" (upper (default "" (group m 1))));
    [|destruct (contains "CRUDE" (upper (default "" (group m 1))))];
    rewrite insert_insert_eq; reflexivity.
Qed.

Lemma classify_known valid_symbols text :
  is_Some (search true symbol_pattern text) ->
  classify valid_symbols text = classify ∅ text.
Proof.
  intros H. unfold classify, _extract_signal_data.
  rewrite (extract_symbol_known valid_symbols) by exact H. reflexivity.
Qed.

(** C9 fails as stated: on "BUY RELIANCE @ 2400 SL 2380 TGT 2450" the
    classifier (here with no symbol file loaded) extracts nine fields, among
    them strike = "2400" and stop_loss = "2380", and tgt = "2450.0": not the
    seven-field structure with tgt = "2450". *)
Lemma reliance_extraction_differs :
  classify ∅ Examples.reliance_text = (true, 1%float, Some Examples.reliance_extracted)
  /\ Examples.reliance_extracted !! "strike" = Some (VStr "2400")
  /\ Examples.reliance_seven_fields !! "strike" = None
  /\ Examples.reliance_extracted !! "tgt" = Some (VStr "2450.0")
  /\ Examples.reliance_seven_fields !! "tgt" = Some (VStr "2450")
  /\ (classify ∅ Examples.reliance_text).2 <> Some Examples.reliance_seven_fields.
Proof.
  assert (E : classify ∅ Examples.reliance_text
              = (true, 1%float, Some Examples.reliance_extracted)) by by_eval.
  do 5 (split; [by_eval|]).
  rewrite E. cbn [snd]. intros H.
  apply (f_equal (fun o : option dict => o ≫= (fun d => d !! "strike"))) in H.
  vm_compute in H. discriminate H.
Qed.

(** C9, as the code has it. On "BUY RELIANCE @ 2400 SL 2380 TGT 2450",
    whatever symbols are loaded, classify returns is_signal = True, confidence
    1.0 and the structure {action: BUY, symbol: RELIANCE, strike: "2400",
    price: "2400", condition: "@", sl: "2380", stop_loss: "2380", targets:
    ["2450"], tgt: "2450.0"}. *)
Theorem classify_reliance valid_symbols :
  classify valid_symbols Examples.reliance_text
  = (true, 1%float, Some Examples.reliance_extracted).
Proof.
  rewrite classify_known.
  - by_eval.
  - destruct (search true symbol_pattern Examples.reliance_text) eqn:E; [eauto|].
    exfalso. vm_compute in E. discriminate E.
Qed.

End ClassifierFacts.

(** * Further properties of the execution service *)

Module ExecutionProps.
Import Py PyFacts SignalExecutionService ExecutionStats ExecutionFacts.

(** ** Validation *)

(* the two preparation steps write 'action' and 'sl' only *)
Lemma infer_action_get signal_data k :
  k <> "action" -> get (infer_action signal_data) k = get signal_data k.
Proof.
  intros Hk. unfold infer_action.
  destruct (_ && _); [|reflexivity].
  unfold get. rewrite lookup_insert_ne by congruence. reflexivity.
Qed.

Lemma auto_sl_get signal_data k :
  k <> "sl" -> get (auto_sl signal_data) k = get signal_data k.
Proof.
  intros Hk. unfold auto_sl.
  destruct (_ && _); [|reflexivity].
  destruct (bind _ _); [|reflexivity].
  unfold get. rewrite lookup_insert_ne by congruence. reflexivity.
Qed.

Lemma auto_sl_lookup signal_data k :
  k <> "sl" -> auto_sl signal_data !! k = signal_data !! k.
Proof.
  intros Hk. unfold auto_sl.
  destruct (_ && _); [|reflexivity].
  destruct (bind _ _); [|reflexivity].
  rewrite lookup_insert_ne by congruence. reflexivity.
Qed.

Lemma prepared_get signal_data k :
  k <> "action" -> k <> "sl" -> get (prepared signal_data) k = get signal_data k.
Proof.
  intros H1 H2. unfold prepared. rewrite auto_sl_get by exact H2.
  apply infer_action_get. exact H1.
Qed.

Lemma prepared_action signal_data :
  truthy (get (prepared signal_data) "action")
  = truthy (get signal_data "action")
    || is_str (get signal_data "option_type") "CE"
    || is_str (get signal_data "option_type") "PE".
Proof.
  unfold prepared. rewrite auto_sl_get by discriminate. unfold infer_action.
  destruct (truthy (get signal_data "action")) eqn:Ea,
    (is_str (get signal_data "option_type") "CE") eqn:Ec,
    (is_str (get signal_data "option_type") "PE") eqn:Ep;
    cbn [negb andb orb]; try exact Ea;
    unfold get; rewrite lookup_insert_eq; reflexivity.
Qed.

(* a strike without an option type fails the validation *)
Lemma validate_needs_option_type signal_data :
  truthy (get signal_data "strike") = true ->
  truthy (get signal_data "option_type") = false ->
  (_validate_signal signal_data).1 = false
  /\ (truthy (get signal_data "action") = true ->
      truthy (get signal_data "symbol") = true ->
      truthy (get signal_data "tgt") || truthy (get signal_data "targets") = true ->
      _validate_signal signal_data
      = (false, Some "Options signal missing 'option_type' (CE/PE)")).
Proof.
  intros Hs Ho. unfold _validate_signal. rewrite Hs, Ho. cbn [orb negb].
  split.
  - destruct (truthy (get signal_data "action")), (truthy (get signal_data "symbol")),
      (truthy (get signal_data "tgt") || truthy (get signal_data "targets"));
      reflexivity.
  - intros -> -> ->. reflexivity.
Qed.

(** X1. [_validate_signal] accepts a signal exactly when it has an action, a
    symbol and a target ('tgt' or 'targets'), and has a strike and an option
    type together or neither of them; it gives an error message exactly when
    it refuses. As [execute_signal] validates the signal after its
    preparation, an option signal (option_type 'CE' or 'PE') needs no action
    of its own to be accepted there. *)
Theorem validate_signal_accepts signal_data :
  let has d k := truthy (get d k) in
  ((_validate_signal signal_data).1 = true <->
     has signal_data "action" = true /\ has signal_data "symbol" = true
     /\ (has signal_data "tgt" = true \/ has signal_data "targets" = true)
     /\ has signal_data "strike" = has signal_data "option_type")
  /\ ((_validate_signal signal_data).1 = false <->
        is_Some (_validate_signal signal_data).2)
  /\ ((_validate_signal (prepared signal_data)).1 = true <->
        (has signal_data "action" = true
         \/ is_str (get signal_data "option_type") "CE" = true
         \/ is_str (get signal_data "option_type") "PE" = true)
        /\ has signal_data "symbol" = true
        /\ (has signal_data "tgt" = true \/ has signal_data "targets" = true)
        /\ has signal_data "strike" = has signal_data "option_type").
Proof.
  cbv zeta.
  assert (A : forall d,
    ((_validate_signal d).1 = true <->
       truthy (get d "action") = true /\ truthy (get d "symbol") = true
       /\ (truthy (get d "tgt") = true \/ truthy (get d "targets") = true)
       /\ truthy (get d "strike") = truthy (get d "option_type"))).
  { intros d. unfold _validate_signal.
    destruct (truthy (get d "action")), (truthy (get d "symbol")),
      (truthy (get d "tgt")), (truthy (get d "targets")),
      (truthy (get d "strike")), (truthy (get d "option_type"));
      cbn [negb orb andb fst]; intuition congruence. }
  split; [apply A|]. split.
  - unfold _validate_signal.
    destruct (truthy (get signal_data "action")), (truthy (get signal_data "symbol")),
      (truthy (get signal_data "tgt")), (truthy (get signal_data "targets")),
      (truthy (get signal_data "strike")), (truthy (get signal_data "option_type"));
      cbn [negb orb andb fst snd]; split; intros H;
      try discriminate; try reflexivity; try (eexists; reflexivity);
      try (destruct H; discriminate).
  - rewrite A. rewrite prepared_action.
    rewrite !prepared_get by discriminate.
    rewrite !orb_true_iff. tauto.
Qed.

(** ** The hash of a signal *)

Lemma upper_app s t : upper (s +:+ t) = upper s +:+ upper t.
Proof.
  unfold upper. induction s as [|c s IH]; [reflexivity|].
  change (String c s +:+ t) with (String c (s +:+ t)).
  cbn [map_string]. rewrite IH. reflexivity.
Qed.

Lemma upper_char_idem c : upper_char (upper_char c) = upper_char c.
Proof.
  assert (H : forallb (fun n => Ascii.eqb (upper_char (upper_char (ascii_of_nat n)))
                                  (upper_char (ascii_of_nat n))) (seq 0 256) = true)
    by (vm_compute; reflexivity).
  rewrite forallb_forall in H.
  specialize (H (nat_of_ascii c)). rewrite ascii_nat_embedding in H.
  apply Ascii.eqb_eq. apply H. apply in_seq.
  pose proof (nat_ascii_bounded c). lia.
Qed.

Lemma upper_idem s : upper (upper s) = upper s.
Proof.
  induction s as [|c s IH]; [reflexivity|].
  unfold upper in *. cbn [map_string]. rewrite upper_char_idem, IH. reflexivity.
Qed.

Lemma signal_hash_upper signal_data :
  _generate_signal_hash signal_data =
    upper (py_str (get_or signal_data "action" (VStr ""))) +:+ "|"
    +:+ upper (py_str (get_or signal_data "symbol" (VStr ""))) +:+ "|"
    +:+ upper (py_str (get_or signal_data "strike" (VStr ""))) +:+ "|"
    +:+ upper (py_str (get_or signal_data "option_type" (VStr ""))).
Proof.
  unfold _generate_signal_hash. cbn [join]. rewrite !upper_app. reflexivity.
Qed.

(** X2. The hash that identifies a signal for duplicate detection reads the
    four fields action, symbol, strike and option_type only, a missing one as
    the empty string, and does not tell capitals from small letters: two
    signals whose four fields agree up to case have the same hash, whatever
    their price, stop loss and targets; and a hash is already in capitals. *)
Theorem signal_hash_fields s1 s2 :
  (forall k, In k ["action"; "symbol"; "strike"; "option_type"] ->
     upper (py_str (get_or s1 k (VStr ""))) = upper (py_str (get_or s2 k (VStr "")))) ->
  _generate_signal_hash s1 = _generate_signal_hash s2
  /\ upper (_generate_signal_hash s1) = _generate_signal_hash s1.
Proof.
  intros H. split.
  - rewrite !signal_hash_upper.
    rewrite (H "action"), (H "symbol"), (H "strike"), (H "option_type");
      [reflexivity | | | |]; cbn [In]; tauto.
  - unfold _generate_signal_hash. apply upper_idem.
Qed.

Lemma signal_hash_fields_witness :
  _generate_signal_hash Examples.full_signal
  = _generate_signal_hash
      (<["action" := VStr "buy"]> (<["price" := VStr "250"]> (delete "sl" Examples.full_signal))).
Proof.
  apply (signal_hash_fields Examples.full_signal
           (<["action" := VStr "buy"]> (<["price" := VStr "250"]>
              (delete "sl" Examples.full_signal)))).
  intros k Hk. cbn [In] in Hk.
  destruct Hk as [<-|[<-|[<-|[<-|[]]]]]; vm_compute; reflexivity.
Defined.

(** ** The memory of recent signals *)

Lemma filter_map_fst_incl {A B} (f : A * B -> bool) (l : list (A * B)) x :
  In x (map fst (List.filter f l)) -> In x (map fst l).
Proof.
  intros H. apply in_map_iff in H as (ab & <- & H).
  apply filter_In in H as [H _]. apply in_map. exact H.
Qed.

Lemma NoDup_map_fst_filter {A B} (f : A * B -> bool) (l : list (A * B)) :
  List.NoDup (map fst l) -> List.NoDup (map fst (List.filter f l)).
Proof.
  induction l as [|ab l IH]; cbn [map List.filter]; intros H; [constructor|].
  apply List.NoDup_cons_iff in H as [Hn Hd].
  destruct (f ab); [|exact (IH Hd)].
  cbn [map]. apply List.NoDup_cons_iff. split; [|exact (IH Hd)].
  intros Hin. apply Hn. eapply filter_map_fst_incl. exact Hin.
Qed.

Lemma existsb_hash (h : string) (l : list (string * Z)) :
  existsb (fun ht => String.eqb ht.1 h) l = true <-> In h (map fst l).
Proof.
  rewrite existsb_exists. split.
  - intros (ht & Hin & E). apply String.eqb_eq in E. subst h. apply in_map. exact Hin.
  - intros H. apply in_map_iff in H as (ht & <- & H).
    exists ht. split; [exact H | apply String.eqb_refl].
Qed.

(* the records a check keeps, and whether it reports a duplicate *)
Lemma is_duplicate_unfold now channel signal_data svc :
  let kept := List.filter (fun ht => within_window (duplicate_window svc) now ht.2)
                (recent_of channel svc) in
  let hit := existsb (fun ht => String.eqb ht.1 (_generate_signal_hash signal_data)) kept in
  (_is_duplicate now channel signal_data svc).1 = hit
  /\ recent_of channel (_is_duplicate now channel signal_data svc).2
     = if hit then kept else kept ++ [(_generate_signal_hash signal_data, now)].
Proof.
  cbv zeta. unfold _is_duplicate.
  destruct (existsb _ _); cbn [fst snd]; rewrite recent_of_set; split; reflexivity.
Qed.

(** X3. What [_is_duplicate] does to the memory of recent signals. It reports
    a duplicate exactly when the channel holds a record with the signal's
    hash that is less than the window old. After the call every record of the
    channel is less than the window old (older ones are dropped), the other
    channels are as they were, a signal reported as duplicate has added no
    record, and no hash is on record twice if none was before. *)
Theorem duplicate_memory now channel signal_data svc :
  (0 < duplicate_window svc)%Z ->
  let r := _is_duplicate now channel signal_data svc in
  let h := _generate_signal_hash signal_data in
  (r.1 = true <->
     exists t, In (h, t) (recent_of channel svc)
               /\ (now - t < duplicate_window svc * 1000000)%Z)
  /\ Forall (fun ht => (now - ht.2 < duplicate_window svc * 1000000)%Z)
       (recent_of channel r.2)
  /\ (forall c, c <> channel -> recent_signals r.2 !! c = recent_signals svc !! c)
  /\ (r.1 = true ->
      recent_of channel r.2
      = List.filter (fun ht => within_window (duplicate_window svc) now ht.2)
          (recent_of channel svc))
  /\ (r.1 = false -> In (h, now) (recent_of channel r.2))
  /\ (List.NoDup (map fst (recent_of channel svc)) ->
      List.NoDup (map fst (recent_of channel r.2))).
Proof.
  intros Hw r h.
  destruct (is_duplicate_unfold now channel signal_data svc) as [E1 E2].
  cbv zeta in E1, E2. fold r h in E1, E2.
  set (kept := List.filter (fun ht => within_window (duplicate_window svc) now ht.2)
                 (recent_of channel svc)) in *.
  assert (Hkept : Forall (fun ht => (now - ht.2 < duplicate_window svc * 1000000)%Z) kept).
  { apply List.Forall_forall. intros ht Hin. apply filter_In in Hin as [_ Hin].
    unfold within_window in Hin. apply Z.ltb_lt in Hin. exact Hin. }
  split; [|split; [|split; [|split; [|split]]]].
  - rewrite E1. rewrite existsb_hash. split.
    + intros H. apply in_map_iff in H as ([h' t] & Hh & H). cbn [fst] in Hh. subst h'.
      apply filter_In in H as [H1 H2]. exists t. split; [exact H1|].
      unfold within_window in H2. apply Z.ltb_lt in H2. exact H2.
    + intros (t & H1 & H2). apply in_map_iff. exists (h, t). split; [reflexivity|].
      apply filter_In. split; [exact H1|]. unfold within_window. apply Z.ltb_lt. exact H2.
  - rewrite E2. destruct (existsb _ kept); [exact Hkept|].
    apply List.Forall_app. split; [exact Hkept|].
    constructor; [cbn [snd]; lia | constructor].
  - intros c Hc. unfold r, _is_duplicate.
    destruct (existsb _ _); cbn [snd set_recent recent_signals];
      rewrite lookup_insert_ne by congruence; reflexivity.
  - intros H. rewrite E2, <- E1, H. reflexivity.
  - intros H. rewrite E2, <- E1, H. apply in_or_app. right. left. reflexivity.
  - intros Hnd. rewrite E2.
    destruct (existsb _ kept) eqn:Eh; [apply NoDup_map_fst_filter; exact Hnd|].
    rewrite map_app. cbn [map fst].
    apply List.NoDup_app;
      [apply NoDup_map_fst_filter; exact Hnd | constructor; [intros [] | constructor] |].
    intros x Hx [<-|[]].
    apply existsb_hash in Hx. fold h in Eh. congruence.
Qed.

Lemma duplicate_memory_witness :
  (_is_duplicate 2000000 "channel" Examples.full_signal
     (set_recent "channel" [("BUY|RELIANCE||", 1000000%Z)] Examples.service_on)).1 = true.
Proof.
  apply (duplicate_memory 2000000 "channel" Examples.full_signal
           (set_recent "channel" [("BUY|RELIANCE||", 1000000%Z)] Examples.service_on)).
  - reflexivity.
  - exists 1000000%Z. split; [left; vm_compute; reflexivity | vm_compute; reflexivity].
Defined.

(** X4. A repeat does not renew the window. If a signal is recorded at time
    t0 (it was no duplicate then), a repeat at t1, less than the window after
    t0, is reported as duplicate, and a third copy at t2, the window or more
    after t0, is not: even when t2 is less than the window after t1. *)
Theorem repeat_keeps_first_time t0 t1 t2 channel signal_data svc :
  let r0 := _is_duplicate t0 channel signal_data svc in
  let r1 := _is_duplicate t1 channel signal_data r0.2 in
  let r2 := _is_duplicate t2 channel signal_data r1.2 in
  r0.1 = false ->
  (t1 - t0 < duplicate_window svc * 1000000)%Z ->
  (duplicate_window svc * 1000000 <= t2 - t0)%Z ->
  r1.1 = true /\ r2.1 = false.
Proof.
  intros r0 r1 r2 H0 H1 H2.
  destruct (is_duplicate_unfold t0 channel signal_data svc) as [A1 A2].
  destruct (is_duplicate_unfold t1 channel signal_data r0.2) as [B1 B2].
  destruct (is_duplicate_unfold t2 channel signal_data r1.2) as [C1 C2].
  cbv zeta in *. fold r0 in A1, A2, B1, B2. fold r1 in B1, B2, C1, C2. fold r2 in C1.
  destruct (is_duplicate_config t0 channel signal_data svc) as (_ & _ & W0).
  destruct (is_duplicate_config t1 channel signal_data r0.2) as (_ & _ & W1).
  fold r0 in W0, W1. fold r1 in W1. rewrite W0 in *. rewrite W1 in *.
  set (h := _generate_signal_hash signal_data) in *.
  rewrite H0 in A1. symmetry in A1. rewrite A1 in A2.
  (* what the channel holds after the first call *)
  assert (Hfirst : forall t, In (h, t) (recent_of channel r0.2) -> t = t0).
  { intros t Hin. rewrite A2 in Hin. apply in_app_or in Hin as [Hin|[Hin|[]]].
    - exfalso. apply not_true_iff_false in A1. apply A1.
      apply existsb_hash. apply in_map_iff. exists (h, t). split; [reflexivity | exact Hin].
    - congruence. }
  assert (Hin0 : In (h, t0) (recent_of channel r0.2)).
  { rewrite A2. apply in_or_app. right. left. reflexivity. }
  assert (E1 : r1.1 = true).
  { rewrite B1. apply existsb_hash. apply in_map_iff. exists (h, t0).
    split; [reflexivity|]. apply filter_In. split; [exact Hin0|].
    unfold within_window. apply Z.ltb_lt. exact H1. }
  split; [exact E1|].
  rewrite C1. apply not_true_iff_false. intros Hx.
  apply existsb_hash in Hx. apply in_map_iff in Hx as ([h' t] & Hh & Hx).
  cbn [fst] in Hh. subst h'.
  apply filter_In in Hx as [Hx Hw]. cbn [snd] in Hw.
  rewrite B2 in Hx. rewrite <- B1, E1 in Hx.
  apply filter_In in Hx as [Hx _].
  apply Hfirst in Hx. subst t.
  unfold within_window in Hw. apply Z.ltb_lt in Hw. lia.
Qed.

Lemma repeat_keeps_first_time_witness :
  (_is_duplicate 4000000 "channel" Examples.full_signal
     (_is_duplicate 0 "channel" Examples.full_signal Examples.service_on).2).1 = true
  /\ (_is_duplicate 6000000 "channel" Examples.full_signal
        (_is_duplicate 4000000 "channel" Examples.full_signal
           (_is_duplicate 0 "channel" Examples.full_signal Examples.service_on).2).2).1
     = false.
Proof.
  apply (repeat_keeps_first_time 0 4000000 6000000 "channel" Examples.full_signal
           Examples.service_on); vm_compute; congruence.
Defined.

(** ** The order built from a signal *)

Lemma exchange_for_option_in symbol :
  In (exchange_for_option symbol) ["NFO"; "BFO"; "MCX"; "NSE"].
Proof.
  unfold exchange_for_option.
  repeat match goal with |- context [if ?b then _ else _] => destruct b end;
    cbn [In]; tauto.
Qed.

Lemma exchange_for_cash_in symbol :
  In (exchange_for_cash symbol) ["NFO"; "BFO"; "MCX"; "NSE"].
Proof.
  unfold exchange_for_cash.
  repeat match goal with |- context [if ?b then _ else _] => destruct b end;
    cbn [In]; tauto.
Qed.

(* the quantity default, on an order that has its other keys *)
Lemma quantity_default_lookup (o : dict) (q : value) k :
  k <> "quantity" ->
  (match o !! "quantity" with
   | Some _ => o
   | None => <["quantity" := q]> o
   end) !! k = o !! k.
Proof.
  intros Hk. destruct (o !! "quantity"); [reflexivity|].
  rewrite lookup_insert_ne by congruence. reflexivity.
Qed.

Lemma quantity_default_some (o : dict) (q : value) :
  is_Some ((match o !! "quantity" with
            | Some _ => o
            | None => <["quantity" := q]> o
            end) !! "quantity").
Proof.
  destruct (o !! "quantity") eqn:E; [rewrite E; eauto|].
  rewrite lookup_insert_eq. eauto.
Qed.

(* the instrument part: its four keys and no other *)
Lemma order_instrument_shape e signal_data order :
  order_instrument e signal_data = Ok order ->
  (exists a, order !! "action" = Some (VStr a))
  /\ is_Some (order !! "symbol")
  /\ (exists x, order !! "exchange" = Some (VStr x) /\ In x ["NFO"; "BFO"; "MCX"; "NSE"])
  /\ is_Some (order !! "quantity")
  /\ (forall k, k <> "action" -> k <> "symbol" -> k <> "exchange" -> k <> "quantity" ->
        order !! k = None).
Proof.
  intros H. unfold order_instrument in H.
  apply bind_Ok in H as (action & _ & H). cbn beta zeta in H.
  apply bind_Ok in H as (symbol & _ & H). cbn beta zeta in H.
  apply bind_Ok in H as (option_type & _ & H). cbn beta in H.
  apply bind_Ok in H as (order1 & H1 & H). cbn beta in H.
  injection H as <-.
  assert (H2 : (exists a, order1 !! "action" = Some (VStr a))
               /\ is_Some (order1 !! "symbol")
               /\ (exists x, order1 !! "exchange" = Some (VStr x)
                             /\ In x ["NFO"; "BFO"; "MCX"; "NSE"])
               /\ (forall k, k <> "action" -> k <> "symbol" -> k <> "exchange" ->
                     k <> "quantity" -> order1 !! k = None)).
  { destruct (truthy (get signal_data "strike") && negb (String.eqb option_type "")).
    - apply bind_Ok in H1 as ([resolved_symbol resolved_lotsize] & _ & H1).
      cbn beta iota zeta in H1. injection H1 as <-.
      repeat split.
      + exists action. rewrite quantity_default_lookup by discriminate.
        destruct (truthy resolved_symbol);
          [destruct (negb (truthy (get signal_data "quantity")))|]; lookups; reflexivity.
      + rewrite quantity_default_lookup by discriminate.
        destruct (truthy resolved_symbol);
          [destruct (negb (truthy (get signal_data "quantity")))|]; lookups; eauto.
      + exists (exchange_for_option symbol). split; [|apply exchange_for_option_in].
        rewrite quantity_default_lookup by discriminate.
        destruct (truthy resolved_symbol);
          [destruct (negb (truthy (get signal_data "quantity")))|]; lookups; reflexivity.
      + intros k Ha Hs He Hq. rewrite quantity_default_lookup by exact Hq.
        destruct (truthy resolved_symbol);
          [destruct (negb (truthy (get signal_data "quantity")))|]; lookups; reflexivity.
    - injection H1 as <-. repeat split.
      + exists action. lookups. reflexivity.
      + lookups. eauto.
      + exists (exchange_for_cash symbol). split; [|apply exchange_for_cash_in].
        lookups. reflexivity.
      + intros k Ha Hs He Hq. lookups. reflexivity. }
  destruct H2 as (Ha & Hs & Hx & Hk).
  split; [|split; [|split; [|split]]].
  - rewrite quantity_default_lookup by discriminate. exact Ha.
  - rewrite quantity_default_lookup by discriminate. exact Hs.
  - rewrite quantity_default_lookup by discriminate. exact Hx.
  - apply quantity_default_some.
  - intros k H3 H4 H5 H6. rewrite quantity_default_lookup by exact H6. apply Hk; assumption.
Qed.

(* what the pricing decision can be *)
Lemma entry_pricing_shape action condition price entry_price current_ltp pt trig p :
  entry_pricing action condition price entry_price current_ltp = Ok (pt, trig, p) ->
  (pt = "SL" \/ pt = "LIMIT") /\ (is_Some trig -> pt = "SL").
Proof.
  unfold entry_pricing. intros H.
  repeat match type of H with
         | (if ?b then _ else _) = _ => destruct b
         end;
    try discriminate H;
    try (injection H as <- <- <-; split;
         [tauto | first [intros _; reflexivity | intros [? [=]]]]).
  all: unfold entry_tolerance in H; cbn [bind] in H; discriminate H.
Qed.

(* the price part: 'price' and 'pricetype', a trigger with the type SL only,
   and the instrument part untouched *)
Lemma order_price_shape e signal_data order order' :
  order_price e signal_data order = Ok order' ->
  is_Some (order' !! "price")
  /\ (exists t, order' !! "pricetype" = Some (VStr t)
        /\ In t ["MARKET"; "LIMIT"; "SL"]
        /\ (t = "MARKET" <-> truthy (get signal_data "price") = false)
        /\ (order !! "trigger_price" = None -> is_Some (order' !! "trigger_price") ->
            t = "SL"))
  /\ (truthy (get signal_data "price") = false -> order' !! "price" = Some (VStr "0"))
  /\ (forall k, k <> "price" -> k <> "pricetype" -> k <> "trigger_price" ->
        order' !! k = order !! k).
Proof.
  unfold order_price. intros H.
  destruct (truthy (get signal_data "price")) eqn:Ep.
  - apply bind_Ok in H as (entry_price & _ & H). cbn beta zeta in H.
    apply bind_Ok in H as (condition & _ & H). cbn beta in H.
    apply bind_Ok in H as (action & _ & H). cbn beta in H.
    apply bind_Ok in H as ([[pt trig] p] & Hpricing & H). cbn beta iota zeta in H.
    apply entry_pricing_shape in Hpricing as [Hpt Htrig].
    injection H as <-.
    assert (Hin : In pt ["MARKET"; "LIMIT"; "SL"])
      by (cbn [In]; destruct Hpt as [->| ->]; tauto).
    assert (Hm : pt = "MARKET" <-> true = false)
      by (split; [intros ->; destruct Hpt; discriminate | discriminate]).
    destruct trig as [trigger|]; [destruct (String.eqb trigger "")|].
    + repeat split; try (intros; discriminate).
      * lookups. eauto.
      * exists pt. lookups. repeat split; try tauto.
        intros _ _. apply Htrig. eauto.
      * intros k H1 H2 H3. lookups. reflexivity.
    + repeat split; try (intros; discriminate).
      * lookups. eauto.
      * exists pt. lookups. repeat split; try tauto.
        intros _ _. apply Htrig. eauto.
      * intros k H1 H2 H3. lookups. reflexivity.
    + repeat split; try (intros; discriminate).
      * lookups. eauto.
      * exists pt. lookups. repeat split; try tauto.
        intros Hn [x Hx]. revert Hx. lookups. rewrite Hn. discriminate.
      * intros k H1 H2 H3. lookups. reflexivity.
  - injection H as <-. repeat split.
    + lookups. eauto.
    + exists "MARKET". lookups. repeat split; try tauto; try (cbn [In]; tauto).
      intros Hn [x Hx]. revert Hx. lookups. rewrite Hn. discriminate.
    + intros _. lookups. reflexivity.
    + intros k H1 H2 H3. lookups. reflexivity.
Qed.

(* the keys an order can have *)
Lemma converted_order_keys e signal_data order :
  _convert_signal_to_order e signal_data = Ok order ->
  forall k, is_Some (order !! k) ->
    In k ["action"; "symbol"; "exchange"; "quantity"; "price"; "pricetype";
          "trigger_price"; "product"; "targets"; "signal_data"].
Proof.
  unfold _convert_signal_to_order. intros H.
  apply bind_Ok in H as (o1 & H1 & H). cbn beta in H.
  apply bind_Ok in H as (o2 & H2 & H). cbn beta zeta in H.
  injection H as <-.
  apply order_instrument_shape in H1 as (Ha & Hs & Hx & Hq & Hk1).
  apply order_price_shape in H2 as (Hp & Ht & H0 & Hk2).
  intros k Hsome.
  destruct (decide (k = "signal_data")) as [->|N1]; [cbn [In]; tauto|].
  destruct (decide (k = "targets")) as [->|N2]; [cbn [In]; tauto|].
  destruct (decide (k = "product")) as [->|N3]; [cbn [In]; tauto|].
  destruct (decide (k = "price")) as [->|N4]; [cbn [In]; tauto|].
  destruct (decide (k = "pricetype")) as [->|N5]; [cbn [In]; tauto|].
  destruct (decide (k = "trigger_price")) as [->|N6]; [cbn [In]; tauto|].
  destruct (decide (k = "action")) as [->|N7]; [cbn [In]; tauto|].
  destruct (decide (k = "symbol")) as [->|N8]; [cbn [In]; tauto|].
  destruct (decide (k = "exchange")) as [->|N9]; [cbn [In]; tauto|].
  destruct (decide (k = "quantity")) as [->|N10]; [cbn [In]; tauto|].
  exfalso. revert Hsome. lookups. rewrite Hk2 by assumption.
  rewrite Hk1 by assumption. intros [x [=]].
Qed.

(** X5. The shape of every order [_convert_signal_to_order] returns. It has
    the keys action, symbol, exchange, quantity, price, pricetype, product,
    targets and signal_data, possibly trigger_price, and no other key (in
    particular no 'price_type'). The product is 'MIS', the exchange one of
    NFO, BFO, MCX, NSE, and signal_data the signal itself. The price type is
    MARKET, with price '0', exactly when the signal has no price, and else
    LIMIT or SL; a trigger price comes with the type SL only. *)
Theorem converted_order_shape e signal_data order :
  _convert_signal_to_order e signal_data = Ok order ->
  (forall k, is_Some (order !! k) ->
     In k ["action"; "symbol"; "exchange"; "quantity"; "price"; "pricetype";
           "trigger_price"; "product"; "targets"; "signal_data"])
  /\ Forall (fun k => is_Some (order !! k))
       ["action"; "symbol"; "exchange"; "quantity"; "price"; "pricetype"; "product";
        "targets"; "signal_data"]
  /\ order !! "product" = Some (VStr "MIS")
  /\ order !! "signal_data" = Some (VDict signal_data)
  /\ order !! "targets" = Some (get_or signal_data "targets" (VList []))
  /\ (exists x, order !! "exchange" = Some (VStr x) /\ In x ["NFO"; "BFO"; "MCX"; "NSE"])
  /\ (exists t, order !! "pricetype" = Some (VStr t)
        /\ In t ["MARKET"; "LIMIT"; "SL"]
        /\ (t = "MARKET" <-> truthy (get signal_data "price") = false)
        /\ (is_Some (order !! "trigger_price") -> t = "SL"))
  /\ (truthy (get signal_data "price") = false -> order !! "price" = Some (VStr "0")).
Proof.
  intros H. pose proof (converted_order_keys _ _ _ H) as Hkeys. revert H.
  unfold _convert_signal_to_order. intros H.
  apply bind_Ok in H as (o1 & H1 & H). cbn beta in H.
  apply bind_Ok in H as (o2 & H2 & H). cbn beta zeta in H.
  injection H as <-.
  apply order_instrument_shape in H1 as (Ha & Hs & Hx & Hq & Hk1).
  apply order_price_shape in H2 as (Hp & Ht & H0 & Hk2).
  assert (Htr : o1 !! "trigger_price" = None) by (apply Hk1; discriminate).
  split; [|split; [|split; [|split; [|split; [|split; [|split]]]]]].
  - exact Hkeys.
  - destruct Ha as [a Ha]. destruct Hx as (x & Hx & _). destruct Ht as (t & Ht & _).
    repeat constructor; lookups; eauto;
      rewrite ?Hk2 by discriminate; eauto.
  - lookups. reflexivity.
  - lookups. reflexivity.
  - lookups. reflexivity.
  - destruct Hx as (x & Hx & Hin). exists x. split; [|exact Hin].
    lookups. rewrite Hk2 by discriminate. exact Hx.
  - destruct Ht as (t & Ht & Hin & Hm & Hs'). exists t. lookups.
    repeat split; try tauto.
    all: intros Hsome; apply Hs'; [exact Htr|]; revert Hsome; lookups; tauto.
  - intros Hf. lookups. apply H0. exact Hf.
Qed.

Lemma converted_order_shape_witness :
  Scenarios.stop_order_99 !! "product" = Some (VStr "MIS")
  /\ exists t, Scenarios.stop_order_99 !! "pricetype" = Some (VStr t)
                /\ In t ["MARKET"; "LIMIT"; "SL"].
Proof.
  destruct (converted_order_shape (Examples.quote_env 99) Examples.buy_signal
              Scenarios.stop_order_99 ltac:(by_eval))
    as (_ & _ & Hp & _ & _ & _ & (t & Ht & Hin & _) & _).
  split; [exact Hp|]. exists t. split; assumption.
Defined.

(** ** The ways a call of [execute_signal] can end *)

Lemma is_duplicate_stats now channel signal_data svc :
  stats (_is_duplicate now channel signal_data svc).2 = stats svc.
Proof. unfold _is_duplicate. destruct (existsb _ _); reflexivity. Qed.

(* the three ways the placement can end without raising *)
Lemma place_cases e now signal_data svc mon r svc' mon' :
  place e now signal_data svc mon = Ok (r, svc', mon') ->
  (r = (false, "No active broker session") /\ svc' = svc /\ mon' = mon)
  \/ (exists order response,
        auth_session e = Ok (Some false)
        /\ order !! "price_type" = None
        /\ order !! "strategy" = Some (VStr "TelegramSignal")
        /\ place_order e order = Ok (true, response)
        /\ r = (true, "Order placed: " +:+ py_str (get_or response "orderid" (VStr "N/A")))
        /\ svc' = bump "executed" svc
        /\ mon' = register_position e now signal_data order
                    (get_or response "orderid" (VStr "N/A")) "aravind" mon)
  \/ (exists order response,
        place_order e order = Ok (false, response)
        /\ r = (false, "Order failed: "
                       +:+ py_str (get_or response "message" (VStr "Unknown error")))
        /\ svc' = bump "failed" svc /\ mon' = mon).
Proof.
  unfold place. intros H.
  apply bind_Ok in H as (order_data & Hconv & H). cbn beta zeta in H.
  apply bind_Ok in H as (auth_obj & Hauth & H). cbn beta in H.
  destruct auth_obj as [[]|].
  - injection H as <- <- <-. left. repeat split.
  - apply bind_Ok in H as (auth_token & _ & H). cbn beta in H.
    apply bind_Ok in H as (key & _ & H). cbn beta zeta in H.
    apply bind_Ok in H as (lots & _ & H). cbn beta in H.
    apply bind_Ok in H as (order & Horder & H). cbn beta in H.
    apply bind_Ok in H as ([success response] & Hplace & H). cbn beta iota zeta in H.
    assert (Hshape : order !! "price_type" = None
                     /\ order !! "strategy" = Some (VStr "TelegramSignal")).
    { pose proof (converted_order_keys _ _ _ Hconv) as Hk.
      assert (Hn : order_data !! "price_type" = None).
      { destruct (order_data !! "price_type") eqn:E; [|reflexivity].
        exfalso. specialize (Hk "price_type" (ex_intro _ _ E)). cbn [In] in Hk.
        repeat destruct Hk as [Hk|Hk]; try discriminate Hk. exact Hk. }
      destruct (1 <? lots)%Z.
      - apply bind_Ok in Horder as (q & _ & Horder). injection Horder as <-.
        destruct (truthy key); lookups; split; (exact Hn || reflexivity).
      - injection Horder as <-.
        destruct (truthy key); lookups; split; (exact Hn || reflexivity). }
    destruct Hshape as [Hn Hs].
    destruct success; injection H as <- <- <-.
    + right. left. exists order, response. repeat split; assumption.
    + right. right. exists order, response. repeat split; assumption.
  - injection H as <- <- <-. left. repeat split.
Qed.

(* a position is registered only when the sandbox reports the order complete *)
Lemma register_position_changes e now signal_data order_data order_id username mon :
  order_data !! "price_type" = None ->
  register_position e now signal_data order_data order_id username mon <> mon ->
  sandbox_order_status e order_id = Ok (Some "complete").
Proof.
  intros Hn Hne. unfold register_position in Hne.
  destruct (iterate _) as [ts|ex]; cbn [bind] in Hne; [|contradiction].
  replace (get_or order_data "price_type" (VStr "LIMIT")) with (VStr "LIMIT") in Hne
    by (unfold get_or; rewrite Hn; reflexivity).
  cbn [py_upper bind] in Hne.
  change (String.eqb (upper "LIMIT") "MARKET") with false in Hne. cbv iota in Hne.
  destruct (sandbox_order_status e order_id) as [[status|]|ex]; cbn [bind] in Hne;
    try contradiction.
  destruct (String.eqb status "complete") eqn:E; [|contradiction].
  apply String.eqb_eq in E. subst status. reflexivity.
Qed.

(* every call ends in one of eight ways *)
Lemma execute_signal_cases e now signal_data channel raw_message confidence svc mon :
  let r := execute_signal e now signal_data channel raw_message confidence svc mon in
  let d := _is_duplicate now channel (prepared signal_data) (bump "total_signals" svc) in
  exists x : ending,
    stats r.1.2 =
      stats (match ending_counter x with
             | Some k => bump k (bump "total_signals" svc)
             | None => bump "total_signals" svc
             end)
    /\ match x with
       | Disabled =>
           enabled svc = false /\ r.1.1.1 = (false, "Auto-execution disabled") /\ r.2 = mon
           /\ recent_signals r.1.2 = recent_signals svc
       | LowConfidence =>
           enabled svc = true /\ (confidence <? confidence_threshold svc)%float = true
           /\ r.1.1.1 = (false, "Low confidence (" +:+ format_f 2 confidence +:+ ")")
           /\ r.2 = mon /\ recent_signals r.1.2 = recent_signals svc
       | Duplicate =>
           enabled svc = true /\ (confidence <? confidence_threshold svc)%float = false
           /\ d.1 = true /\ r.1.1.1 = (false, "Duplicate signal") /\ r.2 = mon
       | Invalid =>
           enabled svc = true /\ (confidence <? confidence_threshold svc)%float = false
           /\ d.1 = false /\ (_validate_signal (prepared signal_data)).1 = false
           /\ r.1.1.1.1 = false /\ r.2 = mon
       | Excepted =>
           enabled svc = true /\ (confidence <? confidence_threshold svc)%float = false
           /\ d.1 = false /\ (_validate_signal (prepared signal_data)).1 = true
           /\ (exists ex, place e now (prepared signal_data) d.2 mon = Raise ex
                          /\ r.1.1.1 = (false, "Exception: " +:+ exn_str ex))
           /\ r.2 = mon
       | NoSession =>
           enabled svc = true /\ (confidence <? confidence_threshold svc)%float = false
           /\ d.1 = false /\ (_validate_signal (prepared signal_data)).1 = true
           /\ r.1.1.1 = (false, "No active broker session") /\ r.2 = mon
       | Placed =>
           enabled svc = true /\ (confidence <? confidence_threshold svc)%float = false
           /\ d.1 = false /\ (_validate_signal (prepared signal_data)).1 = true
           /\ exists order response,
                auth_session e = Ok (Some false)
                /\ order !! "price_type" = None
                /\ order !! "strategy" = Some (VStr "TelegramSignal")
                /\ place_order e order = Ok (true, response)
                /\ r.1.1.1 = (true, "Order placed: "
                                    +:+ py_str (get_or response "orderid" (VStr "N/A")))
                /\ r.2 = register_position e now (prepared signal_data) order
                           (get_or response "orderid" (VStr "N/A")) "aravind" mon
       | Refused =>
           enabled svc = true /\ (confidence <? confidence_threshold svc)%float = false
           /\ d.1 = false /\ (_validate_signal (prepared signal_data)).1 = true
           /\ (exists order response,
                 place_order e order = Ok (false, response)
                 /\ r.1.1.1 = (false, "Order failed: "
                     +:+ py_str (get_or response "message" (VStr "Unknown error"))))
           /\ r.2 = mon
       end.
Proof.
  cbv zeta.
  destruct (enabled svc) eqn:Hen.
  2:{ exists Disabled. unfold execute_signal. cbn [enabled bump]. rewrite Hen.
      cbn [negb fst snd ending_counter stats bump recent_signals]. repeat split. }
  destruct (confidence <? confidence_threshold svc)%float eqn:Hc.
  { exists LowConfidence. unfold execute_signal. cbn [enabled confidence_threshold bump].
    rewrite Hen, Hc. cbn [negb fst snd ending_counter stats bump recent_signals].
    repeat split. }
  rewrite execute_signal_gated by assumption. cbv zeta.
  pose proof (is_duplicate_stats now channel (prepared signal_data)
                (bump "total_signals" svc)) as Hst.
  destruct (_is_duplicate now channel (prepared signal_data) (bump "total_signals" svc))
    as [dup svc1]. cbn [fst snd] in *.
  destruct dup.
  { exists Duplicate. cbn [fst snd ending_counter stats bump]. rewrite Hst.
    repeat split. }
  destruct (_validate_signal (prepared signal_data)) as [[] error] eqn:Hv.
  2:{ exists Invalid. cbn [fst snd ending_counter stats bump]. rewrite Hst.
      repeat split. }
  destruct (place e now (prepared signal_data) svc1 mon) as [[[r svc'] mon']|ex] eqn:Hp.
  2:{ exists Excepted. cbn [fst snd ending_counter stats bump]. rewrite Hst.
      repeat split. exists ex. split; reflexivity. }
  apply place_cases in Hp
    as [(-> & -> & ->) | [(order & response & Ha & Hn & Hs & Hpl & -> & -> & ->)
                         | (order & response & Hpl & -> & -> & ->)]].
  - exists NoSession. cbn [fst snd ending_counter stats bump]. rewrite Hst.
    repeat split.
  - exists Placed. cbn [fst snd ending_counter stats bump]. rewrite Hst.
    repeat split. exists order, response. repeat split; assumption.
  - exists Refused. cbn [fst snd ending_counter stats bump]. rewrite Hst.
    repeat split. exists order, response. split; [assumption | reflexivity].
Qed.

(** ** Counters *)

Lemma counter_stats k svc :
  k <> "enabled" -> k <> "confidence_threshold" ->
  counter k svc = default 0%Z (stats svc !! k).
Proof.
  intros H1 H2. unfold counter, get_stats.
  rewrite !lookup_insert_ne by congruence. rewrite lookup_fmap.
  destruct (stats svc !! k); reflexivity.
Qed.

Lemma counter_bump k k' svc :
  k <> "enabled" -> k <> "confidence_threshold" ->
  counter k (bump k' svc) = (counter k svc + if String.eqb k' k then 1 else 0)%Z.
Proof.
  intros H1 H2. rewrite !counter_stats by assumption. cbn [bump stats].
  destruct (String.eqb_spec k' k) as [->|Hne].
  - rewrite lookup_insert_eq. reflexivity.
  - rewrite lookup_insert_ne by exact Hne. lia.
Qed.

Lemma counter_ext k a b :
  stats a = stats b -> k <> "enabled" -> k <> "confidence_threshold" ->
  counter k a = counter k b.
Proof. intros H H1 H2. rewrite !counter_stats by assumption. rewrite H. reflexivity. Qed.

(* the counters after a call, and the flag it returns *)
Lemma counters_after e now signal_data channel raw_message confidence svc mon :
  let r := execute_signal e now signal_data channel raw_message confidence svc mon in
  exists x : ending,
    (forall k, k <> "enabled" -> k <> "confidence_threshold" ->
       counter k r.1.2
       = (counter k svc + (if String.eqb "total_signals" k then 1 else 0)
          + match ending_counter x with
            | Some k' => if String.eqb k' k then 1 else 0
            | None => 0
            end)%Z)
    /\ r.1.1.1.1 = match x with Placed => true | _ => false end
    /\ (x = NoSession -> r.1.1.1 = (false, "No active broker session")).
Proof.
  intros r.
  destruct (execute_signal_cases e now signal_data channel raw_message confidence svc mon)
    as (x & Hst & Hx).
  cbv zeta in Hst, Hx. fold r in Hst, Hx.
  exists x. split; [|split].
  - intros k H1 H2. rewrite (counter_ext k _ _ Hst) by assumption.
    destruct (ending_counter x); rewrite !counter_bump by assumption; lia.
  - destruct x; try (destruct Hx as (_ & Hx & _); rewrite Hx; reflexivity).
    + destruct Hx as (_ & _ & Hx & _). rewrite Hx. reflexivity.
    + destruct Hx as (_ & _ & _ & Hx & _). rewrite Hx. reflexivity.
    + destruct Hx as (_ & _ & _ & _ & Hx & _). exact Hx.
    + destruct Hx as (_ & _ & _ & _ & (ex & _ & Hx) & _). rewrite Hx. reflexivity.
    + destruct Hx as (_ & _ & _ & _ & Hx & _). rewrite Hx. reflexivity.
    + destruct Hx as (_ & _ & _ & _ & order & response & _ & _ & _ & _ & Hx & _).
      rewrite Hx. reflexivity.
    + destruct Hx as (_ & _ & _ & _ & (order & response & _ & Hx) & _).
      rewrite Hx. reflexivity.
  - intros ->. destruct Hx as (_ & _ & _ & _ & Hx & _). exact Hx.
Qed.


(** ** The gates *)

(* a call refused at one of the four gates consults no collaborator *)
Lemma gate_refusal e now signal_data channel raw_message confidence svc mon :
  enabled svc = false
  \/ (confidence <? confidence_threshold svc)%float = true
  \/ (_is_duplicate now channel (prepared signal_data) (bump "total_signals" svc)).1 = true
  \/ (_validate_signal (prepared signal_data)).1 = false ->
  (execute_signal e now signal_data channel raw_message confidence svc mon).1.1.1.1 = false
  /\ (execute_signal e now signal_data channel raw_message confidence svc mon).2 = mon
  /\ forall e', execute_signal e' now signal_data channel raw_message confidence svc mon
                = execute_signal e now signal_data channel raw_message confidence svc mon.
Proof.
  intros Hgate.
  destruct (enabled svc) eqn:Hen.
  2:{ unfold execute_signal. cbn [enabled bump]. rewrite Hen. cbn [negb fst snd].
      repeat split. }
  destruct (confidence <? confidence_threshold svc)%float eqn:Hc.
  { unfold execute_signal. cbn [enabled confidence_threshold bump]. rewrite Hen, Hc.
    cbn [negb fst snd]. repeat split. }
  destruct Hgate as [Hg|[Hg|Hg]]; [discriminate Hg | discriminate Hg |].
  assert (Hall : forall e', execute_signal e' now signal_data channel raw_message
                              confidence svc mon
                            = execute_signal e now signal_data channel raw_message
                                confidence svc mon
                              /\ (execute_signal e now signal_data channel raw_message
                                    confidence svc mon).1.1.1.1 = false
                              /\ (execute_signal e now signal_data channel raw_message
                                    confidence svc mon).2 = mon).
  { intros e'. rewrite !execute_signal_gated by assumption. cbv zeta.
    destruct (_is_duplicate now channel (prepared signal_data)
                (bump "total_signals" svc)) as [dup svc1]. cbn [fst snd] in *.
    destruct dup; [repeat split|].
    destruct Hg as [Hg|Hg]; [discriminate Hg|].
    destruct (_validate_signal (prepared signal_data)) as [[] error];
      [discriminate Hg | repeat split]. }
  destruct (Hall e) as (_ & H1 & H2).
  split; [exact H1|]. split; [exact H2|]. intros e'. apply Hall.
Qed.

(** X7. The four gates of [execute_signal]. A call returns success only if
    the service is enabled, the confidence is not below the threshold, the
    prepared signal is no duplicate and passes validation, there is a live
    broker session, and place_order reported success for an order tagged
    'TelegramSignal'; the message is then "Order placed: " and the order id.
    When one of the four gates refuses, the answer, the service and the
    monitor are the same whatever the collaborators would have done: they are
    not consulted, and the monitor is left as it was. In particular, once
    [disable] has been called every signal is answered "Auto-execution
    disabled". *)
Theorem execute_signal_gates e now signal_data channel raw_message confidence svc mon :
  let r := execute_signal e now signal_data channel raw_message confidence svc mon in
  let d := _is_duplicate now channel (prepared signal_data) (bump "total_signals" svc) in
  (r.1.1.1.1 = true ->
     enabled svc = true
     /\ (confidence <? confidence_threshold svc)%float = false
     /\ d.1 = false
     /\ (_validate_signal (prepared signal_data)).1 = true
     /\ auth_session e = Ok (Some false)
     /\ exists order response,
          place_order e order = Ok (true, response)
          /\ order !! "strategy" = Some (VStr "TelegramSignal")
          /\ r.1.1.1 = (true, "Order placed: "
                              +:+ py_str (get_or response "orderid" (VStr "N/A"))))
  /\ (enabled svc = false
      \/ (confidence <? confidence_threshold svc)%float = true
      \/ d.1 = true
      \/ (_validate_signal (prepared signal_data)).1 = false ->
      r.1.1.1.1 = false /\ r.2 = mon
      /\ forall e', execute_signal e' now signal_data channel raw_message confidence svc mon
                    = r)
  /\ (execute_signal e now signal_data channel raw_message confidence (disable svc) mon).1.1.1
     = (false, "Auto-execution disabled").
Proof.
  intros r d. split; [|split; [|reflexivity]].
  - intros Hok.
    destruct (execute_signal_cases e now signal_data channel raw_message confidence svc mon)
      as (x & _ & Hx).
    cbv zeta in Hx. fold r d in Hx.
    destruct x.
    + destruct Hx as (_ & Hx & _). rewrite Hx in Hok. discriminate Hok.
    + destruct Hx as (_ & _ & Hx & _). rewrite Hx in Hok. discriminate Hok.
    + destruct Hx as (_ & _ & _ & Hx & _). rewrite Hx in Hok. discriminate Hok.
    + destruct Hx as (_ & _ & _ & _ & Hx & _). rewrite Hx in Hok. discriminate Hok.
    + destruct Hx as (_ & _ & _ & _ & (ex & _ & Hx) & _). rewrite Hx in Hok.
      discriminate Hok.
    + destruct Hx as (_ & _ & _ & _ & Hx & _). rewrite Hx in Hok. discriminate Hok.
    + destruct Hx as (H1 & H2 & H3 & H4 & order & response & H5 & _ & H6 & H7 & H8 & _).
      repeat split; try assumption. exists order, response. repeat split; assumption.
    + destruct Hx as (_ & _ & _ & _ & (order & response & _ & Hx) & _).
      rewrite Hx in Hok. discriminate Hok.
  - intros Hgate. unfold r.
    apply (gate_refusal e now signal_data channel raw_message confidence svc mon Hgate).
Qed.

Lemma execute_signal_gates_witness :
  enabled Examples.service_on = true.
Proof.
  apply (execute_signal_gates (Examples.quote_env 100.5) 1000000 Examples.full_signal
           "channel" "BUY RELIANCE @ 100 SL 95 TGT 110" 0.9 Examples.service_on
           Examples.empty_monitor).
  by_eval.
Defined.

(** X8. A position enters the monitor only on a confirmed fill. Whenever a
    call of [execute_signal] changes the position monitor, the call has
    placed an order and the sandbox reports that order 'complete'. As the
    order carries its type under 'pricetype' and the registration reads
    'price_type', no order is taken as a MARKET order filled at once. *)
Theorem monitor_entry_needs_fill e now signal_data channel raw_message confidence svc mon :
  let r := execute_signal e now signal_data channel raw_message confidence svc mon in
  r.2 <> mon ->
  exists order_id,
    r.1.1.1 = (true, "Order placed: " +:+ py_str order_id)
    /\ sandbox_order_status e order_id = Ok (Some "complete").
Proof.
  intros r Hne.
  destruct (execute_signal_cases e now signal_data channel raw_message confidence svc mon)
    as (x & _ & Hx).
  cbv zeta in Hx. fold r in Hx.
  destruct x.
  - destruct Hx as (_ & _ & Hx & _). contradiction.
  - destruct Hx as (_ & _ & _ & Hx & _). contradiction.
  - destruct Hx as (_ & _ & _ & _ & Hx). contradiction.
  - destruct Hx as (_ & _ & _ & _ & _ & Hx). contradiction.
  - destruct Hx as (_ & _ & _ & _ & _ & Hx). contradiction.
  - destruct Hx as (_ & _ & _ & _ & _ & Hx). contradiction.
  - destruct Hx as (_ & _ & _ & _ & order & response & _ & Hn & _ & _ & Hr & Hm).
    exists (get_or response "orderid" (VStr "N/A")). split; [exact Hr|].
    rewrite Hm in Hne.
    eapply register_position_changes; eassumption.
  - destruct Hx as (_ & _ & _ & _ & _ & Hx). contradiction.
Qed.

Lemma monitor_entry_needs_fill_witness :
  exists order_id,
    (execute_signal (Examples.quote_env 100.5) 1000000 Examples.full_signal
       "channel" "BUY RELIANCE @ 100 SL 95 TGT 110" 0.9 Examples.service_on
       Examples.empty_monitor).1.1.1
    = (true, "Order placed: " +:+ py_str order_id)
    /\ sandbox_order_status (Examples.quote_env 100.5) order_id = Ok (Some "complete").
Proof.
  apply (monitor_entry_needs_fill (Examples.quote_env 100.5) 1000000 Examples.full_signal
           "channel" "BUY RELIANCE @ 100 SL 95 TGT 110" 0.9 Examples.service_on
           Examples.empty_monitor).
  intros H.
  apply (f_equal (fun m => match PositionMonitor.active_positions m !! "42" with
                           | Some _ => true
                           | None => false
                           end)) in H.
  vm_compute in H. discriminate H.
Defined.

(** ** Preparing a signal *)

Lemma auto_sl_idem signal_data : auto_sl (auto_sl signal_data) = auto_sl signal_data.
Proof.
  unfold auto_sl at 2.
  destruct (negb (truthy (get signal_data "sl")) && truthy (get signal_data "price"))
    eqn:E; [|unfold auto_sl; rewrite E; reflexivity].
  destruct (bind (py_float (get signal_data "price")) _) as [calc_sl|ex] eqn:Eb;
    [|unfold auto_sl; rewrite E, Eb; reflexivity].
  unfold auto_sl.
  replace (get (<["sl" := VFloat calc_sl]> signal_data) "price")
    with (get signal_data "price")
    by (unfold get; rewrite lookup_insert_ne by discriminate; reflexivity).
  replace (get_or (<["sl" := VFloat calc_sl]> signal_data) "action" (VStr "BUY"))
    with (get_or signal_data "action" (VStr "BUY"))
    by (unfold get_or; rewrite lookup_insert_ne by discriminate; reflexivity).
  rewrite Eb, E.
  destruct (negb (truthy (get (<["sl" := VFloat calc_sl]> signal_data) "sl"))
            && truthy (get signal_data "price")); [|reflexivity].
  apply insert_insert_eq.
Qed.

Lemma infer_action_prepared signal_data :
  infer_action (prepared signal_data) = prepared signal_data.
Proof.
  unfold infer_action at 1.
  rewrite prepared_action. rewrite prepared_get by discriminate.
  destruct (truthy (get signal_data "action")),
    (is_str (get signal_data "option_type") "CE"),
    (is_str (get signal_data "option_type") "PE"); reflexivity.
Qed.

(** X9. The preparation of a signal (the inferred action and the automatic
    stop loss) changes nothing when done again: a mapping that
    [execute_signal] has returned is left as it is by every later call. The
    preparation writes the keys 'action' and 'sl' only, and never replaces an
    action or a stop loss the signal came with. *)
Theorem prepared_once signal_data :
  prepared (prepared signal_data) = prepared signal_data
  /\ (forall e e' now now' channel channel' raw raw' confidence confidence' svc svc'
             mon mon',
        let r := execute_signal e now signal_data channel raw confidence svc mon in
        (execute_signal e' now' r.1.1.2 channel' raw' confidence' svc' mon').1.1.2
        = r.1.1.2)
  /\ (forall k, k <> "action" -> k <> "sl" ->
        prepared signal_data !! k = signal_data !! k)
  /\ (truthy (get signal_data "action") = true ->
      prepared signal_data !! "action" = signal_data !! "action")
  /\ (truthy (get signal_data "sl") = true ->
      prepared signal_data !! "sl" = signal_data !! "sl").
Proof.
  assert (H : prepared (prepared signal_data) = prepared signal_data).
  { unfold prepared at 1. rewrite infer_action_prepared.
    unfold prepared. apply auto_sl_idem. }
  split; [exact H|]. split; [|split; [|split]].
  - intros. subst r. rewrite !execute_signal_signal. exact H.
  - intros k H1 H2. unfold prepared. rewrite auto_sl_lookup by exact H2.
    unfold infer_action. destruct (_ && _); [|reflexivity].
    rewrite lookup_insert_ne by congruence. reflexivity.
  - intros Ha. unfold prepared. rewrite auto_sl_lookup by discriminate.
    unfold infer_action. rewrite Ha. reflexivity.
  - intros Hs. unfold prepared, auto_sl.
    rewrite infer_action_get by discriminate. rewrite Hs. cbn [negb andb].
    unfold infer_action. destruct (_ && _); [|reflexivity].
    rewrite lookup_insert_ne by discriminate. reflexivity.
Qed.

Lemma prepared_once_witness :
  prepared Examples.full_signal !! "sl" = Some (VStr "95").
Proof.
  rewrite (proj2 (proj2 (proj2 (proj2 (prepared_once Examples.full_signal))))).
  - reflexivity.
  - reflexivity.
Defined.

End ExecutionProps.

(** * Further properties of the position monitor *)

Module MonitorProps.
Import Py PyFacts PositionMonitor MonitorKeys MonitorFacts.

(** ** What a mutator touches *)

Lemma assign_frame order_id key v st b st' :
  assign order_id key v st = Ok (b, st') ->
  (forall o, o <> order_id -> active_positions st' !! o = active_positions st !! o)
  /\ (forall p, active_positions st !! order_id = Some p ->
        b = true /\ active_positions st' !! order_id = Some (<[key := v]> p))
  /\ (active_positions st !! order_id = None -> b = false /\ st' = st).
Proof.
  unfold assign. destruct (active_positions st !! order_id) as [p|] eqn:E;
    intros [= <- <-].
  - split; [|split].
    + intros o Ho. cbn [set_active active_positions].
      rewrite lookup_insert_ne by congruence. reflexivity.
    + intros p' [= <-]. split; [reflexivity|]. cbn [set_active active_positions].
      apply lookup_insert_eq.
    + discriminate.
  - split; [|split]; [reflexivity | discriminate | split; reflexivity].
Qed.

(* what a mutator touches *)
Lemma mutate_frame m order_id st b st' :
  mutate m order_id st = Ok (b, st') ->
  position_history st' = position_history st
  /\ (forall o, o <> order_id -> active_positions st' !! o = active_positions st !! o)
  /\ (forall p, active_positions st !! order_id = Some p ->
        exists p', active_positions st' !! order_id = Some p'
                   /\ forall k, ~ In k (written m) -> p' !! k = p !! k)
  /\ (active_positions st !! order_id = None -> b = false /\ st' = st).
Proof.
  intros H. split; [eapply mutate_history; exact H|].
  assert (Ha : forall key v,
             In key (written m) ->
             assign order_id key v st = Ok (b, st') ->
             (forall o, o <> order_id -> active_positions st' !! o = active_positions st !! o)
             /\ (forall p, active_positions st !! order_id = Some p ->
                   exists p', active_positions st' !! order_id = Some p'
                              /\ forall k, ~ In k (written m) -> p' !! k = p !! k)
             /\ (active_positions st !! order_id = None -> b = false /\ st' = st)).
  { intros key v Hin E. apply assign_frame in E as (E1 & E2 & E3).
    split; [exact E1|]. split; [|exact E3].
    intros p Hp. destruct (E2 p Hp) as [_ E]. eexists. split; [exact E|].
    intros k Hk. rewrite lookup_insert_ne; [reflexivity|]. intros ->. contradiction. }
  destruct m; cbn [mutate] in H;
    try (eapply Ha; [|exact H]; cbn [written In]; tauto).
  - (* update_sl *)
    unfold update_sl in H.
    destruct (active_positions st !! order_id) as [p|] eqn:E.
    + destruct (p !! "current_sl"); [|discriminate H]. injection H as <- <-.
      split; [|split].
      * intros o Ho. cbn [set_active active_positions].
        rewrite lookup_insert_ne by congruence. reflexivity.
      * intros p0 [= <-]. eexists. split.
        { cbn [set_active active_positions]. apply lookup_insert_eq. }
        intros k Hk. cbn [written In] in Hk.
        destruct (truthy sl_order_id);
          repeat (rewrite lookup_insert_ne by (intros <-; tauto)); reflexivity.
      * discriminate.
    + injection H as <- <-. split; [|split]; [reflexivity | discriminate | split; reflexivity].
  - (* update_highest_price *)
    unfold update_highest_price in H.
    destruct (active_positions st !! order_id) as [p|] eqn:E.
    + destruct (p !! "highest_price") as [h|]; [|discriminate H].
      destruct (float_gt current_price h) as [[]|]; [| |discriminate H];
        injection H as <- <-.
      * split; [|split].
        { intros o Ho. cbn [set_active active_positions].
          rewrite lookup_insert_ne by congruence. reflexivity. }
        { intros p0 [= <-]. eexists. split.
          - cbn [set_active active_positions]. apply lookup_insert_eq.
          - intros k Hk. cbn [written In] in Hk.
            rewrite lookup_insert_ne by (intros <-; tauto). reflexivity. }
        { discriminate. }
      * split; [|split]; [reflexivity | | discriminate].
        intros p0 Hp0. exists p0. split; [rewrite <- Hp0; exact E|reflexivity].
    + injection H as <- <-. split; [|split]; [reflexivity | discriminate | split; reflexivity].
Qed.

(** X10. What a mutator of the monitor touches. A call that returns leaves
    the history and every other position as they were, creates and removes no
    position, and changes in the position it names only the keys it writes:
    current_sl (and sl_order_id when one is given) for update_sl,
    final_target for update_target, targets for update_targets (the final
    target stays as it was), and so on; the key named by the caller for
    set_target_hit_flag. On an id that is not monitored nothing changes. *)
Theorem mutator_frame m order_id st b st' :
  mutate m order_id st = Ok (b, st') ->
  position_history st' = position_history st
  /\ (forall o, o <> order_id -> active_positions st' !! o = active_positions st !! o)
  /\ (forall p, active_positions st !! order_id = Some p ->
        exists p', active_positions st' !! order_id = Some p'
                   /\ forall k, ~ In k (written m) -> p' !! k = p !! k)
  /\ (active_positions st !! order_id = None -> b = false /\ st' = st).
Proof. apply mutate_frame. Qed.

Lemma mutator_frame_witness :
  exists b st',
    mutate (UpdateTargets (VList [VFloat 130; VFloat 140])) "ENTRY_ORDER_123"
      Examples.long_monitor = Ok (b, st')
    /\ position_history st' = position_history Examples.long_monitor.
Proof.
  destruct (add_position_lookup 1000000%Z "ENTRY_ORDER_123" (VStr "NIFTY23DEC21000CE")
    (VStr "NFO") (VStr "BUY") (VInt 50) (VFloat 100) (VFloat 90) [120%float]
    {[ "product" := VStr "MIS" ]} (VStr "aravind") (VStr "MIS") Examples.empty_monitor)
    as (p & Hp & _).
  assert (E : mutate (UpdateTargets (VList [VFloat 130; VFloat 140])) "ENTRY_ORDER_123"
                Examples.long_monitor
              = Ok (true, set_active "ENTRY_ORDER_123"
                            (<["targets" := VList [VFloat 130; VFloat 140]]> p)
                            Examples.long_monitor)).
  { cbn [mutate]. unfold update_targets. apply assign_present. exact Hp. }
  eexists _, _. split; [exact E|].
  apply (mutator_frame _ _ _ _ _ E).
Defined.

(** ** The keys of a position *)

Lemma carries_set_active K order_id p st :
  carries K st -> Forall (fun k => is_Some (p !! k)) K ->
  carries K (set_active order_id p st).
Proof.
  intros Hst Hp oid q. unfold set_active. cbn [active_positions].
  destruct (decide (order_id = oid)) as [->|Hne].
  - rewrite lookup_insert_eq. intros [= <-]. exact Hp.
  - rewrite lookup_insert_ne by exact Hne. apply Hst.
Qed.

Lemma Forall_insert_other K (p : dict) key v :
  Forall (fun k => is_Some (p !! k)) K ->
  Forall (fun k => is_Some (<[key := v]> p !! k)) K.
Proof.
  intros H. eapply List.Forall_impl; [|exact H].
  intros k Hk. apply is_Some_insert_other. exact Hk.
Qed.

(* a mutator takes no key away *)
Lemma mutate_carries K m order_id st b st' :
  mutate m order_id st = Ok (b, st') -> carries K st -> carries K st'.
Proof.
  intros E Hst.
  destruct (active_positions st !! order_id) as [p|] eqn:Hp.
  2:{ rewrite (mutate_absent _ _ _ Hp) in E. injection E as _ <-. exact Hst. }
  destruct m;
    try (cbn [mutate] in E;
         unfold update_target, update_targets, update_t3_timer, update_status,
           update_sl_order_id, update_quantity, mark_t1_exit_done,
           update_remaining_quantity, set_target_hit_flag, disable_trailing,
           enable_trailing in E;
         rewrite (assign_present _ _ _ _ _ Hp) in E;
         injection E as _ <-; apply carries_set_active;
         [exact Hst | apply Forall_insert_other, (Hst _ _ Hp)]).
  - cbn [mutate] in E. unfold update_sl in E. rewrite Hp in E.
    destruct (p !! "current_sl"); [|discriminate E].
    injection E as _ <-. apply carries_set_active; [exact Hst|].
    destruct (truthy sl_order_id); repeat apply Forall_insert_other; apply (Hst _ _ Hp).
  - cbn [mutate] in E. unfold update_highest_price in E. rewrite Hp in E.
    destruct (p !! "highest_price") as [h|]; [|discriminate E].
    destruct (float_gt current_price h) as [[]|]; try discriminate E;
      injection E as _ <-; [|exact Hst].
    apply carries_set_active; [exact Hst|].
    apply Forall_insert_other, (Hst _ _ Hp).
Qed.

Lemma add_position_keys now order_id symbol exchange action quantity entry_price
    stop_loss targets signal_data username product st :
  exists p,
    active_positions
      (add_position now order_id symbol exchange action quantity entry_price stop_loss
         targets signal_data username product st) !! order_id = Some p
    /\ Forall (fun k => is_Some (p !! k)) (common_keys ++ added_keys).
Proof.
  eexists. split.
  - unfold add_position, set_active. cbn [active_positions]. apply lookup_insert_eq.
  - repeat constructor; eexists; reflexivity.
Qed.

Lemma run_call_carries_common st c :
  carries common_keys st -> carries common_keys (run_call st c).
Proof.
  intros Hst. destruct c; cbn [run_call].
  - destruct (add_position_keys now order_id symbol exchange action quantity entry_price
                stop_loss targets signal_data username product st) as (p & Hp & Hk).
    unfold add_position in *. unfold set_active in Hp at 1. cbn [active_positions] in Hp.
    rewrite lookup_insert_eq in Hp. injection Hp as Hp. rewrite Hp.
    apply carries_set_active; [exact Hst|].
    apply List.Forall_app in Hk as [Hk _]. exact Hk.
  - destruct (mutate m order_id st) as [[b st']|e] eqn:E; [|exact Hst].
    eapply mutate_carries; eassumption.
  - intros oid q. unfold remove_position.
    destruct (active_positions st !! order_id); cbn [snd active_positions]; [|apply Hst].
    destruct (decide (order_id = oid)) as [->|Hne].
    + rewrite lookup_delete_eq. discriminate.
    + rewrite lookup_delete_ne by exact Hne. apply Hst.
Qed.

(* the position the restore builds for a row *)
Lemma restore_row_shape now orders pos order_id p :
  restore_row now orders pos = Ok (Some (order_id, p)) ->
  stale now pos = false
  /\ order_id = "SANDBOX_" +:+ str_of_Z (sp_id pos)
  /\ exists signal_data sl sl_order_id targets final_target entry,
       restore_sl orders pos signal_data = Ok (sl, sl_order_id)
       /\ restore_targets signal_data = Ok (targets, final_target)
       /\ py_float (sp_average_price pos) = Ok entry
       /\ p = mk_dict
           [("order_id", VStr order_id);
            ("symbol", VStr (sp_symbol pos));
            ("exchange", VStr (sp_exchange pos));
            ("action", VStr (row_action pos));
            ("quantity", VInt (Z.abs (sp_quantity pos)));
            ("entry_price", VFloat entry);
            ("current_sl", VFloat sl);
            ("original_sl", VFloat sl);
            ("final_target", VFloat final_target);
            ("targets", targets);
            ("signal_data", signal_data);
            ("username", VStr (sp_user_id pos));
            ("product", VStr (sp_product pos));
            ("sl_order_id", sl_order_id);
            ("trailing_enabled", VBool true);
            ("highest_price", VFloat entry);
            ("t1_exit_done", VBool false)].
Proof.
  unfold restore_row, stale. intros H.
  destruct (match sp_created_at pos with Some _ => _ | None => _ end); [discriminate|].
  split; [reflexivity|].
  apply bind_Ok in H as (signal_data & _ & H). cbn beta zeta in H.
  apply bind_Ok in H as ([sl sl_order_id] & Hsl & H). cbn beta iota zeta in H.
  apply bind_Ok in H as ([targets final_target] & Htg & H). cbn beta iota in H.
  apply bind_Ok in H as (entry & He & H). cbn beta in H.
  injection H as <- <-. split; [reflexivity|].
  exists signal_data, sl, sl_order_id, targets, final_target, entry.
  repeat split; assumption.
Qed.

Lemma restore_row_stale now orders pos :
  stale now pos = true <-> restore_row now orders pos = Ok None.
Proof.
  unfold restore_row, stale.
  destruct (match sp_created_at pos with Some _ => _ | None => _ end);
    [split; reflexivity|].
  split; [discriminate|]. intros H. exfalso.
  apply bind_Ok in H as (signal_data & _ & H). cbn beta zeta in H.
  apply bind_Ok in H as ([sl sl_order_id] & _ & H). cbn beta iota zeta in H.
  apply bind_Ok in H as ([targets final_target] & _ & H). cbn beta iota in H.
  apply bind_Ok in H as (entry & _ & H). discriminate H.
Qed.

Lemma restore_step_carries_common now orders acc pos :
  carries common_keys acc.1 -> carries common_keys (restore_step now orders acc pos).1.
Proof.
  destruct acc as [st ledger]. cbn [fst]. intros Hst. unfold restore_step.
  destruct (sp_quantity pos =? 0)%Z; [exact Hst|].
  destruct (restore_row now orders pos) as [[[oid p]|]|] eqn:E; cbn [fst]; try exact Hst.
  apply carries_set_active; [exact Hst|].
  apply restore_row_shape in E
    as (_ & _ & sd & sl & id & tg & ft & en & _ & _ & _ & ->).
  repeat constructor; eexists; reflexivity.
Qed.

(** X11. The keys every monitored position has. From the construction of the
    monitor on, whatever calls are made, every active position has the
    seventeen keys that [add_position] and the restore both set (order_id,
    symbol, exchange, action, quantity, entry_price, current_sl, original_sl,
    final_target, targets, signal_data, username, product, sl_order_id,
    trailing_enabled, highest_price, t1_exit_done): no call takes a key
    away. A position made by [add_position] has eight more (status,
    created_at, original_quantity, remaining_quantity, t1_hit, t2_hit,
    t3_hit, t3_plus_10_start_time); a position the restore has just built
    has none of these eight. *)
Theorem positions_keys :
  (forall analyze_mode now ledger orders cs,
     carries common_keys (run_calls cs (init analyze_mode now ledger orders).1))
  /\ (forall now order_id symbol exchange action quantity entry_price stop_loss targets
             signal_data username product st,
        exists p,
          active_positions
            (add_position now order_id symbol exchange action quantity entry_price
               stop_loss targets signal_data username product st) !! order_id = Some p
          /\ Forall (fun k => is_Some (p !! k)) (common_keys ++ added_keys))
  /\ (forall now orders pos order_id p,
        restore_row now orders pos = Ok (Some (order_id, p)) ->
        Forall (fun k => is_Some (p !! k)) common_keys
        /\ Forall (fun k => p !! k = None) added_keys).
Proof.
  split; [|split].
  - intros.
    assert (H0 : carries common_keys (init analyze_mode now ledger orders).1).
    { unfold init, restore_from_sandbox. destruct analyze_mode.
      - assert (H : forall l acc, carries common_keys acc.1 ->
                      carries common_keys (fold_left (restore_step now orders) l acc).1).
        { induction l as [|pos l IH]; intros acc Hacc; cbn [fold_left]; [exact Hacc|].
          apply IH, restore_step_carries_common, Hacc. }
        apply H. intros oid p. cbn [fst active_positions]. rewrite lookup_empty.
        discriminate.
      - intros oid p. cbn [fst active_positions]. rewrite lookup_empty. discriminate. }
    unfold run_calls. revert H0. generalize (init analyze_mode now ledger orders).1.
    induction cs as [|c cs IH]; intros st Hst; cbn [fold_left]; [exact Hst|].
    apply IH, run_call_carries_common, Hst.
  - intros. apply add_position_keys.
  - intros now orders pos order_id p H.
    apply restore_row_shape in H
      as (_ & _ & sd & sl & id & tg & ft & en & _ & _ & _ & ->).
    split; repeat constructor; try (eexists; reflexivity).
Qed.

Lemma positions_keys_witness :
  Forall (fun k => is_Some (Examples.long_restored !! k)) common_keys
  /\ Forall (fun k => Examples.long_restored !! k = None) added_keys.
Proof.
  apply (proj2 (proj2 positions_keys) 0%Z [Examples.open_sl_order] Examples.long_row
           "SANDBOX_1" Examples.long_restored).
  by_eval.
Defined.

(** ** The history *)

Lemma Forall_tl {A} (P : A -> Prop) (l : list A) : Forall P l -> Forall P (List.tl l).
Proof. intros H. destruct H; [constructor | assumption]. Qed.

Lemma run_call_history_closed st c :
  Forall closed (position_history st) -> Forall closed (position_history (run_call st c)).
Proof.
  intros H. destruct c; cbn [run_call].
  - exact H.
  - destruct (mutate m order_id st) as [[b st']|e] eqn:E; [|exact H].
    rewrite (mutate_history _ _ _ _ _ E). exact H.
  - unfold remove_position.
    destruct (active_positions st !! order_id) as [p|]; cbn [snd position_history];
      [|exact H].
    assert (Hc : Forall closed
                   (position_history st
                    ++ [<["closed_at" := VTime now]> (<["status" := reason]> p)])).
    { apply List.Forall_app. split; [exact H|]. constructor; [|constructor].
      split.
      - rewrite lookup_insert_ne by discriminate. rewrite lookup_insert_eq. eauto.
      - exists now. apply lookup_insert_eq. }
    destruct (Nat.ltb _ _); [apply Forall_tl|]; exact Hc.
Qed.

(** X12. The history holds closed positions only. From the construction of
    the monitor on, whatever calls are made, every entry of the history has a
    status and a closed_at time: entries get there through [remove_position]
    alone, and no mutator reaches them. *)
Theorem history_holds_closed analyze_mode now ledger orders cs :
  Forall closed (position_history (run_calls cs (init analyze_mode now ledger orders).1)).
Proof.
  assert (H0 : Forall closed (position_history (init analyze_mode now ledger orders).1)).
  { unfold init. rewrite restore_history. constructor. }
  unfold run_calls. revert H0. generalize (init analyze_mode now ledger orders).1.
  induction cs as [|c cs IH]; intros st Hst; cbn [fold_left]; [exact Hst|].
  apply IH, run_call_history_closed, Hst.
Qed.

(** ** The restore *)

(* what the restore does to a row of the ledger *)
Lemma restore_step_ledger now orders st ledger pos :
  (restore_step now orders (st, ledger) pos).2
  = ledger ++ [if negb (sp_quantity pos =? 0)%Z && stale now pos
               then expire now pos else pos].
Proof.
  unfold restore_step. destruct (sp_quantity pos =? 0)%Z; [reflexivity|].
  cbn [negb andb].
  destruct (stale now pos) eqn:Es.
  - apply (restore_row_stale now orders) in Es. rewrite Es. reflexivity.
  - destruct (restore_row now orders pos) as [[[oid p]|]|] eqn:E; try reflexivity.
    apply restore_row_stale in E. congruence.
Qed.

(* and to the monitor *)
Lemma restore_step_monitor now orders st ledger pos :
  (restore_step now orders (st, ledger) pos).1
  = if (sp_quantity pos =? 0)%Z then st
    else match restore_row now orders pos with
         | Ok (Some (order_id, pos_data)) => set_active order_id pos_data st
         | _ => st
         end.
Proof.
  unfold restore_step. destruct (sp_quantity pos =? 0)%Z; [reflexivity|].
  destruct (restore_row now orders pos) as [[[oid p]|]|]; reflexivity.
Qed.

Lemma restore_fold_ledger now orders l acc :
  (fold_left (restore_step now orders) l acc).2
  = acc.2 ++ map (fun pos => if negb (sp_quantity pos =? 0)%Z && stale now pos
                             then expire now pos else pos) l.
Proof.
  revert acc. induction l as [|pos l IH]; intros [st ledger]; cbn [fold_left map snd].
  - rewrite app_nil_r. reflexivity.
  - rewrite IH.
    destruct (restore_step now orders (st, ledger) pos) as [st1 ledger1] eqn:E.
    pose proof (restore_step_ledger now orders st ledger pos) as H.
    rewrite E in H. cbn [snd] in *. rewrite H. rewrite <- app_assoc. reflexivity.
Qed.

Lemma restore_fold_monitor now orders l acc order_id p :
  active_positions (fold_left (restore_step now orders) l acc).1 !! order_id = Some p ->
  active_positions acc.1 !! order_id = Some p
  \/ exists pos, In pos l /\ sp_quantity pos <> 0%Z /\ stale now pos = false
                 /\ order_id = "SANDBOX_" +:+ str_of_Z (sp_id pos)
                 /\ restore_row now orders pos = Ok (Some (order_id, p)).
Proof.
  revert acc. induction l as [|pos l IH]; intros [st ledger]; cbn [fold_left fst].
  - intros H. left. exact H.
  - intros H. apply IH in H as [H|(pos' & Hin & H)].
    + destruct (restore_step now orders (st, ledger) pos) as [st1 ledger1] eqn:E.
      pose proof (restore_step_monitor now orders st ledger pos) as Hm.
      rewrite E in Hm. cbn [fst] in *. subst st1.
      destruct (sp_quantity pos =? 0)%Z eqn:Eq; [left; exact H|].
      destruct (restore_row now orders pos) as [[[oid q]|]|] eqn:Er;
        try (left; exact H).
      cbn [set_active active_positions] in H.
      destruct (decide (oid = order_id)) as [->|Hne].
      * rewrite lookup_insert_eq in H. injection H as ->.
        right. exists pos. split; [left; reflexivity|].
        pose proof (restore_row_shape _ _ _ _ _ Er) as (Hs & Ho & _).
        repeat split; try assumption. apply Z.eqb_neq. exact Eq.
      * rewrite lookup_insert_ne in H by exact Hne. left. exact H.
    + right. exists pos'. split; [right; exact Hin | exact H].
Qed.

(** X13. What the restore at start-up does. With analyze mode off it
    restores nothing and leaves the ledger alone. With analyze mode on it
    closes in the ledger exactly the open rows created on an earlier day
    (quantity set to 0, updated_at to now) and changes no other row; and
    every position it puts into the monitor comes from an open row of today
    (or with no creation time), under the order id "SANDBOX_" followed by the
    row's id. *)
Theorem restore_closes_stale_rows now ledger orders st :
  restore_from_sandbox false now ledger orders st = (st, ledger)
  /\ (restore_from_sandbox true now ledger orders st).2
     = map (fun pos => if negb (sp_quantity pos =? 0)%Z && stale now pos
                       then expire now pos else pos) ledger
  /\ (forall order_id p,
        active_positions (restore_from_sandbox true now ledger orders st).1 !! order_id
          = Some p ->
        active_positions st !! order_id = Some p
        \/ exists pos, In pos ledger /\ sp_quantity pos <> 0%Z /\ stale now pos = false
                       /\ order_id = "SANDBOX_" +:+ str_of_Z (sp_id pos)
                       /\ restore_row now orders pos = Ok (Some (order_id, p))).
Proof.
  split; [reflexivity|]. split.
  - unfold restore_from_sandbox. rewrite restore_fold_ledger. reflexivity.
  - intros order_id p H. unfold restore_from_sandbox in H.
    apply restore_fold_monitor in H. exact H.
Qed.

Lemma restore_fold_again now orders l st ledger1 ledger2 :
  (fold_left (restore_step now orders)
     (map (fun pos => if negb (sp_quantity pos =? 0)%Z && stale now pos
                      then expire now pos else pos) l) (st, ledger2)).1
  = (fold_left (restore_step now orders) l (st, ledger1)).1.
Proof.
  revert st ledger1 ledger2.
  induction l as [|pos l IH]; intros st ledger1 ledger2; cbn [fold_left map];
    [reflexivity|].
  destruct (restore_step now orders (st, ledger1) pos) as [st1 l1] eqn:E1.
  destruct (restore_step now orders (st, ledger2)
              (if negb (sp_quantity pos =? 0)%Z && stale now pos
               then expire now pos else pos)) as [st2 l2] eqn:E2.
  assert (Hst : st2 = st1).
  { pose proof (restore_step_monitor now orders st ledger1 pos) as H1.
    pose proof (restore_step_monitor now orders st ledger2
                  (if negb (sp_quantity pos =? 0)%Z && stale now pos
                   then expire now pos else pos)) as H2.
    rewrite E1 in H1. rewrite E2 in H2. cbn [fst] in *. subst st1 st2.
    destruct (sp_quantity pos =? 0)%Z eqn:Eq; cbn [negb andb].
    - rewrite Eq. reflexivity.
    - destruct (stale now pos) eqn:Es.
      + cbn [expire sp_quantity Z.eqb].
        apply (restore_row_stale now orders) in Es. rewrite Es. reflexivity.
      + rewrite Eq. reflexivity. }
  subst st2. apply IH.
Qed.

(** X14. Restoring twice is restoring once. A second restore, at the same
    time and from the ledger the first one left, builds the same monitor and
    leaves that ledger as it is: the rows the first restore closed are no
    longer open, and the others are read as before. *)
Theorem restore_twice now ledger orders :
  let r := init true now ledger orders in
  init true now r.2 orders = r.
Proof.
  cbv zeta. unfold init.
  unfold restore_from_sandbox.
  set (st0 := {| active_positions := ∅; position_history := [] |}).
  set (f := fun pos => if negb (sp_quantity pos =? 0)%Z && stale now pos
                       then expire now pos else pos).
  assert (H2 : (fold_left (restore_step now orders) ledger (st0, [])).2 = map f ledger).
  { rewrite restore_fold_ledger. reflexivity. }
  rewrite H2.
  apply injective_projections.
  - apply (restore_fold_again now orders ledger st0 [] []).
  - rewrite restore_fold_ledger. cbn [snd app]. rewrite H2.
    rewrite map_map. apply map_ext. intros pos. unfold f.
    destruct (sp_quantity pos =? 0)%Z eqn:Eq; cbn [negb andb].
    + rewrite Eq. reflexivity.
    + destruct (stale now pos) eqn:Es; [reflexivity|].
      rewrite Eq, Es. reflexivity.
Qed.

End MonitorProps.

(** * Further properties of the classifier *)

Module ClassifierProps.
Import Py Re SignalClassifier ClassifierFacts.
Local Open Scope Z_scope.

(** ** The confidence *)

Lemma ltb_leb (a b : float) : (a <? b)%float = true -> (a <=? b)%float = true.
Proof.
  rewrite FloatAxioms.ltb_spec, FloatAxioms.leb_spec.
  unfold SFltb, SFleb. destruct (SFcompare _ _) as [[]|]; congruence.
Qed.

(* the clamp of the confidence *)
Lemma clamp_unit (x : float) :
  (0 <=? min2 1 (max2 0 x))%float = true /\ (min2 1 (max2 0 x) <=? 1)%float = true.
Proof.
  unfold min2, max2.
  destruct (0 <? x)%float eqn:E0.
  - destruct (x <? 1)%float eqn:E1.
    + split; apply ltb_leb; assumption.
    + split; reflexivity.
  - change (0 <? 1)%float with true. cbv iota. split; reflexivity.
Qed.

Lemma confidence_unit sc :
  (0 <=? confidence_of sc)%float = true /\ (confidence_of sc <=? 1)%float = true.
Proof. unfold confidence_of. apply clamp_unit. Qed.

(* the confidence of a downgraded signal *)
Lemma halved_unit sc :
  20 <= sc <= 320 ->
  (0 <=? confidence_of sc * 0.5)%float = true
  /\ (confidence_of sc * 0.5 <=? 0.5)%float = true.
Proof.
  intros H.
  assert (E : forallb (fun n => (0 <=? confidence_of (20 + Z.of_nat n) * 0.5)%float
                                && (confidence_of (20 + Z.of_nat n) * 0.5 <=? 0.5)%float)
                (seq 0 301) = true) by (vm_compute; reflexivity).
  rewrite forallb_forall in E.
  specialize (E (Z.to_nat (sc - 20))).
  replace (20 + Z.of_nat (Z.to_nat (sc - 20))) with sc in E by lia.
  apply andb_true_iff. apply E. apply in_seq. lia.
Qed.

(* the action the keyword scan finds *)
Lemma action_step_action text_lower acc kw :
  (acc.2 = None \/ acc.2 = Some "BUY" \/ acc.2 = Some "SELL") ->
  (action_step text_lower acc kw).2 = None
  \/ (action_step text_lower acc kw).2 = Some "BUY"
  \/ (action_step text_lower acc kw).2 = Some "SELL".
Proof.
  destruct acc as [sc action_found], kw as [keyword weight]. cbn [snd].
  intros H. unfold action_step.
  destruct (keyword_found keyword text_lower); cbn [snd]; [|exact H].
  destruct action_found as [a|]; [exact H|].
  cbn [existsb].
  destruct (String.eqb_spec keyword "buy") as [->|]; [right; left; reflexivity|].
  destruct (String.eqb_spec keyword "sell") as [->|]; [right; right; reflexivity|].
  destruct (String.eqb_spec keyword "long") as [->|]; [right; left; reflexivity|].
  destruct (String.eqb_spec keyword "short") as [->|]; [right; right; reflexivity|].
  left. reflexivity.
Qed.

Lemma action_scan_action text_lower :
  (action_scan text_lower).2 = None
  \/ (action_scan text_lower).2 = Some "BUY"
  \/ (action_scan text_lower).2 = Some "SELL".
Proof.
  unfold action_scan.
  assert (H : forall l acc,
             (acc.2 = None \/ acc.2 = Some "BUY" \/ acc.2 = Some "SELL") ->
             (fold_left (action_step text_lower) l acc).2 = None
             \/ (fold_left (action_step text_lower) l acc).2 = Some "BUY"
             \/ (fold_left (action_step text_lower) l acc).2 = Some "SELL").
  { induction l as [|kw l IH]; intros acc Hacc; cbn [fold_left]; [exact Hacc|].
    apply IH, action_step_action, Hacc. }
  apply H. left. reflexivity.
Qed.

(** ** The fields of the extraction *)

Lemma set_opt_lookup k v data k' :
  k' <> k -> set_opt k v data !! k' = data !! k'.
Proof.
  intros H. destruct v; cbn [set_opt]; [|reflexivity].
  rewrite lookup_insert_ne by congruence. reflexivity.
Qed.

Lemma extract_symbol_lookup valid_symbols text data k :
  k <> "symbol" -> extract_symbol valid_symbols text data !! k = data !! k.
Proof.
  intros H. unfold extract_symbol.
  repeat match goal with
         | |- context [match ?x with _ => _ end] => destruct x
         end;
    repeat first [rewrite lookup_insert_ne by congruence
                 | rewrite set_opt_lookup by exact H]; reflexivity.
Qed.

Lemma extract_option_lookup text data k :
  k <> "strike" -> k <> "option_type" -> extract_option text data !! k = data !! k.
Proof.
  intros H1 H2. unfold extract_option.
  destruct (search true option_pattern text), (search false strike_pattern text);
    repeat rewrite lookup_insert_ne by congruence; reflexivity.
Qed.

Lemma extract_option_type text data :
  data !! "option_type" = None ->
  extract_option text data !! "option_type" = None
  \/ extract_option text data !! "option_type" = Some (VStr "CE")
  \/ extract_option text data !! "option_type" = Some (VStr "PE").
Proof.
  intros H. unfold extract_option.
  destruct (search true option_pattern text) as [m|].
  - rewrite lookup_insert_eq. destruct (existsb _ _); tauto.
  - left. destruct (search false strike_pattern text);
      [rewrite lookup_insert_ne by discriminate|]; exact H.
Qed.

Lemma extract_expiry_lookup text data k :
  k <> "expiry" -> extract_expiry text data !! k = data !! k.
Proof.
  intros H. unfold extract_expiry.
  destruct (search true specific_expiry_pattern text);
    [|destruct (search true month_expiry_pattern text)];
    repeat rewrite lookup_insert_ne by congruence; reflexivity.
Qed.

Lemma extract_price_lookup text data k :
  k <> "price" -> k <> "condition" -> extract_price text data !! k = data !! k.
Proof.
  intros H1 H2. unfold extract_price.
  repeat match goal with
         | |- context [match ?x with _ => _ end] => destruct x
         | |- context [if ?x then _ else _] => destruct x
         end;
    repeat first [rewrite lookup_insert_ne by congruence
                 | rewrite set_opt_lookup by exact H1]; reflexivity.
Qed.

Lemma extract_price_condition text data c :
  data !! "condition" = None ->
  extract_price text data !! "condition" = Some c ->
  is_Some (extract_price text data !! "price")
  /\ In c (map VStr ["above"; "below"; "around"; "near"; "at"; "@"]).
Proof.
  intros Hn. unfold extract_price.
  destruct (search true entry_pattern text) as [m|].
  - destruct (existsb (String.eqb (lower (default "" (group m 1)))) _) eqn:E.
    + assert (Hp : <["condition" := VStr (lower (default "" (group m 1)))]>
                     (<["price" := VStr (default "" (group m 2))]> data) !! "price"
                   = Some (VStr (default "" (group m 2))))
        by (rewrite lookup_insert_ne by discriminate; apply lookup_insert_eq).
      rewrite Hp. intros H. rewrite lookup_insert_eq in H. injection H as <-.
      split; [rewrite Hp; eauto|].
      apply in_map. apply existsb_exists in E as (x & Hin & Hx).
      apply String.eqb_eq in Hx. subst x. exact Hin.
    + rewrite lookup_insert_eq. intros H.
      rewrite lookup_insert_ne in H by discriminate.
      rewrite Hn in H. discriminate H.
  - destruct (data !! "price") eqn:Ep.
    + rewrite Hn. discriminate.
    + rewrite set_opt_lookup by discriminate. rewrite Hn. discriminate.
Qed.

Lemma extract_sl_lookup text data k :
  k <> "sl" -> k <> "stop_loss" -> extract_sl text data !! k = data !! k.
Proof.
  intros H1 H2. unfold extract_sl. destruct (search true sl_pattern text); [|reflexivity].
  repeat rewrite lookup_insert_ne by congruence. reflexivity.
Qed.

Lemma extract_sl_both text data :
  data !! "sl" = data !! "stop_loss" ->
  extract_sl text data !! "sl" = extract_sl text data !! "stop_loss".
Proof.
  intros H. unfold extract_sl. destruct (search true sl_pattern text); [|exact H].
  rewrite lookup_insert_eq. rewrite lookup_insert_ne by discriminate.
  rewrite lookup_insert_eq. reflexivity.
Qed.

(* the targets the extraction settles on *)
Lemma dedup_spec seen l :
  List.NoDup (dedup seen l)
  /\ (forall x, In x (dedup seen l) -> In x l /\ ~ In x seen).
Proof.
  revert seen. induction l as [|x l IH]; intros seen; cbn [dedup].
  - split; [constructor | intros x []].
  - destruct (existsb (String.eqb x) seen) eqn:E.
    + destruct (IH seen) as [H1 H2]. split; [exact H1|].
      intros y Hy. destruct (H2 y Hy). split; [right|]; assumption.
    + destruct (IH (x :: seen)) as [H1 H2]. split.
      * constructor; [|exact H1]. intros Hin. apply H2 in Hin as [_ Hin].
        apply Hin. left. reflexivity.
      * intros y [<-|Hy].
        { split; [left; reflexivity|]. intros Hin.
          apply not_true_iff_false in E. apply E. apply existsb_exists.
          exists x. split; [exact Hin | apply String.eqb_refl]. }
        { destruct (H2 y Hy) as [Ha Hb]. split; [right; exact Ha|].
          intros Hin. apply Hb. right. exact Hin. }
Qed.

Lemma keep_target_float data t :
  keep_target data t = true ->
  exists x, float_of_string t = Some x /\ (5 <? x)%float = true.
Proof.
  unfold keep_target. cbn [py_float].
  destruct (float_of_string t) as [x|]; [|discriminate].
  destruct (py_float (get_or data "price" (VInt 0))); [|discriminate].
  destruct (py_float (get_or data "sl" (VInt 0))); [|discriminate].
  intros H. apply andb_true_iff in H as [_ H]. eauto.
Qed.

Lemma extract_targets_lookup text data k :
  k <> "targets" -> k <> "tgt" -> extract_targets text data !! k = data !! k.
Proof.
  intros H1 H2. unfold extract_targets.
  repeat match goal with
         | |- context [match ?x with _ => _ end] => destruct x
         | |- context [if ?x then _ else _] => destruct x
         end;
    repeat rewrite lookup_insert_ne by congruence; reflexivity.
Qed.

Lemma extract_targets_spec text data :
  data !! "targets" = None -> data !! "tgt" = None ->
  (extract_targets text data !! "targets" = None
   /\ extract_targets text data !! "tgt" = None)
  \/ (exists ts,
        extract_targets text data !! "targets" = Some (VList (map VStr ts))
        /\ is_Some (extract_targets text data !! "tgt")
        /\ ts <> [] /\ List.NoDup ts
        /\ Forall (fun t => exists x, float_of_string t = Some x /\ (5 <? x)%float = true)
             ts).
Proof.
  intros Hn1 Hn2. unfold extract_targets.
  set (section :=
         match search true target_section_pattern text with
         | Some m => List.filter (keep_target data)
                       (findall false number (default "" (group m 1)))
         | None => []
         end).
  set (candidates :=
         match section with
         | [] => List.filter (keep_target data) (findall1 true single_target_pattern text)
         | _ => section
         end).
  assert (Hc : Forall (fun t => keep_target data t = true) candidates).
  { unfold candidates, section.
    destruct (search true target_section_pattern text) as [m|].
    - destruct (List.filter (keep_target data)
                  (findall false number (default "" (group m 1)))) eqn:E.
      + apply List.Forall_forall. intros t Ht. apply filter_In in Ht as [_ Ht]. exact Ht.
      + rewrite <- E. apply List.Forall_forall. intros t Ht.
        apply filter_In in Ht as [_ Ht]. exact Ht.
    - apply List.Forall_forall. intros t Ht. apply filter_In in Ht as [_ Ht]. exact Ht. }
  destruct (dedup_spec [] candidates) as [Hnd Hin].
  destruct (dedup [] candidates) as [|t ts] eqn:Ed.
  - left. split; assumption.
  - right. exists (t :: ts).
    assert (Hf : Forall (fun t => exists x, float_of_string t = Some x
                                            /\ (5 <? x)%float = true) (t :: ts)).
    { apply List.Forall_forall. intros y Hy. apply Hin in Hy as [Hy _].
      rewrite List.Forall_forall in Hc. eapply keep_target_float. apply Hc. exact Hy. }
    destruct (all_floats (t :: ts)) as [[|x nums]|];
      [| destruct (is_str _ "SELL") |];
      rewrite lookup_insert_ne by discriminate; rewrite !lookup_insert_eq;
      (split; [reflexivity|]); (split; [eauto|]); (split; [discriminate|]);
      (split; [exact Hnd | exact Hf]).
Qed.

(* the action is the one handed in, when it is not empty *)
Lemma extracted_action valid_symbols text action :
  _extract_signal_data valid_symbols text action !! "action"
  = match action with
    | Some a => if String.eqb a "" then None else Some (VStr a)
    | None => None
    end.
Proof.
  unfold _extract_signal_data.
  rewrite extract_targets_lookup by discriminate.
  rewrite extract_sl_lookup by discriminate.
  rewrite extract_price_lookup by discriminate.
  rewrite extract_expiry_lookup by discriminate.
  rewrite extract_option_lookup by discriminate.
  rewrite extract_symbol_lookup by discriminate.
  destruct action as [a|]; [destruct (String.eqb a "")|];
    first [apply lookup_insert_eq | apply lookup_empty].
Qed.

(** X15. What [_extract_signal_data] can return, whatever the text. The
    action is the one handed in, and there is no 'action' when it is None or
    the empty text; 'sl' and 'stop_loss' are both absent or both
    present with the same value; option_type, when present, is 'CE' or 'PE';
    a condition is one of above, below, around, near, at, @ and comes with a
    price; 'targets' and 'tgt' come together, and the targets are a
    non-empty list of distinct numerals, each above 5; and no key other than
    action, symbol, strike, option_type, expiry, price, condition, sl,
    stop_loss, targets and tgt is ever set (so never 'quantity'). *)
Theorem extracted_fields valid_symbols text action :
  let d := _extract_signal_data valid_symbols text action in
  (forall a, action = Some a -> a <> "" -> d !! "action" = Some (VStr a))
  /\ (action = None \/ action = Some "" -> d !! "action" = None)
  /\ d !! "sl" = d !! "stop_loss"
  /\ (d !! "option_type" = None \/ d !! "option_type" = Some (VStr "CE")
      \/ d !! "option_type" = Some (VStr "PE"))
  /\ (forall c, d !! "condition" = Some c ->
        is_Some (d !! "price")
        /\ In c (map VStr ["above"; "below"; "around"; "near"; "at"; "@"]))
  /\ (is_Some (d !! "targets") <-> is_Some (d !! "tgt"))
  /\ (forall v, d !! "targets" = Some v ->
        exists ts, v = VList (map VStr ts) /\ ts <> [] /\ List.NoDup ts
          /\ Forall (fun t => exists x, float_of_string t = Some x
                                        /\ (5 <? x)%float = true) ts)
  /\ (forall k, is_Some (d !! k) ->
        In k ["action"; "symbol"; "strike"; "option_type"; "expiry"; "price";
              "condition"; "sl"; "stop_loss"; "targets"; "tgt"]).
Proof.
  cbv zeta. unfold _extract_signal_data.
  set (d0 := match action with
              | Some a => if String.eqb a "" then ∅ else <["action" := VStr a]> ∅
              | None => ∅
              end).
  set (d1 := extract_symbol valid_symbols text d0).
  set (d2 := extract_option text d1).
  set (d3 := extract_expiry text d2).
  set (d4 := extract_price text d3).
  set (d5 := extract_sl text d4).
  assert (L0 : forall k, k <> "action" -> d0 !! k = None).
  { intros k Hk. unfold d0. destruct action as [a|]; [destruct (String.eqb a "")|];
      rewrite ?lookup_insert_ne by congruence; apply lookup_empty. }
  assert (L1 : forall k, k <> "action" -> k <> "symbol" -> d1 !! k = None).
  { intros k H1 H2. unfold d1. rewrite extract_symbol_lookup by exact H2. apply L0, H1. }
  assert (L2 : forall k, k <> "action" -> k <> "symbol" -> k <> "strike" ->
                 k <> "option_type" -> d2 !! k = None).
  { intros k H1 H2 H3 H4. unfold d2. rewrite extract_option_lookup by assumption.
    apply L1; assumption. }
  assert (L3 : forall k, k <> "action" -> k <> "symbol" -> k <> "strike" ->
                 k <> "option_type" -> k <> "expiry" -> d3 !! k = None).
  { intros k H1 H2 H3 H4 H5. unfold d3. rewrite extract_expiry_lookup by assumption.
    apply L2; assumption. }
  assert (L4 : forall k, k <> "action" -> k <> "symbol" -> k <> "strike" ->
                 k <> "option_type" -> k <> "expiry" -> k <> "price" ->
                 k <> "condition" -> d4 !! k = None).
  { intros k H1 H2 H3 H4 H5 H6 H7. unfold d4. rewrite extract_price_lookup by assumption.
    apply L3; assumption. }
  assert (L5 : forall k, k <> "action" -> k <> "symbol" -> k <> "strike" ->
                 k <> "option_type" -> k <> "expiry" -> k <> "price" ->
                 k <> "condition" -> k <> "sl" -> k <> "stop_loss" -> d5 !! k = None).
  { intros k H1 H2 H3 H4 H5 H6 H7 H8 H9. unfold d5.
    rewrite extract_sl_lookup by assumption. apply L4; assumption. }
  pose proof (extracted_action valid_symbols text action) as Ha.
  unfold _extract_signal_data in Ha.
  fold d0 in Ha. fold d1 in Ha. fold d2 in Ha. fold d3 in Ha. fold d4 in Ha. fold d5 in Ha.
  split; [|split; [|split; [|split; [|split; [|split; [|split]]]]]].
  - intros a -> Hne. rewrite Ha. apply String.eqb_neq in Hne. rewrite Hne. reflexivity.
  - intros [-> | ->]; rewrite Ha; reflexivity.
  - rewrite !extract_targets_lookup by discriminate. unfold d5.
    apply extract_sl_both. rewrite !L4 by discriminate. reflexivity.
  - rewrite extract_targets_lookup by discriminate. unfold d5.
    rewrite extract_sl_lookup by discriminate. unfold d4.
    rewrite extract_price_lookup by discriminate. unfold d3.
    rewrite extract_expiry_lookup by discriminate. unfold d2.
    apply extract_option_type. apply L1; discriminate.
  - intros c. rewrite !extract_targets_lookup by discriminate. unfold d5.
    rewrite !extract_sl_lookup by discriminate. unfold d4.
    apply extract_price_condition. apply L3; discriminate.
  - destruct (extract_targets_spec text d5) as [[H1 H2]|(ts & H1 & H2 & _)];
      try (apply L5; discriminate).
    + rewrite H1, H2. split; intros [x [=]].
    + rewrite H1. split; intros _; [exact H2 | eauto].
  - intros v Hv.
    destruct (extract_targets_spec text d5) as [[H1 H2]|(ts & H1 & _ & H3 & H4 & H5)];
      try (apply L5; discriminate).
    + rewrite H1 in Hv. discriminate Hv.
    + rewrite H1 in Hv. injection Hv as <-. exists ts. repeat split; assumption.
  - intros k Hk.
    destruct (decide (k = "action")) as [->|N1]; [cbn [In]; tauto|].
    destruct (decide (k = "symbol")) as [->|N2]; [cbn [In]; tauto|].
    destruct (decide (k = "strike")) as [->|N3]; [cbn [In]; tauto|].
    destruct (decide (k = "option_type")) as [->|N4]; [cbn [In]; tauto|].
    destruct (decide (k = "expiry")) as [->|N5]; [cbn [In]; tauto|].
    destruct (decide (k = "price")) as [->|N6]; [cbn [In]; tauto|].
    destruct (decide (k = "condition")) as [->|N7]; [cbn [In]; tauto|].
    destruct (decide (k = "sl")) as [->|N8]; [cbn [In]; tauto|].
    destruct (decide (k = "stop_loss")) as [->|N9]; [cbn [In]; tauto|].
    destruct (decide (k = "targets")) as [->|N10]; [cbn [In]; tauto|].
    destruct (decide (k = "tgt")) as [->|N11]; [cbn [In]; tauto|].
    exfalso. rewrite extract_targets_lookup in Hk by assumption.
    rewrite L5 in Hk by assumption. destruct Hk as [x [=]].
Qed.

(** X16. What [classify] returns, whatever the text and the symbol table. The
    confidence lies between 0.0 and 1.0. Extracted data is returned exactly
    when the text is taken as a signal; then the score is at least 20, the
    confidence at least 0.5, and the data has an action, or a symbol with a
    price, a stop loss or a target; its action, if any, is 'BUY' or 'SELL'.
    A text with score 20 or more whose extraction has neither is no signal,
    and its confidence is halved. *)
Theorem classify_coherent valid_symbols text :
  let r := classify valid_symbols text in
  (0 <=? r.1.2)%float = true /\ (r.1.2 <=? 1)%float = true
  /\ (r.1.1 = true <-> is_Some r.2)
  /\ (forall d, r.2 = Some d ->
        20 <= score text /\ (0.5 <=? r.1.2)%float = true
        /\ has_meaningful_data d = true
        /\ (d !! "action" = None \/ d !! "action" = Some (VStr "BUY")
            \/ d !! "action" = Some (VStr "SELL")))
  /\ (20 <= score text -> r.1.1 = false ->
      r.1.2 = (confidence_of (score text) * 0.5)%float
      /\ (r.1.2 <=? 0.5)%float = true).
Proof.
  cbv zeta. unfold classify.
  pose proof (score_le text) as Hle.
  destruct (initial_decision (score text)) eqn:Ei.
  - unfold initial_decision in Ei. apply andb_true_iff in Ei as [E20 E5].
    apply Z.leb_le in E20.
    destruct (has_meaningful_data _) eqn:Em; cbn [fst snd].
    + destruct (confidence_unit (score text)) as [C0 C1].
      split; [exact C0|]. split; [exact C1|]. split; [split; eauto|].
      split.
      * intros d [= <-]. repeat split; try assumption.
        rewrite extracted_action.
        destruct (action_scan_action (lower text)) as [H|[H|H]]; rewrite H;
          cbn; tauto.
      * intros _ H. discriminate H.
    + destruct (halved_unit (score text)) as [H0 H1]; [lia|].
      split; [exact H0|]. split.
      { (* at most 0.5, so at most 1 *)
        assert (E : forallb (fun n => (confidence_of (20 + Z.of_nat n) * 0.5 <=? 1)%float)
                      (seq 0 301) = true) by (vm_compute; reflexivity).
        rewrite forallb_forall in E.
        specialize (E (Z.to_nat (score text - 20))).
        replace (20 + Z.of_nat (Z.to_nat (score text - 20))) with (score text) in E by lia.
        apply E. apply in_seq. lia. }
      split; [split; [discriminate | intros [x [=]]]|].
      split; [intros d [=]|].
      intros _ _. split; [reflexivity | exact H1].
  - cbn [fst snd].
    destruct (confidence_unit (score text)) as [C0 C1].
    split; [exact C0|]. split; [exact C1|].
    split; [split; [discriminate | intros [x [=]]]|].
    split; [intros d [=]|].
    intros H20 _. exfalso.
    unfold initial_decision in Ei. apply andb_false_iff in Ei as [Ei|Ei].
    + apply Z.leb_gt in Ei. lia.
    + rewrite confident_from_20 in Ei by lia. discriminate Ei.
Qed.

End ClassifierProps.

(** * Properties of the option symbol lookup *)

Module OptionSymbolProps.
Import Py PyFacts SignalExecutionService ExecutionFacts ExecutionProps OptionSymbols.
Local Open Scope Z_scope.

(** ** The sort by expiry *)

Lemma insert_by_expiry_In x a l :
  In x (insert_by_expiry a l) <-> x = a \/ In x l.
Proof.
  induction l as [|y l IH]; cbn [insert_by_expiry In].
  - intuition congruence.
  - destruct (parse_expiry a <=? parse_expiry y); cbn [In]; [intuition congruence|].
    rewrite IH. intuition congruence.
Qed.

Lemma sort_by_expiry_In x l : In x (sort_by_expiry l) <-> In x l.
Proof.
  induction l as [|y l IH]; cbn [sort_by_expiry fold_right In]; [tauto|].
  fold (sort_by_expiry l). rewrite insert_by_expiry_In, IH. intuition congruence.
Qed.

Lemma insert_by_expiry_sorted a l :
  sorted_by_expiry l -> sorted_by_expiry (insert_by_expiry a l).
Proof.
  induction l as [|y l IH]; cbn [insert_by_expiry]; intros H.
  - cbn [sorted_by_expiry]. split; [constructor | exact I].
  - destruct (Z.leb_spec (parse_expiry a) (parse_expiry y)) as [Hle|Hgt].
    + cbn [sorted_by_expiry] in *. destruct H as [Hy Hs].
      split; [|split; assumption].
      constructor; [exact Hle|].
      eapply List.Forall_impl; [|exact Hy]. cbn. intros z Hz. lia.
    + cbn [sorted_by_expiry] in *. destruct H as [Hy Hs].
      split; [|apply IH; exact Hs].
      apply List.Forall_forall. intros z Hz. apply insert_by_expiry_In in Hz as [->|Hz].
      * lia.
      * rewrite List.Forall_forall in Hy. apply Hy. exact Hz.
Qed.

Lemma sort_by_expiry_sorted l : sorted_by_expiry (sort_by_expiry l).
Proof.
  induction l as [|y l IH]; cbn [sort_by_expiry fold_right]; [exact I|].
  apply insert_by_expiry_sorted. exact IH.
Qed.

Lemma filter_sorted (f : token -> bool) l :
  sorted_by_expiry l -> sorted_by_expiry (List.filter f l).
Proof.
  induction l as [|y l IH]; cbn [List.filter]; intros H; [exact I|].
  cbn [sorted_by_expiry] in H. destruct H as [Hy Hs].
  destruct (f y); [|exact (IH Hs)].
  cbn [sorted_by_expiry]. split; [|exact (IH Hs)].
  apply List.Forall_forall. intros z Hz. apply filter_In in Hz as [Hz _].
  rewrite List.Forall_forall in Hy. apply Hy. exact Hz.
Qed.

Lemma sorted_head tk l x :
  sorted_by_expiry (tk :: l) -> In x (tk :: l) -> parse_expiry tk <= parse_expiry x.
Proof.
  intros H [<-|Hin]; [lia|].
  cbn [sorted_by_expiry] in H. destruct H as [H _]. rewrite List.Forall_forall in H.
  apply H. exact Hin.
Qed.

(** ** The filter by expiry tag *)

Lemma filter_by_tag_spec tag l kept :
  filter_by_tag tag l = Ok kept ->
  (forall x, In x kept <-> In x l /\ matches_expiry_tag x tag = Ok true)
  /\ (sorted_by_expiry l -> sorted_by_expiry kept).
Proof.
  revert kept. induction l as [|y l IH]; cbn [filter_by_tag]; intros kept H.
  - injection H as <-. split; [intros x; cbn [In]; tauto | intros _; exact I].
  - apply bind_Ok in H as (keep & Hk & H). cbn beta in H.
    apply bind_Ok in H as (kept' & Hk' & H). cbn beta in H.
    injection H as <-. destruct (IH kept' Hk') as [H1 H2].
    split.
    + intros x. destruct keep; cbn [In]; rewrite H1.
      * split; [intros [<-|[Ha Hb]]; [split; [left; reflexivity | exact Hk]
                                     | split; [right; exact Ha | exact Hb]]
               | intros [[<-|Ha] Hb]; [left; reflexivity | right; split; assumption]].
      * split; [intros [Ha Hb]; split; [right; exact Ha | exact Hb]|].
        intros [[<-|Ha] Hb]; [congruence | split; assumption].
    + intros Hs. cbn [sorted_by_expiry] in Hs. destruct Hs as [Hy Hs].
      destruct keep; [|exact (H2 Hs)].
      cbn [sorted_by_expiry]. split; [|exact (H2 Hs)].
      apply List.Forall_forall. intros z Hz. apply H1 in Hz as [Hz _].
      rewrite List.Forall_forall in Hy. apply Hy. exact Hz.
Qed.

Lemma matches_expiry_tag_str tk t : exists b, matches_expiry_tag tk (VStr t) = Ok b.
Proof.
  unfold matches_expiry_tag. destruct (tk_expiry tk) as [expiry|]; [|eauto].
  destruct (negb (truthy (VStr t)) || String.eqb expiry ""); [eauto|].
  cbn [py_upper bind].
  destruct (Nat.eqb _ 3 && isalpha _); [eauto|].
  destruct (split_on _ _ _) as [|p0 [|p1 l]]; eauto.
Qed.

Lemma filter_by_tag_str t l : exists kept, filter_by_tag (VStr t) l = Ok kept.
Proof.
  induction l as [|y l [kept IH]]; cbn [filter_by_tag]; [eauto|].
  destruct (matches_expiry_tag_str y t) as [b ->]. cbn [bind]. rewrite IH. cbn [bind].
  eauto.
Qed.

(* the lookup once the strike is read and the query answered *)
Lemma resolve_unfold query now base_symbol strike option_type exchange expiry_tag
    strike_val matches :
  py_float strike = Ok strike_val ->
  query exchange strike_val option_type base_symbol = Ok matches ->
  _resolve_option_symbol query now base_symbol strike option_type exchange expiry_tag
  = let active := List.filter (unexpired now) (sort_by_expiry matches) in
    match (if truthy expiry_tag then
             bind (filter_by_tag expiry_tag active) (fun expiry_filtered =>
             Ok (match expiry_filtered with
                 | [] => active
                 | _ => expiry_filtered
                 end))
           else Ok active) with
    | Ok (tk :: _) => Pair (VStr (tk_symbol tk)) (tk_lotsize tk)
    | _ => Pair VNone VNone
    end.
Proof.
  intros Hf Hq. unfold _resolve_option_symbol. rewrite Hf, Hq. cbn [bind].
  destruct matches as [|m0 matches]; cbv zeta.
  - cbn [sort_by_expiry fold_right List.filter].
    destruct (truthy expiry_tag); [|reflexivity].
    cbn [filter_by_tag bind]. reflexivity.
  - destruct (if truthy expiry_tag then _ else _) as [[|tk l]|ex]; reflexivity.
Qed.

(** X20. The contract the lookup picks. When [_resolve_option_symbol]
    returns a symbol, it is the symbol of a token the query returned, with
    that token's lot size, and the token is not expired: its expiry day is
    today or later, or its expiry text cannot be read as a date. Without an
    expiry tag, or when no unexpired token matches the tag, it is a token
    with the earliest expiry among the unexpired ones; when some unexpired
    token matches the tag, it matches the tag and has the earliest expiry
    among those that do. *)
Theorem resolved_symbol_is_nearest query now base_symbol strike option_type exchange
    expiry_tag symbol lotsize :
  _resolve_option_symbol query now base_symbol strike option_type exchange expiry_tag
  = Pair symbol lotsize ->
  symbol <> VNone ->
  exists strike_val matches tk,
    py_float strike = Ok strike_val
    /\ query exchange strike_val option_type base_symbol = Ok matches
    /\ In tk matches
    /\ symbol = VStr (tk_symbol tk) /\ lotsize = tk_lotsize tk
    /\ unexpired now tk = true
    /\ ((truthy expiry_tag = false
         \/ (forall tk', In tk' matches -> unexpired now tk' = true ->
               matches_expiry_tag tk' expiry_tag <> Ok true)) ->
        forall tk', In tk' matches -> unexpired now tk' = true ->
                    parse_expiry tk <= parse_expiry tk')
    /\ (truthy expiry_tag = true ->
        (exists tk', In tk' matches /\ unexpired now tk' = true
                     /\ matches_expiry_tag tk' expiry_tag = Ok true) ->
        matches_expiry_tag tk expiry_tag = Ok true
        /\ forall tk', In tk' matches -> unexpired now tk' = true ->
                       matches_expiry_tag tk' expiry_tag = Ok true ->
                       parse_expiry tk <= parse_expiry tk').
Proof.
  intros H Hsym.
  destruct (py_float strike) as [strike_val|ex] eqn:Hf.
  2:{ unfold _resolve_option_symbol in H. rewrite Hf in H.
      destruct ex; try discriminate H; injection H as <- _; congruence. }
  destruct (query exchange strike_val option_type base_symbol) as [matches|ex] eqn:Hq.
  2:{ unfold _resolve_option_symbol in H. rewrite Hf, Hq in H. cbn [bind] in H.
      injection H as <- _. congruence. }
  rewrite (resolve_unfold _ _ _ _ _ _ _ _ _ Hf Hq) in H. cbv zeta in H.
  set (active := List.filter (unexpired now) (sort_by_expiry matches)) in *.
  assert (Hactive : forall x, In x active <-> In x matches /\ unexpired now x = true).
  { intros x. unfold active. rewrite filter_In, sort_by_expiry_In. tauto. }
  assert (Hsorted : sorted_by_expiry active)
    by (apply filter_sorted, sort_by_expiry_sorted).
  exists strike_val, matches.
  destruct (truthy expiry_tag) eqn:Ht.
  - destruct (filter_by_tag expiry_tag active) as [kept|ex] eqn:Hk; cbn [bind] in H;
      [|injection H as <- _; congruence].
    destruct (filter_by_tag_spec _ _ _ Hk) as [Hin Hs]. specialize (Hs Hsorted).
    destruct kept as [|k0 kept].
    + (* no unexpired token matches the tag *)
      destruct active as [|tk active'] eqn:Ea; [injection H as <- _; congruence|].
      injection H as <- <-. exists tk.
      assert (Htk : In tk matches /\ unexpired now tk = true)
        by (apply Hactive; left; reflexivity).
      destruct Htk as [Htk1 Htk2].
      repeat split; try assumption.
      * intros _ tk' H1 H2. apply (sorted_head tk active'); [exact Hsorted|].
        apply Hactive. split; assumption.
      * exfalso. destruct H0 as (tk' & H1 & H2 & H3).
        apply (proj2 (Hin tk')). split; [apply Hactive; split; assumption | exact H3].
      * exfalso. destruct H0 as (tk' & H1 & H2 & H3).
        apply (proj2 (Hin tk')). split; [apply Hactive; split; assumption | exact H3].
    + injection H as <- <-. exists k0.
      assert (Hk0 : In k0 active /\ matches_expiry_tag k0 expiry_tag = Ok true)
        by (apply Hin; left; reflexivity).
      destruct Hk0 as [Hk1 Hk2]. apply Hactive in Hk1 as [Hk1 Hk3].
      repeat split; try assumption.
      * intros [Hx|Hx]; [discriminate Hx|]. exfalso. exact (Hx k0 Hk1 Hk3 Hk2).
      * intros tk' H1 H2 H3. apply (sorted_head k0 kept); [exact Hs|].
        apply Hin. split; [apply Hactive; split; assumption | exact H3].
  - destruct active as [|tk active'] eqn:Ea; [injection H as <- _; congruence|].
    injection H as <- <-. exists tk.
    assert (Htk : In tk matches /\ unexpired now tk = true)
      by (apply Hactive; left; reflexivity).
    destruct Htk as [Htk1 Htk2].
    repeat split; try assumption; try discriminate.
    intros _ tk' H1 H2. apply (sorted_head tk active'); [exact Hsorted|].
    apply Hactive. split; assumption.
Qed.

Lemma resolved_symbol_is_nearest_witness :
  exists strike_val matches tk,
    py_float (VStr "22000") = Ok strike_val
    /\ Scenarios.nifty_query "NFO" strike_val "CE" "NIFTY" = Ok matches
    /\ In tk matches
    /\ VStr "NIFTY29JAN2622000CE" = VStr (tk_symbol tk)
    /\ unexpired Scenarios.jan_5_2026 tk = true.
Proof.
  destruct (resolved_symbol_is_nearest Scenarios.nifty_query Scenarios.jan_5_2026 "NIFTY"
              (VStr "22000") "CE" "NFO" VNone (VStr "NIFTY29JAN2622000CE") (VInt 75)
              ltac:(vm_compute; reflexivity) ltac:(discriminate))
    as (strike_val & matches & tk & H1 & H2 & H3 & H4 & _ & H5 & _).
  exists strike_val, matches, tk. repeat split; assumption.
Defined.

(** X21. When the lookup finds a contract and how it fails. It never raises.
    It returns a bare None, which the caller cannot unpack, exactly when the
    strike is a text that is not a number. It returns the pair (None, None)
    when the strike is of another type that float() refuses, when the query
    raises or returns nothing, and when every token returned is expired. When
    the query returns a token that is not expired, and the expiry tag is
    absent, empty or a text, it returns the symbol of a token. *)
Theorem resolve_outcomes query now base_symbol strike option_type exchange expiry_tag :
  let r := _resolve_option_symbol query now base_symbol strike option_type exchange
             expiry_tag in
  (r = Bare <-> exists s msg, strike = VStr s /\ py_float strike = Raise (ValueError msg))
  /\ (forall strike_val,
        py_float strike = Ok strike_val ->
        match query exchange strike_val option_type base_symbol with
        | Raise _ => r = Pair VNone VNone
        | Ok matches =>
            (Forall (fun tk => unexpired now tk = false) matches -> r = Pair VNone VNone)
            /\ ((exists tk, In tk matches /\ unexpired now tk = true) ->
                truthy expiry_tag = false \/ (exists t, expiry_tag = VStr t) ->
                exists tk, In tk matches /\ unexpired now tk = true
                           /\ r = Pair (VStr (tk_symbol tk)) (tk_lotsize tk))
        end).
Proof.
  cbv zeta. split.
  - split.
    + destruct (py_float strike) as [strike_val|ex] eqn:Hf.
      * destruct (query exchange strike_val option_type base_symbol) as [matches|ex]
          eqn:Hq.
        -- rewrite (resolve_unfold _ _ _ _ _ _ _ _ _ Hf Hq). cbv zeta.
           destruct (if truthy expiry_tag then _ else _) as [[|tk l]|ex]; discriminate.
        -- unfold _resolve_option_symbol. rewrite Hf, Hq. discriminate.
      * unfold _resolve_option_symbol. rewrite Hf.
        destruct ex; try discriminate. intros _.
        destruct strike; cbn [py_float] in Hf; try discriminate Hf.
        -- destruct (is_infinity _); discriminate Hf.
        -- eauto.
    + intros (s & msg & -> & Hf). unfold _resolve_option_symbol. rewrite Hf.
      reflexivity.
  - intros strike_val Hf.
    destruct (query exchange strike_val option_type base_symbol) as [matches|ex] eqn:Hq.
    2:{ unfold _resolve_option_symbol. rewrite Hf, Hq. reflexivity. }
    rewrite (resolve_unfold _ _ _ _ _ _ _ _ _ Hf Hq). cbv zeta.
    set (active := List.filter (unexpired now) (sort_by_expiry matches)).
    assert (Hactive : forall x, In x active <-> In x matches /\ unexpired now x = true).
    { intros x. unfold active. rewrite filter_In, sort_by_expiry_In. tauto. }
    split.
    + intros Hall.
      assert (E : active = []).
      { destruct active as [|tk l] eqn:Ea; [reflexivity|]. exfalso.
        assert (Hin : In tk (tk :: l)) by (left; reflexivity).
        apply Hactive in Hin as [H1 H2]. rewrite List.Forall_forall in Hall.
        rewrite (Hall tk H1) in H2. discriminate H2. }
      rewrite E. destruct (truthy expiry_tag); reflexivity.
    + intros (tk0 & H1 & H2) Htag.
      assert (Hne : active <> []).
      { intros E. assert (Hin : In tk0 active) by (apply Hactive; split; assumption).
        rewrite E in Hin. destruct Hin. }
      assert (Hpick : forall l, (forall x, In x l -> In x active) -> l <> [] ->
                exists tk, In tk matches /\ unexpired now tk = true
                           /\ match l with
                              | tk :: _ => Pair (VStr (tk_symbol tk)) (tk_lotsize tk)
                              | [] => Pair VNone VNone
                              end = Pair (VStr (tk_symbol tk)) (tk_lotsize tk)).
      { intros [|tk l] Hl Hn; [congruence|]. exists tk.
        destruct (proj1 (Hactive tk) (Hl tk (or_introl eq_refl))) as [Ha Hb].
        repeat split; assumption. }
      destruct (truthy expiry_tag) eqn:Ht.
      * destruct Htag as [Htag|[t ->]]; [discriminate Htag|].
        destruct (filter_by_tag_str t active) as [kept Hk]. rewrite Hk. cbn [bind].
        destruct (filter_by_tag_spec _ _ _ Hk) as [Hin _].
        destruct kept as [|k0 kept].
        -- apply Hpick; [tauto | exact Hne].
        -- apply (Hpick (k0 :: kept)); [|discriminate].
           intros x Hx. apply Hin in Hx. tauto.
      * apply Hpick; [tauto | exact Hne].
Qed.

(** ** A strike that is no number *)

Lemma upper_nonempty t : t <> "" -> upper t <> "".
Proof. destruct t; [congruence | discriminate]. Qed.

(** X22. A strike that is not a number ends the signal with an exception.
    For an option signal (strike and option type present, action, symbol and
    option type texts) whose strike is a text float() refuses, the lookup
    returns a bare None, unpacking it raises TypeError inside
    [_convert_signal_to_order], and [execute_signal], once its four gates are
    passed, returns (False, "Exception: cannot unpack non-iterable NoneType
    object"), counts a failure and leaves the monitor alone. *)
Theorem odd_strike_surfaces query clock e now signal_data channel raw_message confidence
    svc mon s option_type action symbol :
  enabled svc = true ->
  (confidence <? confidence_threshold svc)%float = false ->
  (_is_duplicate now channel (prepared signal_data) (bump "total_signals" svc)).1 = false ->
  (_validate_signal (prepared signal_data)).1 = true ->
  signal_data !! "strike" = Some (VStr s) -> s <> "" -> float_of_string s = None ->
  signal_data !! "option_type" = Some (VStr option_type) -> option_type <> "" ->
  signal_data !! "symbol" = Some (VStr symbol) ->
  get_or (prepared signal_data) "action" (VStr "BUY") = VStr action ->
  let r := execute_signal (with_symbols query clock e) now signal_data channel raw_message
             confidence svc mon in
  _resolve_option_symbol query clock (upper symbol) (VStr s) (upper option_type)
    (exchange_for_option (upper symbol)) (get (prepared signal_data) "expiry") = Bare
  /\ _convert_signal_to_order (with_symbols query clock e) (prepared signal_data)
     = Raise (TypeError "cannot unpack non-iterable NoneType object")
  /\ r.1.1.1 = (false, "Exception: cannot unpack non-iterable NoneType object")
  /\ r.2 = mon
  /\ r.1.2 = bump "failed"
               (_is_duplicate now channel (prepared signal_data)
                  (bump "total_signals" svc)).2.
Proof.
  intros Hen Hc Hd Hv Hs Hne Hf Ho Hone Hsym Ha r.
  assert (Hbare : forall base ot ex tag,
            _resolve_option_symbol query clock base (VStr s) ot ex tag = Bare).
  { intros. unfold _resolve_option_symbol. cbn [py_float]. rewrite Hf. reflexivity. }
  assert (Hconv : _convert_signal_to_order (with_symbols query clock e)
                    (prepared signal_data)
                  = Raise (TypeError "cannot unpack non-iterable NoneType object")).
  { unfold _convert_signal_to_order, order_instrument. rewrite Ha. cbn [py_upper bind].
    assert (G1 : get_or (prepared signal_data) "symbol" (VStr "") = VStr symbol).
    { unfold get_or, prepared. rewrite auto_sl_lookup by discriminate.
      unfold infer_action. destruct (_ && _);
        [rewrite lookup_insert_ne by discriminate|]; rewrite Hsym; reflexivity. }
    assert (G2 : get_or (prepared signal_data) "option_type" (VStr "") = VStr option_type).
    { unfold get_or, prepared. rewrite auto_sl_lookup by discriminate.
      unfold infer_action. destruct (_ && _);
        [rewrite lookup_insert_ne by discriminate|]; rewrite Ho; reflexivity. }
    assert (G3 : get (prepared signal_data) "strike" = VStr s).
    { rewrite prepared_get by discriminate. unfold get. rewrite Hs. reflexivity. }
    rewrite G1, G2, G3. cbn [py_upper bind truthy].
    destruct (String.eqb_spec s "") as [->|_]; [congruence|].
    destruct (String.eqb_spec (upper option_type) "") as [E|_];
      [apply upper_nonempty in Hone; congruence|].
    cbn [negb andb with_symbols resolve_option_symbol].
    rewrite Hbare. reflexivity. }
  split; [apply Hbare|]. split; [exact Hconv|].
  unfold r.
  rewrite (conversion_error_surfaces _ _ _ _ _ _ _ _ _ Hen Hc Hd Hv Hconv).
  repeat split.
Qed.

Lemma odd_strike_surfaces_witness :
  (execute_signal (with_symbols Scenarios.nifty_query Scenarios.jan_5_2026
                     (Examples.quote_env 150))
     0 Scenarios.odd_strike_signal "channel" "BUY NIFTY 22k CE SL 120 TGT 200" 0.9
     Examples.service_on Examples.empty_monitor).1.1.1
  = (false, "Exception: cannot unpack non-iterable NoneType object").
Proof.
  apply (odd_strike_surfaces Scenarios.nifty_query Scenarios.jan_5_2026
           (Examples.quote_env 150) 0 Scenarios.odd_strike_signal "channel"
           "BUY NIFTY 22k CE SL 120 TGT 200" 0.9 Examples.service_on Examples.empty_monitor
           "22k" "CE" "BUY" "NIFTY");
    first [by_eval | discriminate].
Defined.

End OptionSymbolProps.

(** * Properties of the Telegram listener *)

Module ListenerProps.
Import Py PyFacts SignalExecutionService ExecutionStats ExecutionFacts ExecutionProps.
Import TelegramListener.

(** ** The buffer *)

Lemma removelast_firstn_length {A} (b : list A) :
  List.removelast b = firstn (pred (length b)) b.
Proof.
  induction b as [|x [|y b] IH]; [reflexivity | reflexivity |].
  change (List.removelast (x :: y :: b)) with (x :: List.removelast (y :: b)).
  rewrite IH. reflexivity.
Qed.

Lemma buffered_spec (data : dict) (b : list dict) :
  (length b <= 50)%nat -> buffered data b = data :: firstn 49 b.
Proof.
  intros H. unfold buffered.
  destruct (Nat.ltb_spec 50 (length (data :: b))) as [Hgt|Hle].
  - cbn [length] in Hgt. assert (E : length b = 50%nat) by lia.
    rewrite removelast_firstn_length. cbn [length pred]. rewrite E. reflexivity.
  - cbn [length] in Hle. rewrite firstn_all2 by lia. reflexivity.
Qed.

Lemma buffered_length (data : dict) (b : list dict) :
  (length b <= 50)%nat -> (length (buffered data b) <= 50)%nat.
Proof.
  intros H. rewrite buffered_spec by exact H. cbn [length].
  rewrite length_firstn. lia.
Qed.

(* the buffer after a message *)
Lemma process_message_buffer imp valid_symbols e now text channel_name timestamp replay l :
  exists data,
    message_buffer (process_message imp valid_symbols e now text channel_name timestamp
                      replay l)
    = <[channel_name := buffered data (default [] (message_buffer l !! channel_name))]>
        (message_buffer l)
    /\ data !! "channel" = Some (VStr channel_name)
    /\ data !! "message" = Some (VStr text)
    /\ data !! "status" = Some (VStr (parse valid_symbols text).1.2)
    /\ data !! "timestamp"
       = Some (match timestamp with Some t => VStr t | None => VNone end).
Proof.
  unfold process_message.
  destruct (parse valid_symbols text) as [[signal_data parsed_status] confidence].
  cbn [fst snd].
  destruct (String.eqb parsed_status "parsed" && truthy (VDict signal_data) && negb replay);
    [destruct imp|];
    cbn [message_buffer]; eexists; (split; [reflexivity|]); repeat split.
Qed.

(** X17. The message buffer of the listener. Every message is put at the
    front of its channel's buffer, as a record with its channel, text, status
    and timestamp, whether it is a signal or not, whether it is replayed or
    live, and whether the import of the executor succeeds or raises; the
    buffer then keeps the 49 records it already had that are newest, and the
    other channels are as they were. So from buffers of at most 50 records
    on (empty ones after [initialize]), no buffer ever holds more than 50. *)
Theorem buffer_keeps_last_50 imp valid_symbols e :
  (forall now text channel_name timestamp replay l,
     (length (default [] (message_buffer l !! channel_name)) <= 50)%nat ->
     let l' := process_message imp valid_symbols e now text channel_name timestamp
                 replay l in
     (exists data,
        message_buffer l' !! channel_name
        = Some (data :: firstn 49 (default [] (message_buffer l !! channel_name)))
        /\ data !! "channel" = Some (VStr channel_name)
        /\ data !! "message" = Some (VStr text)
        /\ data !! "status" = Some (VStr (parse valid_symbols text).1.2)
        /\ data !! "timestamp"
           = Some (match timestamp with Some t => VStr t | None => VNone end))
     /\ (forall c, c <> channel_name -> message_buffer l' !! c = message_buffer l !! c))
  /\ (forall ms l,
        (forall c b, message_buffer l !! c = Some b -> (length b <= 50)%nat) ->
        forall c b,
          get_history (fold_left (deliver imp valid_symbols e) ms l) !! c = Some b ->
          (length b <= 50)%nat).
Proof.
  split.
  - intros now text channel_name timestamp replay l Hlen l'.
    destruct (process_message_buffer imp valid_symbols e now text channel_name timestamp
                replay l) as (data & Hb & H1 & H2 & H3 & H4).
    fold l' in Hb. split.
    + exists data. rewrite Hb, lookup_insert_eq. rewrite buffered_spec by exact Hlen.
      repeat split; assumption.
    + intros c Hc. rewrite Hb. rewrite lookup_insert_ne by congruence. reflexivity.
  - induction ms as [|m ms IH]; intros l Hl; cbn [fold_left]; [exact Hl|].
    apply IH. intros c b. unfold deliver.
    destruct (process_message_buffer imp valid_symbols e (msg_now m) (msg_text m)
                (msg_channel m) (msg_timestamp m) (msg_replay m) l) as (data & Hb & _).
    rewrite Hb.
    destruct (decide (msg_channel m = c)) as [->|Hne].
    + rewrite lookup_insert_eq. intros [= <-]. apply buffered_length.
      destruct (message_buffer l !! c) as [b0|] eqn:E; cbn [default length]; [|lia].
      eapply Hl. exact E.
    + rewrite lookup_insert_ne by exact Hne. apply Hl.
Qed.

(** ** What reaches the executor *)

Lemma groupdict_nonempty m : truthy (VDict (groupdict m)) = true.
Proof.
  cbn [truthy]. apply negb_true_iff. apply bool_decide_eq_false.
  intros H. apply (f_equal (fun d : dict => d !! "tgt")) in H.
  unfold groupdict, mk_dict in H. cbn [fold_left fst snd] in H.
  rewrite lookup_insert_eq, lookup_empty in H. discriminate H.
Qed.

(* a message is parsed with a signal, or raw without one *)
Lemma parse_status valid_symbols text :
  ((parse valid_symbols text).1.2 = "parsed"
   /\ truthy (VDict (parse valid_symbols text).1.1) = true)
  \/ ((parse valid_symbols text).1.2 = "raw" /\ (parse valid_symbols text).1.1 = ∅).
Proof.
  unfold parse.
  destruct (SignalClassifier.classify valid_symbols text) as [[is_signal confidence] extracted].
  assert (Hraw :
    (let '(signal_data, parsed_status, c) :=
       if negb (truthy (VDict ∅)) then
         match Re.search true signal_pattern text with
         | Some m => (groupdict m, "parsed", 0.8%float)
         | None => (∅, "raw", confidence)
         end
       else (∅, "raw", confidence) in
     (parsed_status = "parsed" /\ truthy (VDict signal_data) = true)
     \/ (parsed_status = "raw" /\ signal_data = ∅))).
  { change (negb (truthy (VDict ∅))) with true. cbv iota.
    destruct (Re.search true signal_pattern text) as [m|].
    - left. split; [reflexivity | apply groupdict_nonempty].
    - right. split; reflexivity. }
  destruct extracted as [data|].
  - destruct (is_signal && truthy (VDict data)) eqn:E.
    + apply andb_true_iff in E as [_ E]. rewrite E. cbn [negb fst snd].
      left. split; [reflexivity | exact E].
    + change (negb (truthy (VDict ∅))) with true in *. cbv iota in *.
      destruct (Re.search true signal_pattern text) as [m|]; cbn [fst snd]; exact Hraw.
  - change (negb (truthy (VDict ∅))) with true in *. cbv iota in *.
    destruct (Re.search true signal_pattern text) as [m|]; cbn [fst snd]; exact Hraw.
Qed.

(* the executor and the monitor after a message *)
Lemma process_message_services imp valid_symbols e now text channel_name timestamp
    replay l :
  let p := parse valid_symbols text in
  let l' := process_message imp valid_symbols e now text channel_name timestamp replay l in
  match imp with
  | Ok _ =>
      if String.eqb p.1.2 "parsed" && negb replay then
        executor l' = (execute_signal e now p.1.1 channel_name text p.2 (executor l)
                         (monitor l)).1.2
        /\ monitor l' = (execute_signal e now p.1.1 channel_name text p.2 (executor l)
                           (monitor l)).2
      else executor l' = executor l /\ monitor l' = monitor l
  | Raise _ => executor l' = executor l /\ monitor l' = monitor l
  end.
Proof.
  cbv zeta.
  pose proof (parse_status valid_symbols text) as Hs.
  unfold process_message.
  destruct (parse valid_symbols text) as [[signal_data parsed_status] confidence].
  cbn [fst snd] in *.
  destruct Hs as [[-> Ht]|[-> ->]].
  - rewrite Ht. change (String.eqb "parsed" "parsed") with true. cbn [andb].
    destruct imp, replay; cbn [negb executor monitor]; split; reflexivity.
  - change (String.eqb "raw" "parsed") with false. cbn [andb executor monitor].
    destruct imp; split; reflexivity.
Qed.

(* a message that is not executed is processed without the collaborators and
   the clock *)
Lemma process_message_idle imp valid_symbols e now text channel_name timestamp replay l :
  (exists ex, imp = Raise ex) \/ replay = true
  \/ (parse valid_symbols text).1.2 <> "parsed" ->
  forall e' now',
    process_message imp valid_symbols e' now' text channel_name timestamp replay l
    = process_message imp valid_symbols e now text channel_name timestamp replay l.
Proof.
  intros H e' now'. unfold process_message.
  destruct (parse valid_symbols text) as [[signal_data parsed_status] confidence].
  cbn [fst snd] in H.
  destruct H as [[ex ->]|[->|Hne]].
  - destruct (String.eqb parsed_status "parsed" && truthy (VDict signal_data)
              && negb replay); reflexivity.
  - rewrite andb_false_r. reflexivity.
  - apply String.eqb_neq in Hne. rewrite Hne. cbn [andb]. reflexivity.
Qed.

(** X18. What never reaches the executor. The listener imports the executor
    at each live parsed message. When that import raises, as it does with the
    module as it stands in the tree ([shipped_import]: a syntax error at its
    line 291), the exception is caught and no message, live or replayed,
    reaches the executor: the executor and the monitor stay as they were and
    no collaborator is consulted. Whatever the import gives, the same holds
    for a replayed message (the history fetched at start-up) and for a
    message that is no signal. *)
Theorem listener_leaves_executor_alone imp valid_symbols e now text channel_name timestamp
    replay l :
  let p := parse valid_symbols text in
  let l' := process_message imp valid_symbols e now text channel_name timestamp replay l in
  let shipped := process_message shipped_import valid_symbols e now text channel_name
                   timestamp replay l in
  (executor shipped = executor l /\ monitor shipped = monitor l
   /\ forall e' now',
        process_message shipped_import valid_symbols e' now' text channel_name timestamp
          replay l = shipped)
  /\ ((exists ex, imp = Raise ex) \/ replay = true \/ p.1.2 <> "parsed" ->
      executor l' = executor l /\ monitor l' = monitor l
      /\ forall e' now',
           process_message imp valid_symbols e' now' text channel_name timestamp replay l
           = l').
Proof.
  intros p l' shipped.
  assert (Hidle : forall imp',
            (exists ex, imp' = Raise ex) \/ replay = true \/ p.1.2 <> "parsed" ->
            let l0 := process_message imp' valid_symbols e now text channel_name timestamp
                        replay l in
            executor l0 = executor l /\ monitor l0 = monitor l
            /\ forall e' now',
                 process_message imp' valid_symbols e' now' text channel_name timestamp
                   replay l = l0).
  { intros imp' Hno l0.
    pose proof (process_message_services imp' valid_symbols e now text channel_name
                  timestamp replay l) as H.
    cbv zeta in H. fold p l0 in H.
    assert (H' : executor l0 = executor l /\ monitor l0 = monitor l).
    { destruct imp' as [u|ex]; [|exact H].
      destruct Hno as [[ex [=]]|Hno].
      assert (E : String.eqb p.1.2 "parsed" && negb replay = false).
      { destruct Hno as [->|Hne]; [apply andb_false_r|].
        apply andb_false_iff. left. apply String.eqb_neq. exact Hne. }
      rewrite E in H. exact H. }
    destruct H' as [H1 H2]. split; [exact H1|]. split; [exact H2|].
    apply process_message_idle. exact Hno. }
  split.
  - apply Hidle. left. eexists. reflexivity.
  - apply Hidle.
Qed.

Lemma listener_leaves_executor_alone_witness :
  executor (process_message shipped_import ∅ (Examples.quote_env 100.5) 0
              "BUY RELIANCE @ 100 SL 95 TGT 110" "channel" None false
              Scenarios.fresh_listener)
  = executor Scenarios.fresh_listener
  /\ executor (process_message (Ok tt) ∅ (Examples.quote_env 100.5) 0
                 "BUY RELIANCE @ 100 SL 95 TGT 110" "channel" None true
                 Scenarios.fresh_listener)
     = executor Scenarios.fresh_listener.
Proof.
  pose proof (listener_leaves_executor_alone shipped_import ∅ (Examples.quote_env 100.5) 0
                "BUY RELIANCE @ 100 SL 95 TGT 110" "channel" None false
                Scenarios.fresh_listener) as H1.
  pose proof (listener_leaves_executor_alone (Ok tt) ∅ (Examples.quote_env 100.5) 0
                "BUY RELIANCE @ 100 SL 95 TGT 110" "channel" None true
                Scenarios.fresh_listener) as H2.
  cbv zeta in H1, H2.
  destruct H1 as [[H1 _] _]. destruct H2 as [_ H2].
  destruct (H2 (or_intror (or_introl eq_refl))) as [H2' _].
  split; [exact H1 | exact H2'].
Defined.

(** X26. What the listener hands to the executor once the module imports.
    When the import of the executor succeeds, a message that is live (not
    replayed) and parsed is executed: [execute_signal] is called once, with
    the parsed signal, the channel, the text and the confidence of the parse,
    on the executor and the monitor the listener drives; the listener goes on
    with the executor and the monitor that call leaves, and 'total_signals'
    has gone up by one. *)
Theorem live_signal_is_executed valid_symbols e now text channel_name timestamp l :
  (parse valid_symbols text).1.2 = "parsed" ->
  let p := parse valid_symbols text in
  let l' := process_message (Ok tt) valid_symbols e now text channel_name timestamp
              false l in
  let r := execute_signal e now p.1.1 channel_name text p.2 (executor l) (monitor l) in
  executor l' = r.1.2
  /\ monitor l' = r.2
  /\ counter "total_signals" (executor l')
     = (counter "total_signals" (executor l) + 1)%Z.
Proof.
  intros Hp p l' r.
  pose proof (process_message_services (Ok tt) valid_symbols e now text channel_name
                timestamp false l) as H.
  cbv zeta in H. fold p l' in H. fold p in Hp.
  rewrite Hp in H. change (String.eqb "parsed" "parsed") with true in H.
  cbn [andb negb] in H. fold r in H. destruct H as [H1 H2].
  split; [exact H1|]. split; [exact H2|].
  rewrite H1. unfold r.
  destruct (execute_signal_cases e now p.1.1 channel_name text p.2 (executor l)
              (monitor l)) as (x & Hst & _).
  rewrite (counter_ext _ _ _ Hst) by discriminate.
  destruct x; cbn [ending_counter]; rewrite !counter_bump by discriminate;
    eval_eqb; lia.
Qed.

Lemma live_signal_is_executed_witness :
  counter "total_signals"
    (executor (process_message (Ok tt) ∅ (Examples.quote_env 100.5) 0
                 "BUY RELIANCE @ 100 SL 95 TGT 110" "channel" None false
                 Scenarios.fresh_listener))
  = (counter "total_signals" (executor Scenarios.fresh_listener) + 1)%Z.
Proof.
  pose proof (live_signal_is_executed ∅ (Examples.quote_env 100.5) 0
                "BUY RELIANCE @ 100 SL 95 TGT 110" "channel" None
                Scenarios.fresh_listener ltac:(by_eval)) as H.
  cbv zeta in H. destruct H as (_ & _ & H). exact H.
Defined.

(** ** A strike without an option type *)

(** X19. A signal with a strike and no option type is never placed. When the
    classifier takes a text as a signal and extracts a strike from it (the
    first number of three to six digits) but no option type, the listener
    takes the message as parsed, and every call of [execute_signal] with the
    extracted signal refuses it at the validation at the latest: the call
    returns failure, places no order whatever the broker would answer, leaves
    the monitor as it was and counts nothing under executed. So the listener,
    whether its import of the executor succeeds or raises, leaves the monitor
    as it was and counts nothing under executed. If the service is enabled,
    the confidence suffices, the signal is no duplicate and it has an action,
    a symbol and a target, the answer of the call is "Invalid: Options signal
    missing 'option_type' (CE/PE)". The cash signal "BUY RELIANCE @ 2400 SL
    2380 TGT 2450" is such a text. *)
Theorem strike_without_option_type imp valid_symbols e now text channel_name timestamp l
    confidence d svc mon :
  SignalClassifier.classify valid_symbols text = (true, confidence, Some d) ->
  truthy (get d "strike") = true ->
  truthy (get d "option_type") = false ->
  let l' := process_message imp valid_symbols e now text channel_name timestamp false l in
  let r := execute_signal e now d channel_name text confidence svc mon in
  parse valid_symbols text = (d, "parsed", confidence)
  /\ r.1.1.1.1 = false
  /\ r.2 = mon
  /\ counter "executed" r.1.2 = counter "executed" svc
  /\ (forall e', execute_signal e' now d channel_name text confidence svc mon = r)
  /\ monitor l' = monitor l
  /\ counter "executed" (executor l') = counter "executed" (executor l)
  /\ (forall e',
        process_message imp valid_symbols e' now text channel_name timestamp false l = l')
  /\ (enabled svc = true ->
      (confidence <? confidence_threshold svc)%float = false ->
      (_is_duplicate now channel_name (prepared d) (bump "total_signals" svc)).1 = false ->
      truthy (get d "action") = true ->
      truthy (get d "symbol") = true ->
      truthy (get d "tgt") || truthy (get d "targets") = true ->
      r.1.1.1 = (false, "Invalid: Options signal missing 'option_type' (CE/PE)")).
Proof.
  intros Hc Hs Ho l' r.
  assert (Hd : truthy (VDict d) = true).
  { cbn [truthy]. apply negb_true_iff. apply bool_decide_eq_false. intros ->.
    unfold get in Hs. rewrite lookup_empty in Hs. discriminate Hs. }
  assert (Hp : parse valid_symbols text = (d, "parsed", confidence)).
  { unfold parse. rewrite Hc. rewrite Hd. cbn [andb negb]. rewrite Hd. reflexivity. }
  assert (Hs' : truthy (get (prepared d) "strike") = true)
    by (rewrite prepared_get by discriminate; exact Hs).
  assert (Ho' : truthy (get (prepared d) "option_type") = false)
    by (rewrite prepared_get by discriminate; exact Ho).
  destruct (validate_needs_option_type (prepared d) Hs' Ho') as [Hv Hmsg].
  assert (Hcall : forall svc0 mon0,
            let r0 := execute_signal e now d channel_name text confidence svc0 mon0 in
            r0.1.1.1.1 = false /\ r0.2 = mon0
            /\ counter "executed" r0.1.2 = counter "executed" svc0
            /\ forall e', execute_signal e' now d channel_name text confidence svc0 mon0
                          = r0).
  { intros svc0 mon0 r0.
    destruct (gate_refusal e now d channel_name text confidence svc0 mon0
                (or_intror (or_intror (or_intror Hv)))) as (Hflag & Hmon & Henv).
    fold r0 in Hflag, Hmon, Henv.
    split; [exact Hflag|]. split; [exact Hmon|]. split; [|exact Henv].
    destruct (counters_after e now d channel_name text confidence svc0 mon0)
      as (x & Hk & Hf & _).
    fold r0 in Hk, Hf. rewrite Hk by discriminate.
    rewrite Hflag in Hf.
    destruct x; try discriminate Hf; cbn [ending_counter]; eval_eqb; lia. }
  destruct (Hcall svc mon) as (R1 & R2 & R3 & R4). fold r in R1, R2, R3, R4.
  destruct (Hcall (executor l) (monitor l)) as (_ & L2 & L3 & L4).
  pose proof (process_message_services imp valid_symbols e now text channel_name timestamp
                false l) as Hsvc.
  cbv zeta in Hsvc. rewrite Hp in Hsvc. cbn [fst snd] in Hsvc.
  change (String.eqb "parsed" "parsed" && negb false) with true in Hsvc.
  cbv iota in Hsvc. fold l' in Hsvc.
  split; [exact Hp|]. split; [exact R1|]. split; [exact R2|]. split; [exact R3|].
  split; [exact R4|].
  split; [|split; [|split]].
  - destruct imp; destruct Hsvc as [Hx Hm]; rewrite Hm; [exact L2 | reflexivity].
  - destruct imp; destruct Hsvc as [Hx Hm]; rewrite Hx; [exact L3 | reflexivity].
  - intros e'. unfold l', process_message. rewrite Hp. rewrite Hd.
    change (String.eqb "parsed" "parsed" && true && negb false) with true. cbv iota.
    destruct imp; [|reflexivity].
    rewrite (L4 e'). reflexivity.
  - intros Hen Hconf Hdup Ha Hsym Htgt. unfold r.
    rewrite execute_signal_gated by assumption. cbv zeta. rewrite Hdup.
    rewrite Hmsg.
    + reflexivity.
    + rewrite prepared_action. rewrite Ha. reflexivity.
    + rewrite prepared_get by discriminate. exact Hsym.
    + rewrite !prepared_get by discriminate. exact Htgt.
Qed.

Lemma strike_without_option_type_witness :
  monitor (process_message shipped_import ∅ (Examples.quote_env 2400) 0
             Examples.reliance_text "channel" None false Scenarios.fresh_listener)
  = monitor Scenarios.fresh_listener
  /\ (execute_signal (Examples.quote_env 2400) 0 Examples.reliance_extracted "channel"
        Examples.reliance_text 1 Examples.service_on Examples.empty_monitor).1.1.1
     = (false, "Invalid: Options signal missing 'option_type' (CE/PE)").
Proof.
  pose proof (strike_without_option_type shipped_import ∅ (Examples.quote_env 2400) 0
                Examples.reliance_text "channel" None Scenarios.fresh_listener 1
                Examples.reliance_extracted Examples.service_on Examples.empty_monitor
                ltac:(by_eval) ltac:(by_eval) ltac:(by_eval)) as H.
  cbv zeta in H.
  destruct H as (_ & _ & _ & _ & _ & Hm & _ & _ & Hmsg).
  split; [exact Hm|].
  apply Hmsg; by_eval.
Defined.

End ListenerProps.

(** * Properties of the position update API *)

Module OrdersProps.
Import Py PyFacts PositionMonitor MonitorKeys MonitorFacts MonitorProps Orders.
Local Open Scope Z_scope.

Lemma same_frame_refl pid st : same_frame pid st st.
Proof. repeat split; auto. Qed.

Lemma same_frame_trans pid st1 st2 st3 :
  same_frame pid st1 st2 -> same_frame pid st2 st3 -> same_frame pid st1 st3.
Proof.
  intros (H1 & H2 & H3) (G1 & G2 & G3). split; [congruence|]. split.
  - intros o Ho. rewrite G2, H2 by exact Ho. reflexivity.
  - rewrite G3, H3. reflexivity.
Qed.

Lemma mutate_same_frame m pid st b st' :
  mutate m pid st = Ok (b, st') -> same_frame pid st st'.
Proof.
  intros H. apply mutate_frame in H as (H1 & H2 & H3 & H4).
  split; [exact H1|]. split; [exact H2|].
  destruct (active_positions st !! pid) as [p|] eqn:E.
  - destruct (H3 p eq_refl) as (p' & -> & _). split; eauto.
  - destruct (H4 eq_refl) as [_ ->]. rewrite E. reflexivity.
Qed.

(* the first position with the three names *)
Lemma find_position_spec keys st symbol exchange product pid :
  find_position keys st symbol exchange product = Some pid ->
  In pid keys
  /\ exists p, active_positions st !! pid = Some p
               /\ named p symbol exchange product = true.
Proof.
  induction keys as [|k keys IH]; cbn [find_position]; [discriminate|].
  destruct (active_positions st !! k) as [p|] eqn:E.
  - fold (named p symbol exchange product).
    destruct (named p symbol exchange product) eqn:En.
    + intros [= <-]. split; [left; reflexivity|]. exists p. split; assumption.
    + intros H. destruct (IH H) as [H1 H2]. split; [right; exact H1 | exact H2].
  - intros H. destruct (IH H) as [H1 H2]. split; [right; exact H1 | exact H2].
Qed.

(* a part of the view keeps the frame, and stops with an error only *)
Lemma handled_ok pid invalid ex st : step_ok pid st (handled invalid ex st).
Proof.
  destruct ex; cbn [handled step_ok error status code];
    (split; [apply same_frame_refl|]); split; tauto.
Qed.

Lemma sl_step_ok pid new_sl st : step_ok pid st (sl_step pid new_sl st).
Proof.
  unfold sl_step.
  assert (H : step_ok pid st
                match py_float new_sl with
                | Ok sl_val =>
                    match update_sl pid (VFloat sl_val) VNone st with
                    | Ok (true, st') => Go ["SL updated to " +:+ float_repr sl_val] st'
                    | Ok (false, st') => Go [] st'
                    | Raise ex => handled "Invalid SL value" ex st
                    end
                | Raise ex => handled "Invalid SL value" ex st
                end).
  { destruct (py_float new_sl) as [sl_val|ex]; [|apply handled_ok].
    destruct (update_sl pid (VFloat sl_val) VNone st) as [[[] st']|ex] eqn:E;
      [| |apply handled_ok];
      cbn [step_ok]; apply (mutate_same_frame (UpdateSl (VFloat sl_val) VNone) _ _ _ _ E). }
  destruct new_sl; try exact H. cbn [step_ok]. apply same_frame_refl.
Qed.

Lemma target_step_ok pid new_target st : step_ok pid st (target_step pid new_target st).
Proof.
  unfold target_step.
  assert (H : step_ok pid st
                match py_float new_target with
                | Ok tgt_val =>
                    match update_target pid (VFloat tgt_val) st with
                    | Ok (true, st') =>
                        Go ["Target updated to " +:+ float_repr tgt_val] st'
                    | Ok (false, st') => Go [] st'
                    | Raise ex => handled "Invalid Target value" ex st
                    end
                | Raise ex => handled "Invalid Target value" ex st
                end).
  { destruct (py_float new_target) as [tgt_val|ex]; [|apply handled_ok].
    destruct (update_target pid (VFloat tgt_val) st) as [[[] st']|ex] eqn:E;
      [| |apply handled_ok];
      cbn [step_ok]; apply (mutate_same_frame (UpdateTarget (VFloat tgt_val)) _ _ _ _ E). }
  destruct new_target; try exact H. cbn [step_ok]. apply same_frame_refl.
Qed.

Lemma targets_step_ok pid new_targets st : step_ok pid st (targets_step pid new_targets st).
Proof.
  unfold targets_step.
  destruct new_targets; try (cbn [step_ok]; apply same_frame_refl).
  destruct (floats_of (List.filter given l)) as [valid_targets|ex].
  2:{ cbn [step_ok error status code]. split; [apply same_frame_refl | tauto]. }
  destruct (update_targets pid (VList (map VFloat valid_targets)) st)
    as [[[] st']|ex] eqn:E.
  - pose proof (mutate_same_frame (UpdateTargets (VList (map VFloat valid_targets)))
                  _ _ _ _ E) as F1.
    destruct valid_targets as [|x rest]; [exact F1|].
    destruct (update_target pid (VFloat (py_max x rest)) st') as [[b st'']|ex'] eqn:E'.
    + cbn [step_ok]. eapply same_frame_trans; [exact F1|].
      apply (mutate_same_frame (UpdateTarget (VFloat (py_max x rest))) _ _ _ _ E').
    + cbn [step_ok error status code]. split; [exact F1 | tauto].
  - cbn [step_ok].
    apply (mutate_same_frame (UpdateTargets (VList (map VFloat valid_targets))) _ _ _ _ E).
  - cbn [step_ok error status code]. split; [apply same_frame_refl | tauto].
Qed.

(** X23. What an update request can do to the monitor. Whatever the request,
    [update_position_api] keeps the history, creates and removes no
    position, and leaves every position alone whose symbol, exchange and
    product are not those of the request. It answers with status 200, 400,
    404 or 500, and 'success' goes with 200 only; when it answers 404, or 400
    for a missing name, the monitor is exactly as it was. *)
Theorem update_position_frame keys rq st :
  let r := update_position_api keys rq st in
  position_history r.2 = position_history st
  /\ (forall o, is_Some (active_positions r.2 !! o) <-> is_Some (active_positions st !! o))
  /\ (forall o p symbol exchange product,
        rq_symbol rq = Some symbol -> rq_exchange rq = Some exchange ->
        rq_product rq = Some product ->
        active_positions st !! o = Some p ->
        named p symbol exchange product = false ->
        active_positions r.2 !! o = Some p)
  /\ (code r.1 = 404
      \/ (code r.1 = 400 /\ message r.1 = "Missing symbol, exchange or product") ->
      r.2 = st)
  /\ In (code r.1) [200; 400; 404; 500]
  /\ (status r.1 = "success" <-> code r.1 = 200).
Proof.
  cbv zeta.
  assert (Hsame : forall r st',
            r = (error 400 "Missing symbol, exchange or product", st')
            \/ r = (error 404 "Position not found in monitor", st') ->
            st' = st ->
            position_history r.2 = position_history st
            /\ (forall o, is_Some (active_positions r.2 !! o)
                          <-> is_Some (active_positions st !! o))
            /\ (forall o p symbol exchange product,
                  rq_symbol rq = Some symbol -> rq_exchange rq = Some exchange ->
                  rq_product rq = Some product ->
                  active_positions st !! o = Some p ->
                  named p symbol exchange product = false ->
                  active_positions r.2 !! o = Some p)
            /\ (code r.1 = 404
                \/ (code r.1 = 400
                    /\ message r.1 = "Missing symbol, exchange or product") ->
                r.2 = st)
            /\ In (code r.1) [200; 400; 404; 500]
            /\ (status r.1 = "success" <-> code r.1 = 200)).
  { intros r st' [->| ->] ->; cbn [fst snd error code status message In];
      repeat split; try tauto; try discriminate; try (intros; assumption);
      intros; lia. }
  unfold update_position_api.
  destruct (rq_symbol rq) as [symbol|]; [|eapply Hsame; [left|]; reflexivity].
  destruct (rq_exchange rq) as [exchange|]; [|eapply Hsame; [left|]; reflexivity].
  destruct (rq_product rq) as [product|]; [|eapply Hsame; [left|]; reflexivity].
  destruct (String.eqb symbol "" || String.eqb exchange "" || String.eqb product "");
    [eapply Hsame; [left|]; reflexivity|].
  destruct (find_position keys st symbol exchange product) as [pid|] eqn:Ef;
    [|eapply Hsame; [right|]; reflexivity].
  destruct (String.eqb pid ""); [eapply Hsame; [right|]; reflexivity|].
  apply find_position_spec in Ef as (_ & p0 & Hp0 & Hn0).
  (* what is left changes the position [pid] at most *)
  assert (Hframe : forall (r : response) st',
            same_frame pid st st' ->
            (code r = 200 /\ status r = "success")
            \/ (status r = "error"
                /\ ((code r = 400 /\ message r <> "Missing symbol, exchange or product")
                    \/ code r = 500)) ->
            position_history (r, st').2 = position_history st
            /\ (forall o, is_Some (active_positions (r, st').2 !! o)
                          <-> is_Some (active_positions st !! o))
            /\ (forall o p symbol0 exchange0 product0,
                  Some symbol = Some symbol0 -> Some exchange = Some exchange0 ->
                  Some product = Some product0 ->
                  active_positions st !! o = Some p ->
                  named p symbol0 exchange0 product0 = false ->
                  active_positions (r, st').2 !! o = Some p)
            /\ (code (r, st').1 = 404
                \/ (code (r, st').1 = 400
                    /\ message (r, st').1 = "Missing symbol, exchange or product") ->
                (r, st').2 = st)
            /\ In (code (r, st').1) [200; 400; 404; 500]
            /\ (status (r, st').1 = "success" <-> code (r, st').1 = 200)).
  { intros r st' (F1 & F2 & F3) Hr. cbn [fst snd].
    split; [exact F1|]. split; [|split; [|split; [|split]]].
    - intros o. destruct (decide (o = pid)) as [->|Hne]; [exact F3|].
      rewrite F2 by exact Hne. reflexivity.
    - intros o p s0 e0 p1 [= <-] [= <-] [= <-] Hp Hn.
      rewrite F2; [exact Hp|]. intros ->. congruence.
    - intros [H|[H H']]; exfalso.
      + destruct Hr as [[Hc _]|(_ & [[Hc _]|Hc])]; lia.
      + destruct Hr as [[Hc _]|(_ & [[_ Hm]|Hc])]; [lia | congruence | lia].
    - cbn [In]. destruct Hr as [[Hc _]|(_ & [[Hc _]|Hc])]; lia.
    - destruct Hr as [[Hc Hs]|(Hs & [[Hc _]|Hc])]; rewrite Hs, Hc;
        split; intros H; (reflexivity || discriminate || lia). }
  assert (Hstop : forall invalid ex st0 r0 st0',
            invalid <> "Missing symbol, exchange or product" ->
            handled invalid ex st0 = Stop r0 st0' ->
            status r0 = "error"
            /\ ((code r0 = 400 /\ message r0 <> "Missing symbol, exchange or product")
                \/ code r0 = 500)).
  { intros invalid ex st0 r0 st0' Hi H.
    destruct ex; cbn [handled] in H; injection H as <- _;
      cbn [error status code message]; split; try reflexivity;
      first [right; reflexivity | left; split; [reflexivity | exact Hi]]. }
  pose proof (sl_step_ok pid (rq_sl rq) st) as S1.
  destruct (sl_step pid (rq_sl rq) st) as [updates1 st1|r1 st1] eqn:E1.
  2:{ destruct S1 as (F & _). apply Hframe; [exact F|]. right.
      unfold sl_step in E1. destruct (rq_sl rq); try discriminate E1;
        repeat match type of E1 with
               | match ?x with _ => _ end = _ => destruct x
               end; try discriminate E1;
        (eapply Hstop; [|exact E1]; discriminate). }
  pose proof (target_step_ok pid (rq_target rq) st1) as S2.
  destruct (target_step pid (rq_target rq) st1) as [updates2 st2|r2 st2] eqn:E2.
  2:{ destruct S2 as (F & Hs & Hc).
      apply Hframe; [eapply same_frame_trans; eassumption|]. right.
      unfold target_step in E2. destruct (rq_target rq); try discriminate E2;
        repeat match type of E2 with
               | match ?x with _ => _ end = _ => destruct x
               end; try discriminate E2;
        (eapply Hstop; [|exact E2]; discriminate). }
  pose proof (targets_step_ok pid (rq_targets rq) st2) as S3.
  assert (F12 : same_frame pid st st2) by (eapply same_frame_trans; eassumption).
  destruct (targets_step pid (rq_targets rq) st2) as [updates3 st3|r3 st3] eqn:E3.
  2:{ destruct S3 as (F & Hs & Hc).
      apply Hframe; [eapply same_frame_trans; eassumption|]. right.
      unfold targets_step in E3. destruct (rq_targets rq); try discriminate E3;
        repeat match type of E3 with
               | match ?x with _ => _ end = _ => destruct x
               end; try discriminate E3; injection E3 as <- _;
        cbn [error status code message]; (split; [reflexivity|]); left;
        (split; [reflexivity | discriminate]). }
  assert (F13 : same_frame pid st st3) by (eapply same_frame_trans; eassumption).
  destruct (updates1 ++ updates2 ++ updates3) as [|u us].
  - apply Hframe; [exact F13|]. right. cbn [error status code message].
    split; [reflexivity|]. left. split; [reflexivity | discriminate].
  - apply Hframe; [exact F13|]. left. split; reflexivity.
Qed.

(* the view once the position is found *)
Lemma update_position_found keys rq st symbol exchange product pid :
  rq_symbol rq = Some symbol -> rq_exchange rq = Some exchange ->
  rq_product rq = Some product ->
  symbol <> "" -> exchange <> "" -> product <> "" ->
  find_position keys st symbol exchange product = Some pid -> pid <> "" ->
  update_position_api keys rq st =
    match sl_step pid (rq_sl rq) st with
    | Stop r st => (r, st)
    | Go updates1 st =>
        match target_step pid (rq_target rq) st with
        | Stop r st => (r, st)
        | Go updates2 st =>
            match targets_step pid (rq_targets rq) st with
            | Stop r st => (r, st)
            | Go updates3 st =>
                match updates1 ++ updates2 ++ updates3 with
                | [] => (error 400 "No valid updates provided", st)
                | updates =>
                    ({| code := 200; status := "success";
                        message := join ", " updates |}, st)
                end
            end
        end
    end.
Proof.
  intros Es Ee Ep H1 H2 H3 Hf Hp. unfold update_position_api.
  rewrite Es, Ee, Ep, Hf.
  apply String.eqb_neq in H1, H2, H3, Hp. rewrite H1, H2, H3, Hp. reflexivity.
Qed.

(** X24. An error answer does not mean that nothing was changed. A request
    with a valid new stop loss and a target that is a text float() refuses is
    answered 400 "Invalid Target value", and the stop loss of the position
    has been changed all the same: the stop loss is written before the
    target is read. *)
Theorem update_position_partial keys rq st symbol exchange product pid p sl_val t :
  rq_symbol rq = Some symbol -> rq_exchange rq = Some exchange ->
  rq_product rq = Some product ->
  symbol <> "" -> exchange <> "" -> product <> "" ->
  find_position keys st symbol exchange product = Some pid -> pid <> "" ->
  active_positions st !! pid = Some p -> is_Some (p !! "current_sl") ->
  rq_sl rq <> VNone -> py_float (rq_sl rq) = Ok sl_val ->
  rq_target rq = VStr t -> float_of_string t = None ->
  let r := update_position_api keys rq st in
  r.1 = error 400 "Invalid Target value"
  /\ active_positions r.2 !! pid = Some (<["current_sl" := VFloat sl_val]> p).
Proof.
  intros Hs He Hp Hs' He' Hp' Hf Hpid Hact [old Hold] Hsl Hfl Ht Hno r.
  unfold r. rewrite (update_position_found _ _ _ _ _ _ _ Hs He Hp Hs' He' Hp' Hf Hpid).
  assert (E1 : sl_step pid (rq_sl rq) st
               = Go ["SL updated to " +:+ float_repr sl_val]
                   (set_active pid (<["current_sl" := VFloat sl_val]> p) st)).
  { unfold sl_step. rewrite Hfl. unfold update_sl. rewrite Hact, Hold.
    cbn [truthy]. destruct (rq_sl rq); try reflexivity. congruence. }
  rewrite E1.
  assert (E2 : forall st0, target_step pid (rq_target rq) st0
                           = Stop (error 400 "Invalid Target value") st0).
  { intros st0. unfold target_step. rewrite Ht. cbn [py_float]. rewrite Hno.
    reflexivity. }
  rewrite E2. cbn [fst snd set_active active_positions].
  split; [reflexivity | apply lookup_insert_eq].
Qed.

Lemma update_position_partial_witness :
  (update_position_api ["ENTRY_ORDER_124"] Scenarios.sl_and_bad_target
     Examples.short_monitor).1
  = error 400 "Invalid Target value"
  /\ exists p,
       active_positions
         (update_position_api ["ENTRY_ORDER_124"] Scenarios.sl_and_bad_target
            Examples.short_monitor).2 !! "ENTRY_ORDER_124" = Some p
       /\ p !! "current_sl" = Some (VFloat 105.5).
Proof.
  destruct (add_position_lookup 1000000%Z "ENTRY_ORDER_124" (VStr "CRUDEOIL")
    (VStr "MCX") (VStr "SELL") (VInt 1) (VFloat 100) (VFloat 110) [90%float; 80%float]
    ∅ (VStr "aravind") (VStr "MIS") Examples.empty_monitor) as (p & Hp & _ & _ & Hsl & _).
  destruct (update_position_partial ["ENTRY_ORDER_124"] Scenarios.sl_and_bad_target
              Examples.short_monitor "CRUDEOIL" "MCX" "MIS" "ENTRY_ORDER_124" p
              105.5%float "abc" eq_refl eq_refl eq_refl
              ltac:(discriminate) ltac:(discriminate) ltac:(discriminate)
              ltac:(by_eval) ltac:(discriminate) Hp
              ltac:(rewrite Hsl; eauto) ltac:(discriminate) ltac:(by_eval)
              eq_refl ltac:(by_eval)) as [H1 H2].
  split; [exact H1|]. eexists. split; [exact H2 | apply lookup_insert_eq].
Defined.

(** X25. A list of targets sets the final target to its greatest member.
    For a request with a targets list and neither 'sl' nor 'target', the view
    drops the null and empty entries of the list, stores the others as
    numbers under 'targets' and, when any is left, their maximum under
    'final_target', whatever the side of the position: for a SELL position
    too the final target is the greatest target. All other keys of the
    position stay as they were, and the answer is 200 with "Targets updated
    to" and the list. *)
Theorem update_position_targets keys rq st symbol exchange product pid p l x rest :
  rq_symbol rq = Some symbol -> rq_exchange rq = Some exchange ->
  rq_product rq = Some product ->
  symbol <> "" -> exchange <> "" -> product <> "" ->
  find_position keys st symbol exchange product = Some pid -> pid <> "" ->
  active_positions st !! pid = Some p ->
  rq_sl rq = VNone -> rq_target rq = VNone -> rq_targets rq = VList l ->
  floats_of (List.filter given l) = Ok (x :: rest) ->
  let r := update_position_api keys rq st in
  r.1 = {| code := 200; status := "success";
           message := "Targets updated to " +:+ py_repr (VList (map VFloat (x :: rest))) |}
  /\ exists p',
       active_positions r.2 !! pid = Some p'
       /\ p' !! "targets" = Some (VList (map VFloat (x :: rest)))
       /\ p' !! "final_target" = Some (VFloat (py_max x rest))
       /\ forall k, k <> "targets" -> k <> "final_target" -> p' !! k = p !! k.
Proof.
  intros Hs He Hp Hs' He' Hp' Hf Hpid Hact Hsl Htg Hl Hfl r.
  unfold r. rewrite (update_position_found _ _ _ _ _ _ _ Hs He Hp Hs' He' Hp' Hf Hpid).
  rewrite Hsl, Htg, Hl. cbn [sl_step target_step].
  unfold targets_step. rewrite Hfl.
  unfold update_targets. rewrite (assign_present _ _ _ _ _ Hact).
  unfold update_target.
  rewrite (assign_present pid "final_target" _ _
             (<["targets" := VList (map VFloat (x :: rest))]> p))
    by (cbn [set_active active_positions]; apply lookup_insert_eq).
  cbn [app fst snd join].
  split; [reflexivity|]. eexists. split.
  - cbn [set_active active_positions]. apply lookup_insert_eq.
  - split; [rewrite lookup_insert_ne by discriminate; apply lookup_insert_eq|].
    split; [apply lookup_insert_eq|].
    intros k H1 H2. rewrite !lookup_insert_ne by congruence. reflexivity.
Qed.

Lemma update_position_targets_witness :
  exists p',
    active_positions
      (update_position_api ["ENTRY_ORDER_124"] Scenarios.new_targets
         Examples.short_monitor).2 !! "ENTRY_ORDER_124" = Some p'
    /\ p' !! "final_target" = Some (VFloat 95)
    /\ p' !! "action" = Some (VStr "SELL").
Proof.
  destruct (add_position_lookup 1000000%Z "ENTRY_ORDER_124" (VStr "CRUDEOIL")
    (VStr "MCX") (VStr "SELL") (VInt 1) (VFloat 100) (VFloat 110) [90%float; 80%float]
    ∅ (VStr "aravind") (VStr "MIS") Examples.empty_monitor) as (p & Hp & _).
  destruct (update_position_targets ["ENTRY_ORDER_124"] Scenarios.new_targets
              Examples.short_monitor "CRUDEOIL" "MCX" "MIS" "ENTRY_ORDER_124" p
              [VInt 95; VStr ""; VStr "85.5"; VNone; VInt 90] 95%float
              [85.5%float; 90%float] eq_refl eq_refl eq_refl
              ltac:(discriminate) ltac:(discriminate) ltac:(discriminate)
              ltac:(by_eval) ltac:(discriminate) Hp eq_refl eq_refl eq_refl
              ltac:(by_eval)) as [_ (p' & H1 & _ & H2 & H3)].
  exists p'. split; [exact H1|]. split; [rewrite H2; f_equal; f_equal; by_eval|].
  rewrite H3 by discriminate.
  clear -Hp. unfold Examples.short_monitor in Hp.
  unfold add_position, set_active in Hp. cbn [active_positions] in Hp.
  rewrite lookup_insert_eq in Hp. injection Hp as <-. reflexivity.
Defined.


End OrdersProps.
